(** * polybot2: the trade authorization pipeline, embedded and verified

    Shallow embedding of the TypeScript sources
      - src/storage/limits.ts                 (spend ledger)
      - src/backend/validateAgentOutput.ts    (output validator)
      - src/backend/buildValidationContext.ts (validation context)
      - src/backend/buildTradeRequest.ts      (request builder)
      - src/discord/classifyMessageIntent.ts  (intent classifier)
      - src/agent/intentParser.ts             (shape validation of the
                                               parser's untrusted output)
      - src/discord/DiscordMessageRouter.ts   (router, confirmation registry)

    Conventions.
      - A JavaScript [number] holding an amount of cents is an exact rational
        ([Q]); [Number.isInteger] is "the reduced denominator is 1".  Clock
        readings (epoch milliseconds) are integers ([Z]).
      - A [Map] is a stdpp [gmap].  The ledger's inner maps are mutated in
        place by the source, so every function that touches one returns the
        updated ledger.
      - limits.ts is embedded as it runs with REDIS_URL unset: [getRedis()]
        returns [null] and the ledger is the in-memory map.
      - Strings are [string]s of ASCII code units; [\s] and [trim] know the
        ASCII white space.
      - Asynchronous collaborators (intent parser, market data, trader) are
        inputs of the operation that awaits them, and an operation reads the
        clock once. *)

From Stdlib Require Import ZArith QArith Qabs Qround Lqa Ascii String List Bool.
From Stdlib Require Import DecimalString DecimalZ.
From stdpp Require Import base option gmap strings list fin_maps.

Open Scope Z_scope.
Open Scope string_scope.

(** ** src/storage/limits.ts *)

(** Per-user daily spend limit in cents ($5.00). *)
Definition DAILY_LIMIT_CENTS : Q := 500 # 1.

(** Deployment configuration read from [process.env]. *)
Record Config := {
  env_OWNER_DISCORD_ID : option string;
  env_POLYMARKET_PROXY_WALLET : option string
}.

Definition OWNER_DISCORD_ID (cfg : Config) : string :=
  default "1161631744768884746" (env_OWNER_DISCORD_ID cfg).

Definition isOwnerExempt (cfg : Config) (discordUserId : string) : bool :=
  String.eqb discordUserId (OWNER_DISCORD_ID cfg).

Definition MS_PER_DAY : Z := 86400000.

(** [utcDateKey]: the source renders the UTC day of the clock as
    "YYYY-MM-DD"; the embedding keeps the day number since the epoch, of
    which that string is a one-to-one rendering. *)
Definition utcDateKey (nowMs : Z) : Z := nowMs / MS_PER_DAY.

(** The in-memory ledger: user -> day bucket -> cents. *)
Abbreviation Ledger := (gmap string (gmap Z Q)).

Definition evictStaleEntries (nowMs : Z) (userMap : gmap Z Q) : gmap Z Q :=
  let today := utcDateKey nowMs in
  let yesterday := utcDateKey (nowMs - MS_PER_DAY) in
  filter (fun kv => fst kv = today \/ fst kv = yesterday) userMap.

Definition memGetSpent (nowMs : Z) (discordUserId : string)
    (spendLedger : Ledger) : Q * Ledger :=
  let dayKey := utcDateKey nowMs in
  match spendLedger !! discordUserId with
  | None => (0%Q, spendLedger)
  | Some userMap =>
      let userMap' := evictStaleEntries nowMs userMap in
      (default 0%Q (userMap' !! dayKey),
       <[discordUserId := userMap']> spendLedger)
  end.

Definition memRecordSpend (nowMs : Z) (discordUserId : string)
    (amountCents : Q) (spendLedger : Ledger) : Ledger :=
  let dayKey := utcDateKey nowMs in
  let userMap := default ∅ (spendLedger !! discordUserId) in
  let current := default 0%Q (userMap !! dayKey) in
  <[discordUserId := <[dayKey := (current + amountCents)%Q]> userMap]>
    spendLedger.

(** The exported functions, with [getRedis()] returning [null] (the
    in-memory backend). *)
Definition getSpentToday (nowMs : Z) (discordUserId : string)
    (spendLedger : Ledger) : Q * Ledger :=
  memGetSpent nowMs discordUserId spendLedger.

Definition Qmax0 (q : Q) : Q := if Qle_bool 0 q then q else 0%Q.

Definition getRemainingToday (nowMs : Z) (discordUserId : string)
    (spendLedger : Ledger) : Q * Ledger :=
  let '(spent, l) := getSpentToday nowMs discordUserId spendLedger in
  (Qmax0 (DAILY_LIMIT_CENTS - spent), l).

Definition canSpend (nowMs : Z) (discordUserId : string) (amountCents : Q)
    (spendLedger : Ledger) : bool * Ledger :=
  let '(spent, l) := getSpentToday nowMs discordUserId spendLedger in
  (Qle_bool (spent + amountCents) DAILY_LIMIT_CENTS, l).

Definition recordSpend (nowMs : Z) (discordUserId : string) (amountCents : Q)
    (spendLedger : Ledger) : Ledger :=
  memRecordSpend nowMs discordUserId amountCents spendLedger.

Definition trySpend (nowMs : Z) (discordUserId : string) (amountCents : Q)
    (spendLedger : Ledger) : bool * Ledger :=
  let '(spent, l) := memGetSpent nowMs discordUserId spendLedger in
  if negb (Qle_bool (spent + amountCents) DAILY_LIMIT_CENTS) then (false, l)
  else (true, memRecordSpend nowMs discordUserId amountCents l).

(** The counter a later [getSpentToday] reports, without running the
    eviction: the bucket of the clock's day, 0 when there is none. *)
Definition spentOn (day : Z) (discordUserId : string) (l : Ledger) : Q :=
  default 0%Q (default ∅ (l !! discordUserId) !! day).

(** ** JavaScript strings (ASCII code units) *)

Definition isDigit (c : ascii) : bool :=
  let n := nat_of_ascii c in ((48 <=? n) && (n <=? 57))%nat.

Definition isUpper (c : ascii) : bool :=
  let n := nat_of_ascii c in ((65 <=? n) && (n <=? 90))%nat.

Definition isLower (c : ascii) : bool :=
  let n := nat_of_ascii c in ((97 <=? n) && (n <=? 122))%nat.

(** [\w] *)
Definition isWordChar (c : ascii) : bool :=
  isDigit c || isUpper c || isLower c || Ascii.eqb c "_".

(** [\s] and the characters removed by [trim]: tab, line feed, vertical
    tab, form feed, carriage return, space. *)
Definition isSpace (c : ascii) : bool :=
  let n := nat_of_ascii c in (((9 <=? n) && (n <=? 13)) || (n =? 32))%nat.

(** [.] matches anything but a line terminator. *)
Definition isNotLineTerminator (c : ascii) : bool :=
  let n := nat_of_ascii c in negb ((n =? 10) || (n =? 13))%nat.

Definition lowerChar (c : ascii) : ascii :=
  if isUpper c then ascii_of_nat (nat_of_ascii c + 32) else c.

Fixpoint dropSpaces (s : list ascii) : list ascii :=
  match s with
  | c :: s' => if isSpace c then dropSpaces s' else s
  | [] => []
  end.

Definition trimChars (s : list ascii) : list ascii :=
  rev (dropSpaces (rev (dropSpaces s))).

Definition trim (s : string) : string :=
  string_of_list_ascii (trimChars (list_ascii_of_string s)).

Definition toLowerCase (s : string) : string :=
  string_of_list_ascii (map lowerChar (list_ascii_of_string s)).

(** [String(n)] for an integer [n]: its decimal digits. *)
Definition intToString (z : Z) : string :=
  NilZero.string_of_int (Z.to_int z).

(** [Number.isInteger] *)
Definition isInteger (q : Q) : bool :=
  Pos.eqb (Qden (Qred q)) 1.

(** [Math.floor] and [Math.round] (ties go up). *)
Definition Math_floor (q : Q) : Z := Qfloor q.
Definition Math_round (q : Q) : Z := Qfloor (q + (1 # 2)).

Fixpoint fractionDigits (fuel : nat) (num : Z) (den : Z) : string :=
  match fuel with
  | O => ""
  | S fuel' =>
      if Z.eqb num 0 then ""
      else intToString (num * 10 / den)
             ++ fractionDigits fuel' (num * 10 mod den) den
  end.

(** [String(q)]: the decimal digits of an integer; for a fraction, sign,
    integer part, ".", and up to 20 digits of its decimal expansion. *)
Definition numberToString (q : Q) : string :=
  if isInteger q then intToString (Qnum (Qred q))
  else
    let a := Qabs q in
    let ip := Qfloor a in
    (if Qle_bool 0 q then "" else "-")
      ++ intToString ip ++ "."
      ++ fractionDigits 20 (Qnum a - ip * Zpos (Qden a)) (Zpos (Qden a)).

Definition pad2 (z : Z) : string :=
  if Z.ltb z 10 then "0" ++ intToString z else intToString z.

(** [q.toFixed(2)] *)
Definition toFixed2 (q : Q) : string :=
  let n := Math_round (Qabs q * (100 # 1)) in
  (if Qle_bool 0 q then "" else "-")
    ++ intToString (n / 100) ++ "." ++ pad2 (n mod 100).

(** [Array.prototype.join] *)
Fixpoint join (sep : string) (parts : list string) : string :=
  match parts with
  | [] => ""
  | [p] => p
  | p :: rest => p ++ sep ++ join sep rest
  end.

(** ** Regular expressions

    The fragment of JavaScript's regular expressions the sources use, with
    ordered choice, greedy repetition, numbered capture groups, [^] and
    [\b], run by a backtracking matcher in continuation-passing style. *)

Inductive regex : Type :=
| REps : regex
| RChar : (ascii -> bool) -> regex
| RSeq : regex -> regex -> regex
| RAlt : regex -> regex -> regex
| RStar : regex -> regex
| RBol : regex
| RWordB : regex
| RGroup : nat -> regex -> regex.

Definition Captures := list (nat * list ascii).

Definition isWordOpt (c : option ascii) : bool :=
  match c with Some c => isWordChar c | None => false end.

Fixpoint rmatch {A : Type} (r : regex) (prev : option ascii)
    (s : list ascii) (caps : Captures)
    (k : option ascii -> list ascii -> Captures -> option A)
    {struct r} : option A :=
  match r with
  | REps => k prev s caps
  | RChar p =>
      match s with
      | c :: s' => if p c then k (Some c) s' caps else None
      | [] => None
      end
  | RSeq r1 r2 =>
      rmatch r1 prev s caps (fun prev' s' caps' => rmatch r2 prev' s' caps' k)
  | RAlt r1 r2 =>
      match rmatch r1 prev s caps k with
      | Some a => Some a
      | None => rmatch r2 prev s caps k
      end
  | RStar r1 =>
      (fix loop (fuel : nat) (prev : option ascii) (s : list ascii)
           (caps : Captures) {struct fuel} : option A :=
         match fuel with
         | O => k prev s caps
         | S fuel' =>
             match
               rmatch r1 prev s caps
                 (fun prev' s' caps' =>
                    if (length s' <? length s)%nat
                    then loop fuel' prev' s' caps'
                    else None)
             with
             | Some a => Some a
             | None => k prev s caps
             end
         end) (S (length s)) prev s caps
  | RBol =>
      match prev with
      | None => k prev s caps
      | Some _ => None
      end
  | RWordB =>
      if xorb (isWordOpt prev) (isWordOpt (head s)) then k prev s caps
      else None
  | RGroup n r1 =>
      rmatch r1 prev s caps
        (fun prev' s' caps' =>
           k prev' s' ((n, take (length s - length s') s) :: caps'))
  end.

(** Leftmost match, trying every start index in turn. *)
Fixpoint search (r : regex) (prev : option ascii) (s : list ascii)
    : option Captures :=
  match rmatch r prev s [] (fun _ _ caps => Some caps) with
  | Some caps => Some caps
  | None =>
      match s with
      | [] => None
      | c :: s' => search r (Some c) s'
      end
  end.

(** [str.match(re)] (a regex without the [g] flag) and [re.test(str)]. *)
Definition regexMatch (r : regex) (str : string) : option Captures :=
  search r None (list_ascii_of_string str).

Definition test (r : regex) (str : string) : bool :=
  bool_decide (is_Some (regexMatch r str)).

Fixpoint group (n : nat) (caps : Captures) : option string :=
  match caps with
  | [] => None
  | (m, v) :: rest =>
      if Nat.eqb m n then Some (string_of_list_ascii v) else group n rest
  end.

(** Pattern combinators. [lit ci s] is the literal [s], compared without
    regard to case when the pattern carries the [i] flag. *)
Definition chr (ci : bool) (c : ascii) : regex :=
  RChar (fun x => Ascii.eqb (if ci then lowerChar x else x) c).

Fixpoint litChars (ci : bool) (s : list ascii) : regex :=
  match s with
  | [] => REps
  | [c] => chr ci c
  | c :: s' => RSeq (chr ci c) (litChars ci s')
  end.

Definition lit (ci : bool) (s : string) : regex :=
  litChars ci (list_ascii_of_string s).

Fixpoint alts (rs : list regex) : regex :=
  match rs with
  | [] => RChar (fun _ => false)
  | [r] => r
  | r :: rs' => RAlt r (alts rs')
  end.

Fixpoint seqs (rs : list regex) : regex :=
  match rs with
  | [] => REps
  | [r] => r
  | r :: rs' => RSeq r (seqs rs')
  end.

Definition opt (r : regex) : regex := RAlt r REps.
Definition plus (r : regex) : regex := RSeq r (RStar r).
Fixpoint times (n : nat) (r : regex) : regex :=
  match n with
  | O => REps
  | S n' => RSeq r (times n' r)
  end.

Definition ws : regex := RChar isSpace.
Definition digit : regex := RChar isDigit.
Definition word : regex := RChar isWordChar.
Definition anyChar : regex := RChar isNotLineTerminator.

(** [\d+(?:\.\d{1,2})?] *)
Definition decimalAmount : regex :=
  seqs [plus digit; opt (seqs [lit false "."; digit; opt digit])].

(** ** src/discord/classifyMessageIntent.ts *)

Inductive MessageIntentPipeline := READ | WRITE.

(** [/\b(bet|place|buy|sell|trade)\b/i] *)
Definition WRITE_ACTION_VERB_PATTERN : regex :=
  seqs [RWordB;
        alts (map (lit true) ["bet"; "place"; "buy"; "sell"; "trade"]);
        RWordB].

(** [/(\$\s*\d+(?:\.\d{1,2})?)|(\b\d+(?:\.\d{1,2})?\s*(dollars?|usd|bucks?)\b)/],
    with flag [i] when [ci] is set. *)
Definition moneyReference (ci : bool) : regex :=
  RAlt
    (RGroup 1 (seqs [lit ci "$"; RStar ws; decimalAmount]))
    (RGroup 2
       (seqs [RWordB; decimalAmount; RStar ws;
              RGroup 3
                (alts [seqs [lit ci "dollar"; opt (lit ci "s")];
                       lit ci "usd";
                       seqs [lit ci "buck"; opt (lit ci "s")]]);
              RWordB])).

Definition MONEY_REFERENCE_PATTERN : regex := moneyReference true.

(** [/\?|^\s*(what|why|how|when|where|who|which|can|could|would|should|is|are|do|does|did)\b/i] *)
Definition QUESTION_PATTERN : regex :=
  RAlt (lit true "?")
    (seqs [RBol; RStar ws;
           RGroup 1
             (alts (map (lit true)
                ["what"; "why"; "how"; "when"; "where"; "who"; "which";
                 "can"; "could"; "would"; "should"; "is"; "are"; "do";
                 "does"; "did"]));
           RWordB]).

(** [/\b(balance|portfolio|positions?|trade\s+history|history|connect\s+account|verify|disconnect|status|linked\s+wallet|recent\s+trades?|past\s+\w+\s+trades?|last\s+\w+\s+trades?)\b/i] *)
Definition ACCOUNT_WRITE_PATTERN : regex :=
  let L := lit true in
  seqs [RWordB;
        RGroup 1
          (alts [L "balance"; L "portfolio";
                 seqs [L "position"; opt (L "s")];
                 seqs [L "trade"; plus ws; L "history"];
                 L "history";
                 seqs [L "connect"; plus ws; L "account"];
                 L "verify"; L "disconnect"; L "status";
                 seqs [L "linked"; plus ws; L "wallet"];
                 seqs [L "recent"; plus ws; L "trade"; opt (L "s")];
                 seqs [L "past"; plus ws; plus word; plus ws; L "trade";
                       opt (L "s")];
                 seqs [L "last"; plus ws; plus word; plus ws; L "trade";
                       opt (L "s")]]);
        RWordB].

Definition classifyMessageIntent (message : string) : MessageIntentPipeline :=
  let normalized := trim message in
  if Nat.eqb (String.length normalized) 0 then READ
  else if test ACCOUNT_WRITE_PATTERN normalized then WRITE
  else if test QUESTION_PATTERN normalized then READ
  else
    let hasWriteActionVerb := test WRITE_ACTION_VERB_PATTERN normalized in
    let hasMonetaryReference := test MONEY_REFERENCE_PATTERN normalized in
    if hasWriteActionVerb && hasMonetaryReference then WRITE
    else READ.

(** ** src/types.ts *)

Inductive Outcome := YES | NO.
Inductive TradeAction := BUY | SELL.
Inductive MarketStatus := active | closed | paused.

Definition outcomeToString (o : Outcome) : string :=
  match o with YES => "YES" | NO => "NO" end.

Definition isBUY (a : TradeAction) : bool :=
  match a with BUY => true | SELL => false end.

Definition isActive (s : MarketStatus) : bool :=
  match s with active => true | _ => false end.

Record UserIdentity := {
  discordUserId : string;
  polymarketAccountId : string
}.

Record Market := {
  market_id : string;
  market_question : string;
  market_status : MarketStatus;
  market_outcomes : list Outcome;
  market_outcomePrices : list Q;
  market_volume : Q;
  market_slug : option string;
  market_eventSlug : option string
}.

Record TradeRequest := {
  req_identity : UserIdentity;
  req_market : Market;
  req_outcome : Outcome;
  req_action : TradeAction;
  req_amountCents : Q;
  req_idempotencyKey : string;
  req_requestedAtMs : Z
}.

Inductive TradeErrorCode :=
| TE_LIMIT_EXCEEDED | TE_INVALID_MARKET | TE_MARKET_NOT_ACTIVE
| TE_INVALID_AMOUNT | TE_RATE_LIMITED | TE_ABUSE_BLOCKED
| TE_UPSTREAM_UNAVAILABLE | TE_INTERNAL_ERROR.

Inductive TradeResult :=
| TradeResultSuccess (tradeId : string) (userId : string) (marketId : string)
    (outcome : Outcome) (amountCents : Q) (executedAtMs : Z)
| TradeResultFailure (errorCode : TradeErrorCode) (message : option string)
    (failedAtMs : Z).

Definition tradeOk (r : TradeResult) : bool :=
  match r with TradeResultSuccess _ _ _ _ _ _ => true | _ => false end.

(** The strict JSON contract produced by the intent parser. *)
Inductive AgentOutput :=
| place_bet (userId : string) (marketId : string) (outcome : Outcome)
    (action : option TradeAction) (amountCents : Q) (rawText : option string)
| get_balance (userId : string) (rawText : option string)
| get_trade_history (userId : string) (limit : option Q)
    (rawText : option string)
| query_market (userId : string) (marketId : option string)
    (query : option string) (rawText : option string).

(** ** src/agent/intentParser.ts *)

(** A parsed JSON value; a number is [None] when it is not finite, and an
    object lists its own properties, each key once. *)
#[warnings="-register-all"]
Inductive JsonValue :=
| JNull
| JBool (b : bool)
| JNumber (n : option Q)
| JString (s : string)
| JArray (items : list JsonValue)
| JObject (fields : list (string * JsonValue)).

(** [value.key]: [None] is [undefined]. *)
Fixpoint property (key : string) (fields : list (string * JsonValue))
    : option JsonValue :=
  match fields with
  | [] => None
  | (k, v) :: rest => if String.eqb k key then Some v else property key rest
  end.

Definition isJsonString (v : option JsonValue) : bool :=
  match v with Some (JString _) => true | _ => false end.

Definition isUndefined (v : option JsonValue) : bool :=
  match v with None => true | Some _ => false end.

Definition isFiniteNumber (v : option JsonValue) : bool :=
  match v with Some (JNumber (Some _)) => true | _ => false end.

Definition isStringIn (allowed : list string) (v : option JsonValue) : bool :=
  match v with
  | Some (JString s) => existsb (String.eqb s) allowed
  | _ => false
  end.

Definition SUPPORTED_INTENTS : list string :=
  ["place_bet"; "get_balance"; "get_trade_history"; "query_market"].

Definition hasValidRawText (fields : list (string * JsonValue)) : bool :=
  isUndefined (property "rawText" fields)
  || isJsonString (property "rawText" fields).

Definition hasOnlyKeys (fields : list (string * JsonValue))
    (allowed : list string) : bool :=
  forallb (fun kv => existsb (String.eqb (fst kv)) allowed) fields.

Definition intentIs (name : string) (fields : list (string * JsonValue))
    : bool :=
  isStringIn [name] (property "intent" fields).

(** The shape validator of the parser's output. *)
Definition isAgentOutput (value : JsonValue) : bool :=
  match value with
  | JObject fields =>
      if negb (isStringIn SUPPORTED_INTENTS (property "intent" fields))
      then false
      else if negb (isJsonString (property "userId" fields)) then false
      else if negb (hasValidRawText fields) then false
      else if intentIs "place_bet" fields then
        if negb (isJsonString (property "marketId" fields))
           || negb (isStringIn ["YES"; "NO"] (property "outcome" fields))
           || negb (isFiniteNumber (property "amountCents" fields))
        then false
        else if negb (isUndefined (property "action" fields))
                && negb (isStringIn ["BUY"; "SELL"] (property "action" fields))
        then false
        else hasOnlyKeys fields
               ["intent"; "userId"; "marketId"; "outcome"; "action";
                "amountCents"; "rawText"]
      else if intentIs "get_balance" fields then
        hasOnlyKeys fields ["intent"; "userId"; "rawText"]
      else if intentIs "get_trade_history" fields then
        if negb (isUndefined (property "limit" fields))
           && negb (isFiniteNumber (property "limit" fields))
        then false
        else hasOnlyKeys fields ["intent"; "userId"; "limit"; "rawText"]
      else if intentIs "query_market" fields then
        if (negb (isUndefined (property "marketId" fields))
            && negb (isJsonString (property "marketId" fields)))
           || (negb (isUndefined (property "query" fields))
               && negb (isJsonString (property "query" fields)))
        then false
        else hasOnlyKeys fields
               ["intent"; "userId"; "marketId"; "query"; "rawText"]
      else false
  | _ => false
  end.

Definition stringOf (v : option JsonValue) : string :=
  match v with Some (JString s) => s | _ => "" end.

Definition optionalString (v : option JsonValue) : option string :=
  match v with Some (JString s) => Some s | _ => None end.

Definition optionalNumber (v : option JsonValue) : option Q :=
  match v with Some (JNumber n) => n | _ => None end.

(** The typed [AgentOutput] of an object that passed [isAgentOutput]. *)
Definition toBrandedAgentOutput (fields : list (string * JsonValue))
    : AgentOutput :=
  let userId := stringOf (property "userId" fields) in
  let rawText := optionalString (property "rawText" fields) in
  if intentIs "place_bet" fields then
    place_bet userId (stringOf (property "marketId" fields))
      (if isStringIn ["YES"] (property "outcome" fields) then YES else NO)
      (Some (if isStringIn ["SELL"] (property "action" fields)
             then SELL else BUY))
      (default 0%Q (optionalNumber (property "amountCents" fields)))
      rawText
  else if intentIs "get_balance" fields then get_balance userId rawText
  else if intentIs "get_trade_history" fields then
    get_trade_history userId (optionalNumber (property "limit" fields)) rawText
  else
    query_market userId
      (match optionalString (property "marketId" fields) with
       | Some m => if String.eqb m "" then None else Some m
       | None => None
       end)
      (optionalString (property "query" fields))
      rawText.

(** The language model is a collaborator: [hasGeminiKeys] says whether a
    key is configured, and [callGemini] gives the JSON value its reply
    parses to ([None] when there is no reply, the call fails, or the reply
    is not JSON). *)
Definition parseIntentWith (hasGeminiKeys : bool)
    (callGemini : string -> string -> option JsonValue)
    (rawMessage userId : string) : option AgentOutput :=
  if Nat.eqb (String.length (trim rawMessage)) 0 then None
  else if negb hasGeminiKeys then None
  else
    match callGemini rawMessage userId with
    | None => None
    | Some JNull => None
    | Some parsed =>
        if negb (isAgentOutput parsed) then None
        else
          match parsed with
          | JObject fields =>
              if negb (String.eqb (stringOf (property "userId" fields)) userId)
              then None
              else Some (toBrandedAgentOutput fields)
          | _ => None
          end
    end.

(** ** src/backend/validateAgentOutput.ts *)

Definition HOURLY_LIMIT_CENTS : Q := 500 # 1.

Inductive ValidationErrorCode :=
| ACCOUNT_NOT_CONNECTED | INVALID_MARKET | MARKET_NOT_ACTIVE
| INVALID_AMOUNT | LIMIT_EXCEEDED.

Inductive ValidationResult :=
| ValidationOk
| ValidationErr (code : ValidationErrorCode).

Record ValidationContext := {
  ctx_polymarketAccountId : option string;
  remainingDailyLimitCents : Q;
  spentThisHourCents : Q;
  marketLookup : string -> option (string * MarketStatus)
}.

Definition validateAgentOutput (agentOutput : AgentOutput)
    (context : ValidationContext) : ValidationResult :=
  match agentOutput with
  | place_bet _ marketId _ _ amountCents _ =>
      match ctx_polymarketAccountId context with
      | None => ValidationErr ACCOUNT_NOT_CONNECTED
      | Some _ =>
          match marketLookup context marketId with
          | None => ValidationErr INVALID_MARKET
          | Some (_, status) =>
              if negb (isActive status) then ValidationErr MARKET_NOT_ACTIVE
              else if negb (isInteger amountCents)
                   then ValidationErr INVALID_AMOUNT
              else if Qle_bool amountCents 0
                   then ValidationErr INVALID_AMOUNT
              else if negb (Qle_bool amountCents
                              (remainingDailyLimitCents context))
                   then ValidationErr LIMIT_EXCEEDED
              else if negb (Qle_bool
                              (spentThisHourCents context + amountCents)
                              HOURLY_LIMIT_CENTS)
                   then ValidationErr LIMIT_EXCEEDED
              else ValidationOk
          end
      end
  | _ => ValidationOk
  end.

(** ** src/backend/buildValidationContext.ts *)

Definition DAILY_LIMIT_CENTS_STUB : Q := 500 # 1.
Definition SPENT_THIS_HOUR_CENTS_STUB : Q := 0.

(** [buildMarketStatusIndex]: [index.set] for every market of the search
    result in turn, so a later market overrides an earlier one with the
    same id; [None] stands for a search that threw. *)
Definition buildMarketStatusIndex (searchResult : option (list Market))
    : gmap string (string * MarketStatus) :=
  match searchResult with
  | Some markets =>
      fold_left
        (fun index market =>
           <[market_id market := (market_id market, market_status market)]>
             index)
        markets ∅
  | None => ∅
  end.

(** [linkedAccount] is the answer of the account-link store (the id of an
    [ok] result), [searchResult] that of [searchMarketsByText('')]. *)
Definition buildValidationContext (cfg : Config)
    (linkedAccount : option string) (searchResult : option (list Market))
    : ValidationContext :=
  let leaderWallet := env_POLYMARKET_PROXY_WALLET cfg in
  let marketStatusIndex := buildMarketStatusIndex searchResult in
  {| ctx_polymarketAccountId :=
       match linkedAccount with Some a => Some a | None => leaderWallet end;
     remainingDailyLimitCents := DAILY_LIMIT_CENTS_STUB;
     spentThisHourCents := SPENT_THIS_HOUR_CENTS_STUB;
     marketLookup := fun marketId => marketStatusIndex !! marketId |}.

(** ** src/backend/buildTradeRequest.ts *)

Definition IDEMPOTENCY_WINDOW_MS : Z := 5 * 60 * 1000.

Record BuildTradeRequestContext := {
  bctx_identity : UserIdentity;
  bctx_market : Market;
  bctx_nowMs : Z
}.

Record IdempotencyKeyInput := {
  iki_identity : UserIdentity;
  iki_marketId : string;
  iki_outcome : Outcome;
  iki_amountCents : Q;
  iki_nowMs : Z;
  iki_windowMs : Z
}.

Definition createDeterministicIdempotencyKey (input : IdempotencyKeyInput)
    : string :=
  let bucket := iki_nowMs input / iki_windowMs input in
  join ":"
    [discordUserId (iki_identity input);
     polymarketAccountId (iki_identity input);
     iki_marketId input;
     outcomeToString (iki_outcome input);
     numberToString (iki_amountCents input);
     intToString bucket].

(** [None] is the thrown contract violation (a non-trade intent). *)
Definition buildTradeRequest (agentOutput : AgentOutput)
    (context : BuildTradeRequestContext) : option TradeRequest :=
  match agentOutput with
  | place_bet _ _ outcome action amountCents _ =>
      let idempotencyKey :=
        createDeterministicIdempotencyKey
          {| iki_identity := bctx_identity context;
             iki_marketId := market_id (bctx_market context);
             iki_outcome := outcome;
             iki_amountCents := amountCents;
             iki_nowMs := bctx_nowMs context;
             iki_windowMs := IDEMPOTENCY_WINDOW_MS |} in
      Some {| req_identity := bctx_identity context;
              req_market := bctx_market context;
              req_outcome := outcome;
              req_action := default BUY action;
              req_amountCents := amountCents;
              req_idempotencyKey := idempotencyKey;
              req_requestedAtMs := bctx_nowMs context |}
  | _ => None
  end.

(** ** src/discord/DiscordMessageRouter.ts *)

Record PolymarketActivityRow := {
  activity_timestamp : option Z;
  activity_type : option string;
  activity_usdcSize : option Q;
  activity_size : option Q;
  activity_price : option Q;
  activity_title : option string;
  activity_slug : option string;
  activity_conditionId : option string;
  activity_outcome : option string;
  activity_side : option string
}.

(** The text of a reply: the fixed sentences verbatim, the formatted
    reports by the values they are formatted from. *)
Inductive TextContent :=
| Plain (content : string)
| WalletBalance (address : string)
| TradingWalletOwner (availableCents : Q)
| TradingWallet (availableCents spent remaining : Q)
| ActivityEntries (limit : Q) (activities : list PolymarketActivityRow)
| RecentTrades (limit : Q) (trades : list TradeResult)
| DailyLimitReached (remainingDollars limitDollars : string)
| TradeResultMessage (result : TradeResult) (marketQuestion : string)
    (outcome : Outcome) (action : TradeAction) (amountCents : Q).

Inductive RouteResult :=
| RText (content : TextContent)
| RConfirm (confirmId : string) (marketQuestion : string)
    (outcome : Outcome) (action : TradeAction) (amountDollars : string).

(** The closure handed to [storePendingTrade], by the variables it
    captures; [runExecutor] below is its body. *)
Record Executor := {
  ex_tradeRequest : TradeRequest;
  ex_discordUserId : string;
  ex_action : TradeAction;
  ex_amountCentsNum : Q;
  ex_marketQuestion : string;
  ex_outcome : Outcome
}.

Record PendingTrade := {
  execute : Executor;
  expiresAtMs : Z
}.

(** Calls worth observing, newest first. *)
Inductive Event :=
| CanSpendCalled (user : string) (amountCents : Q)
| RecordSpendCalled (user : string) (amountCents : Q)
| TradeRequestBuilt (request : TradeRequest)
| PendingTradeStored (confirmId : string)
| PlaceTradeCalled (request : TradeRequest).

(** The mutable state: the module-level ledger of limits.ts, the router's
    [pendingTrades] map, and the log of observed calls. *)
Record Router := {
  spendLedger : Ledger;
  pendingTrades : gmap string PendingTrade;
  events : list Event
}.

Definition withLedger (l : Ledger) (st : Router) : Router :=
  {| spendLedger := l; pendingTrades := pendingTrades st;
     events := events st |}.

Definition withPending (p : gmap string PendingTrade) (st : Router)
    : Router :=
  {| spendLedger := spendLedger st; pendingTrades := p;
     events := events st |}.

Definition logEvent (e : Event) (st : Router) : Router :=
  {| spendLedger := spendLedger st; pendingTrades := pendingTrades st;
     events := e :: events st |}.

Definition newRouter : Router :=
  {| spendLedger := ∅; pendingTrades := ∅; events := [] |}.

(** What the clock, the random source and the awaited collaborators answer
    during one call. *)
Record Deps := {
  dateNow : Z;
  deps_nowMs : Z;
  randomUUID : string;
  hasGeminiKeys : bool;
  callGemini : string -> string -> option JsonValue;
  handleRead : string -> string;
  getMarketById : string -> option Market;
  fetchTimedUpDownEvent : string -> string -> option (Market * string);
  searchMarketsByText : string -> list Market;
  deps_buildValidationContext : string -> ValidationContext;
  getBalance : string -> Q;
  getRecentTrades : string -> Q -> list TradeResult;
  fetchPolymarketActivity : string -> Q -> list PolymarketActivityRow;
  placeTrade : TradeRequest -> TradeResult
}.

Definition parseIntent (d : Deps) (rawMessage userId : string)
    : option AgentOutput :=
  parseIntentWith (hasGeminiKeys d) (callGemini d) rawMessage userId.

Definition PENDING_TTL_MS : Z := 5 * 60 * 1000.

(** The constructor's interval callback (every 2 minutes). *)
Definition sweepPendingTrades (now : Z) (st : Router) : Router :=
  withPending
    (filter (fun kv => ¬ (expiresAtMs (snd kv) < now)) (pendingTrades st))
    st.

Definition formatTradeResultMessage (result : TradeResult)
    (marketQuestion : string) (outcome : Outcome) (action : TradeAction)
    (amountCents : Q) : TextContent :=
  TradeResultMessage result marketQuestion outcome action amountCents.

(** The body of the stored closure. *)
Definition runExecutor (d : Deps) (ex : Executor) (st : Router)
    : TextContent * Router :=
  let tradeResult := placeTrade d (ex_tradeRequest ex) in
  let st1 := logEvent (PlaceTradeCalled (ex_tradeRequest ex)) st in
  let st2 :=
    if tradeOk tradeResult && isBUY (ex_action ex) then
      logEvent (RecordSpendCalled (ex_discordUserId ex) (ex_amountCentsNum ex))
        (withLedger
           (recordSpend (dateNow d) (ex_discordUserId ex)
              (ex_amountCentsNum ex) (spendLedger st1))
           st1)
    else st1 in
  (formatTradeResultMessage tradeResult (ex_marketQuestion ex)
     (ex_outcome ex) (ex_action ex) (ex_amountCentsNum ex),
   st2).

(** [None] is [null]: the confirmId is unknown or expired. *)
Definition executePendingTrade (d : Deps) (confirmId : string) (st : Router)
    : option TextContent * Router :=
  match pendingTrades st !! confirmId with
  | None => (None, st)
  | Some pending =>
      let st1 := withPending (delete confirmId (pendingTrades st)) st in
      if Z.ltb (expiresAtMs pending) (dateNow d) then (None, st1)
      else
        let '(text, st2) := runExecutor d (execute pending) st1 in
        (Some text, st2)
  end.

Definition cancelPendingTrade (confirmId : string) (st : Router)
    : bool * Router :=
  match pendingTrades st !! confirmId with
  | None => (false, st)
  | Some _ => (true, withPending (delete confirmId (pendingTrades st)) st)
  end.

Definition storePendingTrade (d : Deps) (ex : Executor) (st : Router)
    : string * Router :=
  let confirmId := randomUUID d in
  (confirmId,
   logEvent (PendingTradeStored confirmId)
     (withPending
        (<[confirmId := {| execute := ex;
                           expiresAtMs := dateNow d + PENDING_TTL_MS |}]>
           (pendingTrades st))
        st)).

Definition mapValidationErrorToUserMessage (errorCode : ValidationErrorCode)
    : string :=
  match errorCode with
  | ACCOUNT_NOT_CONNECTED =>
      "Trading is not available right now. Please contact an admin."
  | INVALID_MARKET =>
      "That market could not be found. Please check the market and try again."
  | MARKET_NOT_ACTIVE => "That market is not currently active for trading."
  | INVALID_AMOUNT =>
      "The trade amount is invalid. Please provide a positive whole-number amount in cents."
  | LIMIT_EXCEEDED => "This trade exceeds your current spending limit window."
  end.

(** The daily-limit guard shared by the two write paths:
    [action === 'BUY' && !isOwnerExempt(user) && !(await canSpend(user, amount))],
    evaluated left to right; [Some text] is the early return. *)
Definition dailyLimitGuard (cfg : Config) (d : Deps) (user : string)
    (action : TradeAction) (amountCents : Q) (st : Router)
    : option TextContent * Router :=
  if isBUY action && negb (isOwnerExempt cfg user) then
    let '(ok, l) := canSpend (dateNow d) user amountCents (spendLedger st) in
    let st1 := logEvent (CanSpendCalled user amountCents) (withLedger l st) in
    if negb ok then
      let '(remaining, l') :=
        getRemainingToday (dateNow d) user (spendLedger st1) in
      (Some (DailyLimitReached (toFixed2 (remaining / (100 # 1)))
               (toFixed2 (DAILY_LIMIT_CENTS / (100 # 1)))),
       withLedger l' st1)
    else (None, st1)
  else (None, st).

(** The validation context of a write path: the injected one with the
    lookup of the chosen market overridden. *)
Definition overrideMarketLookup (base : ValidationContext)
    (intentMarketId : string) (chosen : option Market) : ValidationContext :=
  {| ctx_polymarketAccountId := ctx_polymarketAccountId base;
     remainingDailyLimitCents := remainingDailyLimitCents base;
     spentThisHourCents := spentThisHourCents base;
     marketLookup := fun marketId =>
       if negb (String.eqb marketId intentMarketId)
       then marketLookup base marketId
       else match chosen with
            | None => None
            | Some m => Some (market_id m, market_status m)
            end |}.

Definition somethingWentWrong : RouteResult :=
  RText (Plain
    "Something went wrong while handling your request. Please try again.").

(** The common tail of the two write paths, from [validateAgentOutput] to
    the confirmation prompt. *)
Definition validateBuildAndStore (d : Deps) (user : string)
    (intent : AgentOutput) (intentMarketId : string) (chosen : option Market)
    (outcome : Outcome) (action : TradeAction) (amountCents : Q)
    (st : Router) : RouteResult * Router :=
  let baseValidationContext := deps_buildValidationContext d user in
  let validationContext :=
    overrideMarketLookup baseValidationContext intentMarketId chosen in
  match validateAgentOutput intent validationContext with
  | ValidationErr code =>
      (RText (Plain (mapValidationErrorToUserMessage code)), st)
  | ValidationOk =>
      match chosen with
      | None =>
          (RText (Plain (mapValidationErrorToUserMessage INVALID_MARKET)), st)
      | Some market =>
          let identity :=
            {| discordUserId := user;
               polymarketAccountId :=
                 default "" (ctx_polymarketAccountId validationContext) |} in
          match
            buildTradeRequest intent
              {| bctx_identity := identity; bctx_market := market;
                 bctx_nowMs := deps_nowMs d |}
          with
          | None => (somethingWentWrong, st)
          | Some tradeRequest =>
              let st1 := logEvent (TradeRequestBuilt tradeRequest) st in
              let amountCentsNum := amountCents in
              let '(confirmId, st2) :=
                storePendingTrade d
                  {| ex_tradeRequest := tradeRequest;
                     ex_discordUserId := user;
                     ex_action := action;
                     ex_amountCentsNum := amountCentsNum;
                     ex_marketQuestion := market_question market;
                     ex_outcome := outcome |} st1 in
              (RConfirm confirmId (market_question market) outcome action
                 (toFixed2 (amountCentsNum / (100 # 1))),
               st2)
          end
      end
  end.

(** [Number(s)] for a string of decimal digits, and for one matched by
    [\d+(?:\.\d{1,2})?]. *)
Definition digitValue (c : ascii) : Z := Z.of_nat (nat_of_ascii c) - 48.

Definition digitsToZ (s : list ascii) : Z :=
  fold_left (fun acc c => acc * 10 + digitValue c) s 0.

Fixpoint splitAtDot (s : list ascii) : list ascii * list ascii :=
  match s with
  | [] => ([], [])
  | c :: s' =>
      if Ascii.eqb c "." then ([], s')
      else let '(a, b) := splitAtDot s' in (c :: a, b)
  end.

Definition decimalToNumber (s : string) : Q :=
  let '(ip, fp) := splitAtDot (list_ascii_of_string s) in
  let scale := Z.pow 10 (Z.of_nat (length fp)) in
  Qmake (digitsToZ ip * scale + digitsToZ fp) (Z.to_pos scale).

Definition wordToNumber (w : string) : Q :=
  inject_Z
    (if String.eqb w "one" then 1 else if String.eqb w "two" then 2
     else if String.eqb w "three" then 3 else if String.eqb w "four" then 4
     else if String.eqb w "five" then 5 else if String.eqb w "six" then 6
     else if String.eqb w "seven" then 7 else if String.eqb w "eight" then 8
     else if String.eqb w "nine" then 9 else 10).

Definition wordBounded (ci : bool) (ws : list string) : regex :=
  seqs [RWordB; RGroup 1 (alts (map (lit ci) ws)); RWordB].

(** [/\b(past | last | recent) \b.*\btrades ?\b |\btrade\s + history\b /],
    blanks included as the source has them. *)
Definition TRADE_HISTORY_FALLBACK_PATTERN : regex :=
  let L := lit false in
  RAlt
    (seqs [RWordB; RGroup 1 (alts [L "past "; L " last "; L " recent"]);
           L " "; RWordB; RStar anyChar; RWordB; L "trades"; opt (L " ");
           RWordB; L " "])
    (seqs [RWordB; L "trade"; ws; plus (L " "); L " history"; RWordB;
           L " "]).

(** [/\b(last|past)\s+(\d+)\s+trades?\b/] *)
Definition LAST_N_TRADES_NUMERIC : regex :=
  let L := lit false in
  seqs [RWordB; RGroup 1 (alts [L "last"; L "past"]); plus ws;
        RGroup 2 (plus digit); plus ws; L "trade"; opt (L "s"); RWordB].

(** [/\b(last|past)\s+(one|two|three|four|five|six|seven|eight|nine|ten)\s+trades?\b/] *)
Definition LAST_N_TRADES_WORD : regex :=
  let L := lit false in
  seqs [RWordB; RGroup 1 (alts [L "last"; L "past"]); plus ws;
        RGroup 2
          (alts (map L ["one"; "two"; "three"; "four"; "five"; "six";
                        "seven"; "eight"; "nine"; "ten"]));
        plus ws; L "trade"; opt (L "s"); RWordB].

(** [/\$\s*(\d+(?:\.\d{1,2})?)/] *)
Definition DOLLAR_AMOUNT : regex :=
  seqs [lit false "$"; RStar ws; RGroup 1 decimalAmount].

(** [/\b(\d+(?:\.\d{1,2})?)\s*(dollars?|usd|bucks?)\b/] *)
Definition WORDED_AMOUNT : regex :=
  let L := lit false in
  seqs [RWordB; RGroup 1 decimalAmount; RStar ws;
        RGroup 2
          (alts [seqs [L "dollar"; opt (L "s")]; L "usd";
                 seqs [L "buck"; opt (L "s")]]);
        RWordB].

(** [/0x[a-fA-F0-9]{40}/] *)
Definition WALLET_ADDRESS : regex :=
  let hex c :=
    let n := nat_of_ascii c in
    (isDigit c || ((97 <=? n) && (n <=? 102)) || ((65 <=? n) && (n <=? 70)))%nat
  in
  RGroup 0 (seqs [lit false "0x"; times 40 (RChar hex)]).

(** [/\b(5|five)\s*(m|min|minute)\b/] and its 15-minute sibling. *)
Definition timeframePattern (numeral spelled : string) : regex :=
  let L := lit false in
  seqs [RWordB; RGroup 1 (alts [L numeral; L spelled]); RStar ws;
        RGroup 2 (alts [L "m"; L "min"; L "minute"]); RWordB].

(** [String.prototype.includes] and [replace] with a string pattern (the
    first occurrence only). *)
Fixpoint includes (haystack needle : string) : bool :=
  String.prefix needle haystack
  || match haystack with
     | EmptyString => false
     | String _ rest => includes rest needle
     end.

Fixpoint replaceFirst (pattern replacement s : string) : string :=
  if String.prefix pattern s then
    replacement
      ++ String.substring (String.length pattern)
           (String.length s - String.length pattern) s
  else
    match s with
    | EmptyString => EmptyString
    | String c rest => String c (replaceFirst pattern replacement rest)
    end.

(** [null] when the hour or the minute is out of range. *)
Definition toMinuteOfDay (hourRaw minute : Z) (ampm : string) : option Z :=
  if Z.ltb hourRaw 1 || Z.ltb 12 hourRaw || Z.ltb minute 0 || Z.ltb 59 minute
  then None
  else
    let hour := hourRaw mod 12 in
    let hour := if String.eqb ampm "PM" then hour + 12 else hour in
    Some (hour * 60 + minute).

Definition toUpperCase (s : string) : string :=
  string_of_list_ascii
    (map (fun c => if isLower c then ascii_of_nat (nat_of_ascii c - 32) else c)
       (list_ascii_of_string s)).

(** [/(\d{1,2}):(\d{2})(am|pm)\s*-\s*(\d{1,2}):(\d{2})(am|pm)/i] *)
Definition QUESTION_TIME_RANGE : regex :=
  let L := lit true in
  let clock (g : nat) :=
    seqs [RGroup g (seqs [digit; opt digit]); L ":";
          RGroup (g + 1) (seqs [digit; digit]);
          RGroup (g + 2) (alts [L "am"; L "pm"])] in
  seqs [clock 1%nat; RStar ws; L "-"; RStar ws; clock 4%nat].

Definition extractQuestionMinuteRange (question : string) : option Z :=
  match regexMatch QUESTION_TIME_RANGE question with
  | None => None
  | Some caps =>
      let num g := digitsToZ (list_ascii_of_string (default "" (group g caps))) in
      let ampm g := toUpperCase (default "" (group g caps)) in
      match toMinuteOfDay (num 1%nat) (num 2%nat) (ampm 3%nat),
            toMinuteOfDay (num 4%nat) (num 5%nat) (ampm 6%nat) with
      | Some start, Some end_ =>
          let diff := end_ - start in
          Some (if Z.ltb diff 0 then diff + 24 * 60 else diff)
      | _, _ => None
      end
  end.

(** [scored.sort((a, b) => b.score - a.score)]: a stable sort by
    descending score. *)
Fixpoint insertByScore (x : Market * Z) (l : list (Market * Z))
    : list (Market * Z) :=
  match l with
  | [] => [x]
  | y :: l' =>
      if Z.ltb (snd x) (snd y) then y :: insertByScore x l' else x :: y :: l'
  end.

Definition sortByScore (l : list (Market * Z)) : list (Market * Z) :=
  fold_right insertByScore [] l.

Definition pickBestNaturalTradeMarket (markets : list Market)
    (normalizedMessage : string) (timeframeHint : string) : option Market :=
  let activeMarkets :=
    List.filter (fun market => isActive (market_status market)) markets in
  match activeMarkets with
  | [] => None
  | _ =>
      let wantsBitcoin :=
        test (wordBounded false ["bitcoin"; "btc"]) normalizedMessage in
      let wantsEthereum :=
        test (wordBounded false ["ethereum"; "eth"]) normalizedMessage in
      let wantsFiveMin := test (timeframePattern "5" "five") normalizedMessage in
      let wantsFifteenMin :=
        test (timeframePattern "15" "fifteen") normalizedMessage in
      let minutesIs (minutes : option Z) (n : Z) :=
        match minutes with Some m => Z.eqb m n | None => false end in
      let strictCandidates :=
        List.filter
          (fun market =>
             let q := toLowerCase (market_question market) in
             let hasAsset :=
               if wantsBitcoin then includes q "bitcoin" || includes q "btc"
               else if wantsEthereum
                    then includes q "ethereum" || includes q "eth"
                    else true in
             let hasTimedLabel :=
               includes q "up or down" || includes q "updown" in
             let minutes := extractQuestionMinuteRange q in
             let timeframeOk :=
               if wantsFifteenMin then minutesIs minutes 15
               else if wantsFiveMin then minutesIs minutes 5
               else true in
             hasAsset && hasTimedLabel && timeframeOk)
          activeMarkets in
      let pool :=
        match strictCandidates with
        | [] => activeMarkets
        | _ => strictCandidates
        end in
      let bonus (b : bool) (n : Z) := if b then n else 0 in
      let timeframeScore (wanted : bool) (rangeMinutes : option Z) (n : Z) :=
        if wanted then
          match rangeMinutes with
          | Some m => if Z.eqb m n then 6 else -3
          | None => 0
          end
        else 0 in
      let scored :=
        map
          (fun market =>
             let q := toLowerCase (market_question market) in
             let rangeMinutes := extractQuestionMinuteRange q in
             let score :=
               bonus (wantsBitcoin && includes q "bitcoin") 8
               + bonus (wantsBitcoin && includes q "btc") 5
               + bonus (wantsEthereum && includes q "ethereum") 8
               + bonus (wantsEthereum && includes q "eth") 5
               + bonus (includes q "up or down") 4
               + bonus (includes q "updown") 3
               + timeframeScore wantsFifteenMin rangeMinutes 15
               + timeframeScore wantsFiveMin rangeMinutes 5
               + bonus
                   (negb (String.eqb timeframeHint "")
                    && includes q (replaceFirst " minute" "" timeframeHint))
                   2
               + bonus (includes q "current") 1 in
             (market, score))
          pool in
      match sortByScore scored with
      | (market, score) :: _ =>
          if Z.ltb 0 score then Some market else head pool
      | [] => head pool
      end
  end.

(** [tryResolveTimedUpDownMarket]: the asset, the timeframe and a trade
    keyword are read off the message; the lookups of the event over the
    network (the slug of the current window, the previous one, then a
    prefix search) are the collaborator [fetchTimedUpDownEvent], asked with
    the asset and timeframe slugs. *)
Definition timedWindowPattern (alternatives units : list string) : regex :=
  seqs [RWordB; RGroup 1 (alts (map (lit true) alternatives)); RStar ws;
        RGroup 2 (alts (map (lit true) units))].

Definition tryResolveTimedUpDownMarket (d : Deps) (message : string)
    : option (Market * string) :=
  let normalized := toLowerCase (trim message) in
  let wantsBitcoin := test (wordBounded false ["bitcoin"; "btc"]) normalized in
  let wantsEthereum :=
    test (wordBounded false ["ethereum"; "eth"]) normalized in
  let wantsSolana := test (wordBounded false ["solana"; "sol"]) normalized in
  let wantsXrp := test (wordBounded false ["xrp"; "ripple"]) normalized in
  let assetSlug :=
    if wantsBitcoin then Some "btc" else if wantsEthereum then Some "eth"
    else if wantsSolana then Some "sol" else if wantsXrp then Some "xrp"
    else None in
  match assetSlug with
  | None => None
  | Some assetSlug =>
      let minutes := ["m"; "min"; "minute"] in
      let hours := ["h"; "hr"; "hour"] in
      let wantsFifteen :=
        test (timedWindowPattern ["15"; "fifteen"] minutes) normalized in
      let wantsFive :=
        test (timedWindowPattern ["5"; "five"] minutes) normalized in
      let wantsOneHour :=
        test (timedWindowPattern ["1"; "one"] hours) normalized
        || test (timedWindowPattern ["60"] ["m"; "min"]) normalized in
      let wantsFourHour :=
        test (timedWindowPattern ["4"; "four"] hours) normalized in
      let wantsOneDay :=
        test (timedWindowPattern ["1"; "one"] ["d"; "day"]) normalized
        || test (timedWindowPattern ["24"] hours) normalized in
      let timeframeSlug :=
        if wantsFifteen then Some "15m" else if wantsFive then Some "5m"
        else if wantsOneHour then Some "1h"
        else if wantsFourHour then Some "4h"
        else if wantsOneDay then Some "1d" else None in
      match timeframeSlug with
      | None => None
      | Some timeframeSlug =>
          if negb (test (wordBounded false
                           ["up"; "down"; "bet"; "market"; "buy"; "sell"])
                     normalized)
          then None
          else fetchTimedUpDownEvent d assetSlug timeframeSlug
      end
  end.

Definition tradeHistoryLimit (normalized : string) : Q :=
  match regexMatch LAST_N_TRADES_NUMERIC normalized with
  | Some caps =>
      let n :=
        digitsToZ (list_ascii_of_string (default "" (group 2 caps))) in
      inject_Z (Z.max 1 (Z.min 20 n))
  | None =>
      match regexMatch LAST_N_TRADES_WORD normalized with
      | Some caps => wordToNumber (default "" (group 2 caps))
      | None => 5 # 1
      end
  end.

Definition tryDeterministicWriteFallback (cfg : Config) (d : Deps)
    (message : string) (user : string) (st : Router)
    : option RouteResult * Router :=
  let normalized := toLowerCase (trim message) in
  if test TRADE_HISTORY_FALLBACK_PATTERN normalized then
    let limit := tradeHistoryLimit normalized in
    let trades := getRecentTrades d user limit in
    match trades with
    | [] => (Some (RText (Plain "You have no recent trades yet.")), st)
    | _ => (Some (RText (RecentTrades limit trades)), st)
    end
  else
    let amountMatch :=
      match regexMatch DOLLAR_AMOUNT normalized with
      | Some caps => Some caps
      | None => regexMatch WORDED_AMOUNT normalized
      end in
    let isSell := test (wordBounded false ["sell"; "exit"; "close"]) normalized in
    let action := if isSell then SELL else BUY in
    let outcome :=
      if test (wordBounded false ["up"; "yes"; "long"]) normalized
      then Some YES
      else if test (wordBounded false ["down"; "no"; "short"]) normalized
           then Some NO
           else None in
    match amountMatch, outcome with
    | Some caps, Some outcome =>
        if negb (test (wordBounded false
                         ["bet"; "buy"; "sell"; "trade"; "market"; "exit";
                          "close"]) normalized)
        then (None, st)
        else
          let amountDollars := decimalToNumber (default "" (group 1 caps)) in
          if Qle_bool amountDollars 0 then
            (Some (RText (Plain
               "The trade amount is invalid. Please provide a positive amount.")),
             st)
          else
            let amountCents := inject_Z (Math_round (amountDollars * (100 # 1))) in
            let assetQuery :=
              if test (wordBounded false ["bitcoin"; "btc"]) normalized
              then Some "bitcoin up or down"
              else if test (wordBounded false ["ethereum"; "eth"]) normalized
                   then Some "ethereum up or down"
                   else None in
            match assetQuery with
            | None => (None, st)
            | Some assetQuery =>
                let timeframe :=
                  if test (timeframePattern "5" "five") normalized
                  then "5 minute"
                  else if test (timeframePattern "15" "fifteen") normalized
                       then "15 minute"
                       else "" in
                let timedResult := tryResolveTimedUpDownMarket d message in
                let selectedMarket :=
                  match timedResult with
                  | Some (market, _) => Some market
                  | None =>
                      let candidates := searchMarketsByText d assetQuery in
                      pickBestNaturalTradeMarket candidates normalized
                        timeframe
                  end in
                match selectedMarket with
                | None =>
                    (Some (RText (Plain
                       "I could not find an active matching market right now. Please specify the market ID.")),
                     st)
                | Some selectedMarket =>
                    let pseudoIntent :=
                      place_bet user (market_id selectedMarket) outcome
                        (Some action) amountCents (Some message) in
                    match dailyLimitGuard cfg d user action amountCents st with
                    | (Some text, st1) => (Some (RText text), st1)
                    | (None, st1) =>
                        let '(r, st2) :=
                          validateBuildAndStore d user pseudoIntent
                            (market_id selectedMarket) (Some selectedMarket)
                            outcome action amountCents st1 in
                        (Some r, st2)
                    end
                end
            end
    | _, _ => (None, st)
    end.

Definition handleWrite (cfg : Config) (d : Deps) (message : string)
    (user : string) (st : Router) : RouteResult * Router :=
  match parseIntent d message user with
  | None =>
      match tryDeterministicWriteFallback cfg d message user st with
      | (Some fallback, st1) => (fallback, st1)
      | (None, st1) =>
          (RText (Plain
             "I could not confidently parse that request. Please try again with a clearer command."),
           st1)
      end
  | Some (get_balance _ rawText) =>
      let rawText := default message rawText in
      match regexMatch WALLET_ADDRESS rawText with
      | Some caps =>
          (RText (WalletBalance (default "" (group 0 caps))), st)
      | None =>
          let availableCents := getBalance d user in
          if isOwnerExempt cfg user
          then (RText (TradingWalletOwner availableCents), st)
          else
            let '(spent, l1) :=
              getSpentToday (dateNow d) user (spendLedger st) in
            let '(remaining, l2) := getRemainingToday (dateNow d) user l1 in
            (RText (TradingWallet availableCents spent remaining),
             withLedger l2 st)
      end
  | Some (get_trade_history _ limit _) =>
      let limit := default (5 # 1) limit in
      let validationContext := deps_buildValidationContext d user in
      let linkedAccountId :=
        match ctx_polymarketAccountId validationContext with
        | Some a => Some a
        | None =>
            match env_POLYMARKET_PROXY_WALLET cfg with
            | Some w => if String.eqb w "" then None else Some w
            | None => None
            end
        end in
      match linkedAccountId with
      | None =>
          (RText (Plain
             "Trading is not available right now. Please contact an admin."),
           st)
      | Some linkedAccountId =>
          match fetchPolymarketActivity d linkedAccountId limit with
          | [] =>
              match getRecentTrades d user limit with
              | [] => (RText (Plain "You have no recent trades yet."), st)
              | trades => (RText (RecentTrades limit trades), st)
              end
          | activities => (RText (ActivityEntries limit activities), st)
          end
      end
  | Some (query_market _ _ _ _) =>
      (RText (Plain
         "I could not confirm a trade placement request. Please restate the trade with explicit action and amount."),
       st)
  | Some (place_bet userId marketId outcome action amountCents rawText) =>
      let actionForSpend := default BUY action in
      match dailyLimitGuard cfg d user actionForSpend amountCents st with
      | (Some text, st1) => (RText text, st1)
      | (None, st1) =>
          let resolvedMarket := getMarketById d marketId in
          let timedResolution := tryResolveTimedUpDownMarket d message in
          let effectiveMarket :=
            match timedResolution with
            | Some (market, _) => Some market
            | None => resolvedMarket
            end in
          let effectiveMarketId :=
            match effectiveMarket with
            | Some m => market_id m
            | None => marketId
            end in
          let effectiveIntent :=
            place_bet userId effectiveMarketId outcome action amountCents
              rawText in
          validateBuildAndStore d user effectiveIntent effectiveMarketId
            effectiveMarket outcome actionForSpend amountCents st1
      end
  end.

(** [/\b(balance|portfolio|positions?|trade\s+history|history|recent\s+trades?|past\s+\w+\s+trades?|last\s+\w+\s+trades?|connect\s+account|verify|disconnect|status|linked\s+wallet)\b/] *)
Definition accountScopedPattern : regex :=
  let L := lit false in
  seqs [RWordB;
        RGroup 1
          (alts [L "balance"; L "portfolio";
                 seqs [L "position"; opt (L "s")];
                 seqs [L "trade"; plus ws; L "history"];
                 L "history";
                 seqs [L "recent"; plus ws; L "trade"; opt (L "s")];
                 seqs [L "past"; plus ws; plus word; plus ws; L "trade";
                       opt (L "s")];
                 seqs [L "last"; plus ws; plus word; plus ws; L "trade";
                       opt (L "s")];
                 seqs [L "connect"; plus ws; L "account"];
                 L "verify"; L "disconnect"; L "status";
                 seqs [L "linked"; plus ws; L "wallet"]]);
        RWordB].

Definition isDeterministicWriteMessage (message : string) : bool :=
  let normalized := toLowerCase (trim message) in
  if Nat.eqb (String.length normalized) 0 then false
  else if test accountScopedPattern normalized then true
  else
    let hasTradeVerb :=
      test (wordBounded false
              ["bet"; "place"; "buy"; "sell"; "exit"; "close"; "trade";
               "market"]) normalized in
    let hasAmount := test (moneyReference false) normalized in
    hasTradeVerb && hasAmount.

(** The collaborators are total here, so the [catch] of the source, which
    answers a thrown error with [somethingWentWrong], is entered only for
    the builder's contract violation (see [validateBuildAndStore]). *)
Definition routeMessage (cfg : Config) (d : Deps) (message : string)
    (user : string) (st : Router) : RouteResult * Router :=
  if isDeterministicWriteMessage message then handleWrite cfg d message user st
  else
    match classifyMessageIntent message with
    | READ => (RText (Plain (handleRead d message)), st)
    | WRITE => handleWrite cfg d message user st
    end.

(** *** The router as a transition system *)

Inductive Op :=
| OpRoute (d : Deps) (message : string) (user : string)
| OpExecute (d : Deps) (confirmId : string)
| OpCancel (confirmId : string)
| OpSweep (now : Z).

Definition step (cfg : Config) (op : Op) (st : Router) : Router :=
  match op with
  | OpRoute d message user => snd (routeMessage cfg d message user st)
  | OpExecute d confirmId => snd (executePendingTrade d confirmId st)
  | OpCancel confirmId => snd (cancelPendingTrade confirmId st)
  | OpSweep now => sweepPendingTrades now st
  end.

Definition run (cfg : Config) (ops : list Op) (st : Router) : Router :=
  fold_left (fun st op => step cfg op st) ops st.

(** ** Specification vocabulary *)





(** What a call may do to the map of pending trades: nothing, or one
    insertion under the call's fresh confirmation id. *)
Definition pendingStep (d : Deps) (p0 p1 : gmap string PendingTrade)
    : Prop :=
  p1 = p0 \/
  exists ex,
    p1 = <[randomUUID d := {| execute := ex;
                              expiresAtMs := dateNow d + PENDING_TTL_MS |}]>
           p0.

(** The ledger calls among the observed events. *)
Definition isSpendEvent (e : Event) : bool :=
  match e with
  | CanSpendCalled _ _ | RecordSpendCalled _ _ => true
  | _ => false
  end.

Definition isGatewayEvent (e : Event) : bool :=
  match e with
  | PlaceTradeCalled _ => true
  | _ => false
  end.

(** The operation stores no pending trade under [confirmId]: the id drawn
    by a routed message is another one. *)
Definition storesElsewhere (confirmId : string) (op : Op) : Prop :=
  match op with
  | OpRoute d _ _ => randomUUID d <> confirmId
  | _ => True
  end.

(** A claim of [confirmId] that succeeded: a non-null
    [executePendingTrade] or a [true] [cancelPendingTrade], from [st] to
    [st']. *)
Definition claimedIn (confirmId : string) (st st' : Router) : Prop :=
  (exists d text, executePendingTrade d confirmId st = (Some text, st')) \/
  cancelPendingTrade confirmId st = (true, st').


(** The idempotency key of the request built for a [place_bet] intent. *)
Definition idempotencyKeyOf (intent : AgentOutput)
    (context : BuildTradeRequestContext) : option string :=
  req_idempotencyKey <$> buildTradeRequest intent context.

(** The message asks for a SELL: the parser says so, or, when the parser
    gives up, the deterministic fallback reads a sell word. *)
Definition sellRequested (d : Deps) (message user : string) : bool :=
  match parseIntent d message user with
  | Some (place_bet _ _ _ (Some SELL) _ _) => true
  | Some _ => false
  | None =>
      test (wordBounded false ["sell"; "exit"; "close"])
        (toLowerCase (trim message))
  end.

Definition spendEvents (st : Router) : list Event :=
  filter (fun e => isSpendEvent e = true) (events st).


(** The message reaches the WRITE pipeline of [routeMessage]. *)
Definition routedToWrite (message : string) : bool :=
  isDeterministicWriteMessage message
  || match classifyMessageIntent message with WRITE => true | READ => false end.

(** ** Scenarios

    One deployment, one active market, a trader that fills every order, and
    an ordinary (non-owner) user "alice". *)

Definition exampleConfig : Config :=
  {| env_OWNER_DISCORD_ID := None;
     env_POLYMARKET_PROXY_WALLET := Some "0xleader" |}.

Definition exampleMarket : Market :=
  {| market_id := "m1";
     market_question := "Bitcoin up or down?";
     market_status := active;
     market_outcomes := [YES; NO];
     market_outcomePrices := [1 # 2; 1 # 2];
     market_volume := 0;
     market_slug := None;
     market_eventSlug := None |}.

Definition fillingTrader (request : TradeRequest) : TradeResult :=
  TradeResultSuccess "trade-1"
    (discordUserId (req_identity request))
    (market_id (req_market request))
    (req_outcome request) (req_amountCents request)
    (req_requestedAtMs request).

(** The collaborators at clock reading [now], drawing [uuid] as the next
    confirmation id, with the language model replying [reply] to the intent
    parser ([None]: no reply). *)
Definition exampleDeps (now : Z) (uuid : string) (reply : option JsonValue)
    : Deps :=
  {| dateNow := now;
     deps_nowMs := now;
     randomUUID := uuid;
     hasGeminiKeys := true;
     callGemini := fun _ _ => reply;
     handleRead := fun _ => "I found 1 live markets and 0 matching results.";
     getMarketById := fun marketId =>
       if String.eqb marketId "m1" then Some exampleMarket else None;
     fetchTimedUpDownEvent := fun _ _ => None;
     searchMarketsByText := fun _ => [exampleMarket];
     deps_buildValidationContext := fun _ =>
       buildValidationContext exampleConfig None (Some [exampleMarket]);
     getBalance := fun _ => 0%Q;
     getRecentTrades := fun _ _ => [];
     fetchPolymarketActivity := fun _ _ => [];
     placeTrade := fillingTrader |}.

Definition placeBetReply (outcome action : string) (amountCents : Q)
    : option JsonValue :=
  Some (JObject [("intent", JString "place_bet"); ("userId", JString "alice");
                 ("marketId", JString "m1"); ("outcome", JString outcome);
                 ("action", JString action);
                 ("amountCents", JNumber (Some amountCents))]).

Definition buyFiveDollars (outcome : Outcome) : option JsonValue :=
  placeBetReply (outcomeToString outcome) "BUY" (500 # 1).

Definition sellThreeDollars : option JsonValue :=
  placeBetReply "YES" "SELL" (300 # 1).

(** Alice has used up her allowance of day 0. *)
Definition spentLedger : Ledger :=
  snd (trySpend 0 "alice" (500 # 1) ∅).

(** Two $5 buys are routed before either is confirmed; both are then
    confirmed. *)
Definition twoPendingBuys : list Op :=
  [OpRoute (exampleDeps 1000 "confirm-1" (buyFiveDollars YES))
     "buy $5 of yes on m1" "alice";
   OpRoute (exampleDeps 2000 "confirm-2" (buyFiveDollars NO))
     "buy $5 of no on m1" "alice";
   OpExecute (exampleDeps 3000 "" None) "confirm-1";
   OpExecute (exampleDeps 4000 "" None) "confirm-2"].



Definition exampleExecutor : Executor :=
  {| ex_tradeRequest :=
       {| req_identity := {| discordUserId := "alice";
                             polymarketAccountId := "0xleader" |};
          req_market := exampleMarket;
          req_outcome := YES;
          req_action := BUY;
          req_amountCents := 500 # 1;
          req_idempotencyKey := "alice:0xleader:m1:YES:500:0";
          req_requestedAtMs := 1000 |};
     ex_discordUserId := "alice";
     ex_action := BUY;
     ex_amountCentsNum := 500 # 1;
     ex_marketQuestion := "Bitcoin up or down?";
     ex_outcome := YES |}.

Definition contextWith (account : option string) (remaining spentHour : Q)
    : ValidationContext :=
  {| ctx_polymarketAccountId := account;
     remainingDailyLimitCents := remaining;
     spentThisHourCents := spentHour;
     marketLookup := fun marketId =>
       if String.eqb marketId "m1" then Some ("m1", active) else None |}.

(** The router after alice's first buy has been routed. *)
Definition onePending : Router :=
  snd (routeMessage exampleConfig
         (exampleDeps 1000 "confirm-1" (buyFiveDollars YES))
         "buy $5 of yes on m1" "alice" newRouter).

(** What may follow a claim: another cancellation, a sweep, a new routed
    buy under a fresh id, an execution of that one. *)
Definition laterOps : list Op :=
  [OpCancel "confirm-1";
   OpSweep 200000;
   OpRoute (exampleDeps 2000 "confirm-2" (buyFiveDollars NO))
     "buy $5 of no on m1" "alice";
   OpExecute (exampleDeps 3000 "" None) "confirm-2"].


(** ** Vocabulary of the further properties *)

(** The string holds no [":"], the separator of the idempotency key. *)
Fixpoint colonFree (s : string) : bool :=
  match s with
  | EmptyString => true
  | String c rest => negb (Ascii.eqb c ":") && colonFree rest
  end.

Definition agentUserId (output : AgentOutput) : string :=
  match output with
  | place_bet userId _ _ _ _ _ => userId
  | get_balance userId _ => userId
  | get_trade_history userId _ _ => userId
  | query_market userId _ _ _ => userId
  end.

(** The keys the shape validator admits for an intent. *)
Definition allowedKeys (intent : string) : list string :=
  if String.eqb intent "place_bet" then
    ["intent"; "userId"; "marketId"; "outcome"; "action"; "amountCents";
     "rawText"]
  else if String.eqb intent "get_balance" then ["intent"; "userId"; "rawText"]
  else if String.eqb intent "get_trade_history" then
    ["intent"; "userId"; "limit"; "rawText"]
  else if String.eqb intent "query_market" then
    ["intent"; "userId"; "marketId"; "query"; "rawText"]
  else [].

(** The operation neither claims nor replaces the pending trade under
    [confirmId], and does not sweep after [expiry]. *)
Definition leavesPending (confirmId : string) (expiry : Z) (op : Op) : Prop :=
  match op with
  | OpRoute d _ _ => randomUUID d <> confirmId
  | OpExecute _ other => other <> confirmId
  | OpCancel other => other <> confirmId
  | OpSweep now => now <= expiry
  end.

(** The events that move money: a call of the trader, a recorded spend. *)
Definition isExecutionEvent (e : Event) : bool :=
  match e with
  | PlaceTradeCalled _ | RecordSpendCalled _ _ => true
  | _ => false
  end.

Definition executionEvents (st : Router) : list Event :=
  filter (fun e => isExecutionEvent e = true) (events st).

(** What a reader of the ledger may do to it: nothing, or the eviction
    that [getSpentToday] performs on the reader's own map. *)
Definition readsLedger (nowMs : Z) (user : string) (l l' : Ledger) : Prop :=
  l' = l \/ l' = snd (getSpentToday nowMs user l).

(** The router state [st'] differs from [st] by ledger reads of [user] and
    by events that move no money. *)
Definition movesNoMoney (nowMs : Z) (user : string) (st st' : Router)
    : Prop :=
  readsLedger nowMs user (spendLedger st) (spendLedger st') /\
  executionEvents st' = executionEvents st.

(** A trade request as [validateAgentOutput] and [buildTradeRequest] leave
    it: a positive whole number of cents on an active market, under the
    deterministic idempotency key of its own fields. *)
Definition validatedRequest (request : TradeRequest) : Prop :=
  isInteger (req_amountCents request) = true /\
  (0 < req_amountCents request)%Q /\
  market_status (req_market request) = active /\
  req_idempotencyKey request =
    createDeterministicIdempotencyKey
      {| iki_identity := req_identity request;
         iki_marketId := market_id (req_market request);
         iki_outcome := req_outcome request;
         iki_amountCents := req_amountCents request;
         iki_nowMs := req_requestedAtMs request;
         iki_windowMs := IDEMPOTENCY_WINDOW_MS |}.

(** The variables captured by a stored continuation agree with its
    validated request. *)
Definition validatedExecutor (ex : Executor) : Prop :=
  validatedRequest (ex_tradeRequest ex) /\
  req_amountCents (ex_tradeRequest ex) = ex_amountCentsNum ex /\
  req_action (ex_tradeRequest ex) = ex_action ex /\
  req_outcome (ex_tradeRequest ex) = ex_outcome ex /\
  discordUserId (req_identity (ex_tradeRequest ex)) = ex_discordUserId ex /\
  market_question (req_market (ex_tradeRequest ex)) = ex_marketQuestion ex.

Definition pendingValidated (p : gmap string PendingTrade) : Prop :=
  forall confirmId pending,
    p !! confirmId = Some pending -> validatedExecutor (execute pending).

Definition executionEventOk (e : Event) : Prop :=
  match e with
  | PlaceTradeCalled request => validatedRequest request
  | RecordSpendCalled _ amountCents => (0 < amountCents)%Q
  | _ => True
  end.

Definition routerInvariant (st : Router) : Prop :=
  pendingValidated (pendingTrades st) /\
  Forall executionEventOk (events st) /\
  forall u day, (0 <= spentOn day u (spendLedger st))%Q.

(** ** src/auth/AccountLinkChallengeService.ts *)

(** Fixed challenge TTL used to limit the replay window. *)
Definition DEFAULT_CHALLENGE_TTL_MS : Z := 5 * 60 * 1000.

Record AccountLinkChallenge := {
  challenge_discordUserId : string;
  challenge_nonce : string;
  challenge_issuedAtMs : Z;
  challenge_expiresAtMs : Z;
  challenge_used : bool
}.

(** [InMemoryAccountLinkChallengeStore], the store the service is wired
    with: the challenge of each user and the owner of each nonce. *)
Record ChallengeStore := {
  byDiscordUserId : gmap string AccountLinkChallenge;
  ownerByNonce : gmap string string
}.

Definition newChallengeStore : ChallengeStore :=
  {| byDiscordUserId := ∅; ownerByNonce := ∅ |}.

Definition challengeStore_create (challenge : AccountLinkChallenge)
    (store : ChallengeStore) : ChallengeStore :=
  {| byDiscordUserId :=
       <[challenge_discordUserId challenge := challenge]>
         (byDiscordUserId store);
     ownerByNonce :=
       <[challenge_nonce challenge := challenge_discordUserId challenge]>
         (ownerByNonce store) |}.

Definition challengeStore_getActive (discordUserId : string)
    (store : ChallengeStore) : option AccountLinkChallenge :=
  byDiscordUserId store !! discordUserId.

Definition markChallengeUsed (challenge : AccountLinkChallenge)
    : AccountLinkChallenge :=
  {| challenge_discordUserId := challenge_discordUserId challenge;
     challenge_nonce := challenge_nonce challenge;
     challenge_issuedAtMs := challenge_issuedAtMs challenge;
     challenge_expiresAtMs := challenge_expiresAtMs challenge;
     challenge_used := true |}.

(** [if (!owner) return]: an unknown nonce, and also an owner whose id is
    the empty string, which is falsy. *)
Definition challengeStore_markUsed (nonce : string) (store : ChallengeStore)
    : ChallengeStore :=
  match ownerByNonce store !! nonce with
  | None => store
  | Some owner =>
      if String.eqb owner "" then store
      else
        match byDiscordUserId store !! owner with
        | None => store
        | Some challenge =>
            {| byDiscordUserId :=
                 <[owner := markChallengeUsed challenge]>
                   (byDiscordUserId store);
               ownerByNonce := ownerByNonce store |}
        end
  end.

Inductive ChallengeErrorCode :=
| CHALLENGE_NOT_FOUND
| NONCE_MISMATCH
| CHALLENGE_EXPIRED
| CHALLENGE_ALREADY_USED
| CHALLENGE_STORE_ERROR.

Inductive IssueChallengeResult :=
| IssueChallengeOk (challenge : AccountLinkChallenge)
| IssueChallengeStoreError.

Inductive ValidateChallengeResult :=
| ValidateChallengeOk (challenge : AccountLinkChallenge)
| ValidateChallengeErr (errorCode : ChallengeErrorCode).

(** [issueChallenge]; [createNonce] is what [crypto.randomUUID()] answers
    when the service asks, [None] when secure randomness is unavailable and
    [createNonce()] throws, which the [catch] turns into STORE_ERROR.  The
    in-memory store itself never throws. *)
Definition issueChallenge (ttlMs : Z) (createNonce : option string)
    (discordUserId : string) (nowMs : Z) (store : ChallengeStore)
    : IssueChallengeResult * ChallengeStore :=
  let issueNew :=
    match createNonce with
    | None => (IssueChallengeStoreError, store)
    | Some nonce =>
        let challenge :=
          {| challenge_discordUserId := discordUserId;
             challenge_nonce := nonce;
             challenge_issuedAtMs := nowMs;
             challenge_expiresAtMs := nowMs + ttlMs;
             challenge_used := false |} in
        (IssueChallengeOk challenge, challengeStore_create challenge store)
    end in
  match challengeStore_getActive discordUserId store with
  | Some existing =>
      if negb (challenge_used existing)
         && Z.gtb (challenge_expiresAtMs existing) nowMs
      then (IssueChallengeOk existing, store)
      else issueNew
  | None => issueNew
  end.

Definition validateWithoutConsume (discordUserId nonce : string) (nowMs : Z)
    (store : ChallengeStore) : ValidateChallengeResult :=
  match challengeStore_getActive discordUserId store with
  | None => ValidateChallengeErr CHALLENGE_NOT_FOUND
  | Some challenge =>
      if negb (String.eqb (challenge_nonce challenge) nonce)
      then ValidateChallengeErr NONCE_MISMATCH
      else if Z.leb (challenge_expiresAtMs challenge) nowMs
      then ValidateChallengeErr CHALLENGE_EXPIRED
      else if challenge_used challenge
      then ValidateChallengeErr CHALLENGE_ALREADY_USED
      else ValidateChallengeOk challenge
  end.

(** [consumeChallenge]: [true] is [{ ok: true }]. *)
Definition consumeChallenge (nonce : string) (store : ChallengeStore)
    : bool * ChallengeStore :=
  (true, challengeStore_markUsed nonce store).

Definition validateChallenge (discordUserId nonce : string) (nowMs : Z)
    (store : ChallengeStore) : ValidateChallengeResult * ChallengeStore :=
  match validateWithoutConsume discordUserId nonce nowMs store with
  | ValidateChallengeErr errorCode => (ValidateChallengeErr errorCode, store)
  | ValidateChallengeOk challenge =>
      let '(consumed, store1) := consumeChallenge nonce store in
      if negb consumed
      then (ValidateChallengeErr CHALLENGE_STORE_ERROR, store1)
      else (ValidateChallengeOk (markChallengeUsed challenge), store1)
  end.

(** ** AccountLinkVerificationService *)

Definition lineFeed : string := String (ascii_of_nat 10) EmptyString.

Definition buildSignedLinkMessage (challenge : AccountLinkChallenge)
    : string :=
  join lineFeed
    ["Polymarket Account Link Challenge";
     "Discord User: " ++ challenge_discordUserId challenge;
     "Nonce: " ++ challenge_nonce challenge;
     "Issued At (ms): " ++ intToString (challenge_issuedAtMs challenge);
     "Expires At (ms): " ++ intToString (challenge_expiresAtMs challenge)].

(** [SignatureVerifier.verify(message, signature, accountId)]; [None] is a
    verifier that throws. *)
Definition SignatureVerifier : Type :=
  string -> string -> string -> option bool.

Inductive VerifyLinkErrorCode := CHALLENGE_INVALID | SIGNATURE_INVALID.

Inductive VerifyLinkResult :=
| VerifyLinkOk (discordUserId polymarketAccountId : string)
| VerifyLinkErr (errorCode : VerifyLinkErrorCode).

Definition verifyLink (signatureVerifier : SignatureVerifier)
    (discordUserId nonce polymarketAccountId signature : string) (nowMs : Z)
    (store : ChallengeStore) : VerifyLinkResult * ChallengeStore :=
  match validateWithoutConsume discordUserId nonce nowMs store with
  | ValidateChallengeErr _ => (VerifyLinkErr CHALLENGE_INVALID, store)
  | ValidateChallengeOk challenge =>
      let message := buildSignedLinkMessage challenge in
      match signatureVerifier message signature polymarketAccountId with
      | None => (VerifyLinkErr SIGNATURE_INVALID, store)
      | Some signatureIsValid =>
          if negb signatureIsValid
          then (VerifyLinkErr SIGNATURE_INVALID, store)
          else
            let '(consumed, store1) :=
              consumeChallenge (challenge_nonce challenge) store in
            if negb consumed then (VerifyLinkErr CHALLENGE_INVALID, store1)
            else (VerifyLinkOk discordUserId polymarketAccountId, store1)
      end
  end.

(** ** src/auth/AccountLinkPersistenceService.ts *)

(** [InMemoryAccountLinkStore]: user -> (accountId, linkedAtMs). *)
Abbreviation LinkStore := (gmap string (string * Z)).

Definition linkStore_link (discordUserId polymarketAccountId : string)
    (linkedAtMs : Z) (links : LinkStore) : LinkStore :=
  <[discordUserId := (polymarketAccountId, linkedAtMs)]> links.

Definition linkStore_getLinkedAccount (discordUserId : string)
    (links : LinkStore) : option string :=
  fst <$> links !! discordUserId.

Definition linkStore_unlink (discordUserId : string) (links : LinkStore)
    : LinkStore :=
  delete discordUserId links.

Inductive PersistenceErrorCode := STORE_ERROR | LINK_NOT_FOUND.

Inductive PersistLinkResult :=
| PersistLinkOk (discordUserId polymarketAccountId : string) (linkedAtMs : Z)
| PersistLinkErr (errorCode : PersistenceErrorCode).

Inductive GetLinkedAccountResult :=
| GetLinkedAccountOk (polymarketAccountId : string)
| GetLinkedAccountErr (errorCode : PersistenceErrorCode).

Inductive UnlinkResult :=
| UnlinkOk (discordUserId : string)
| UnlinkErr (errorCode : PersistenceErrorCode).

Definition persistLink (discordUserId polymarketAccountId : string)
    (nowMs : Z) (links : LinkStore) : PersistLinkResult * LinkStore :=
  (PersistLinkOk discordUserId polymarketAccountId nowMs,
   linkStore_link discordUserId polymarketAccountId nowMs links).

Definition getLinkedAccount (discordUserId : string) (links : LinkStore)
    : GetLinkedAccountResult :=
  match linkStore_getLinkedAccount discordUserId links with
  | None => GetLinkedAccountErr LINK_NOT_FOUND
  | Some polymarketAccountId => GetLinkedAccountOk polymarketAccountId
  end.

Definition unlink (discordUserId : string) (links : LinkStore)
    : UnlinkResult * LinkStore :=
  match linkStore_getLinkedAccount discordUserId links with
  | None => (UnlinkErr LINK_NOT_FOUND, links)
  | Some _ => (UnlinkOk discordUserId, linkStore_unlink discordUserId links)
  end.

(** ** The account-link commands (handleConnectAccount, handleVerify,
    handleDisconnect) *)

Record AccountLinks := {
  challenges : ChallengeStore;
  links : LinkStore
}.

Definition newAccountLinks : AccountLinks :=
  {| challenges := newChallengeStore; links := ∅ |}.

Definition doubleQuote : string := String (ascii_of_nat 34) EmptyString.

Definition CONNECT_FAILED : string :=
  "Could not start account connection right now. Please try again.".
Definition CHALLENGE_INVALID_REPLY : string :=
  "Challenge is invalid or expired. Please run " ++ doubleQuote
    ++ "connect account" ++ doubleQuote ++ " again.".
Definition SIGNATURE_INVALID_REPLY : string :=
  "Signature verification failed. Please ensure you signed the exact challenge message.".
Definition LINK_NOT_SAVED : string :=
  "Account verified, but linking could not be saved right now. Please try again.".
Definition CONNECTED : string :=
  "Your Polymarket account is now connected successfully.".
Definition NO_LINK_FOUND : string :=
  "No linked Polymarket account was found for your Discord user.".
Definition DISCONNECT_FAILED : string :=
  "Could not disconnect your account right now. Please try again.".
Definition DISCONNECTED : string :=
  "Your Polymarket account has been disconnected.".

Definition handleConnectAccount (createNonce : option string)
    (discordUserId : string) (nowMs : Z) (st : AccountLinks)
    : string * AccountLinks :=
  let '(issued, store) :=
    issueChallenge DEFAULT_CHALLENGE_TTL_MS createNonce discordUserId nowMs
      (challenges st) in
  match issued with
  | IssueChallengeStoreError =>
      (CONNECT_FAILED, {| challenges := store; links := links st |})
  | IssueChallengeOk challenge =>
      let challengeMessage := buildSignedLinkMessage challenge in
      (join lineFeed
         ["Sign the exact message below with your wallet using personal_sign, then submit:";
          "verify <polymarketAccountId> " ++ challenge_nonce challenge
            ++ " <signature>";
          "";
          challengeMessage],
       {| challenges := store; links := links st |})
  end.

(** [deps.nowMs()] is read twice: for the verification and for the link's
    timestamp. *)
Definition handleVerify (signatureVerifier : SignatureVerifier)
    (discordUserId polymarketAccountId nonce signature : string)
    (nowMs linkedAtMs : Z) (st : AccountLinks) : string * AccountLinks :=
  let '(verification, store) :=
    verifyLink signatureVerifier discordUserId nonce polymarketAccountId
      signature nowMs (challenges st) in
  match verification with
  | VerifyLinkErr CHALLENGE_INVALID =>
      (CHALLENGE_INVALID_REPLY, {| challenges := store; links := links st |})
  | VerifyLinkErr SIGNATURE_INVALID =>
      (SIGNATURE_INVALID_REPLY, {| challenges := store; links := links st |})
  | VerifyLinkOk _ _ =>
      let '(persisted, links1) :=
        persistLink discordUserId polymarketAccountId linkedAtMs (links st) in
      match persisted with
      | PersistLinkErr _ =>
          (LINK_NOT_SAVED, {| challenges := store; links := links1 |})
      | PersistLinkOk _ _ _ =>
          (CONNECTED, {| challenges := store; links := links1 |})
      end
  end.

Definition handleDisconnect (discordUserId : string) (st : AccountLinks)
    : string * AccountLinks :=
  let '(result, links1) := unlink discordUserId (links st) in
  match result with
  | UnlinkErr LINK_NOT_FOUND =>
      (NO_LINK_FOUND, {| challenges := challenges st; links := links1 |})
  | UnlinkErr STORE_ERROR =>
      (DISCONNECT_FAILED, {| challenges := challenges st; links := links1 |})
  | UnlinkOk _ =>
      (DISCONNECTED, {| challenges := challenges st; links := links1 |})
  end.

(** The account-link commands as a transition system, each command with
    the user who sends it. *)
Inductive LinkCommand :=
| ConnectAccount (createNonce : option string) (nowMs : Z)
| Verify (signatureVerifier : SignatureVerifier)
    (polymarketAccountId nonce signature : string) (nowMs linkedAtMs : Z)
| Disconnect.

Definition handleLinkCommand (discordUserId : string) (command : LinkCommand)
    (st : AccountLinks) : string * AccountLinks :=
  match command with
  | ConnectAccount createNonce nowMs =>
      handleConnectAccount createNonce discordUserId nowMs st
  | Verify signatureVerifier polymarketAccountId nonce signature nowMs
      linkedAtMs =>
      handleVerify signatureVerifier discordUserId polymarketAccountId nonce
        signature nowMs linkedAtMs st
  | Disconnect => handleDisconnect discordUserId st
  end.

Definition runLinkCommands (commands : list (string * LinkCommand))
    (st : AccountLinks) : AccountLinks :=
  fold_left (fun st uc => snd (handleLinkCommand (fst uc) (snd uc) st))
    commands st.

(** Every challenge on file is indexed under its nonce for its user. *)
Definition ownersConsistent (store : ChallengeStore) : Prop :=
  forall discordUserId challenge,
    byDiscordUserId store !! discordUserId = Some challenge ->
    ownerByNonce store !! challenge_nonce challenge = Some discordUserId.

(** Each nonce drawn by a connect command is new to the store it is drawn
    for, as a random UUID is. *)
Fixpoint noncesFresh (commands : list (string * LinkCommand))
    (st : AccountLinks) : Prop :=
  match commands with
  | [] => True
  | (discordUserId, command) :: rest =>
      match command with
      | ConnectAccount (Some nonce) _ =>
          ownerByNonce (challenges st) !! nonce = None
      | _ => True
      end /\
      noncesFresh rest (snd (handleLinkCommand discordUserId command st))
  end.

(** The challenge of [nonce], once consumed, stays consumed: [nonce]
    belongs to [discordUserId], whose challenge on file is another one or
    is marked used. *)
Definition consumed (discordUserId nonce : string) (store : ChallengeStore)
    : Prop :=
  ownersConsistent store /\
  ownerByNonce store !! nonce = Some discordUserId /\
  forall challenge,
    byDiscordUserId store !! discordUserId = Some challenge ->
    challenge_nonce challenge = nonce -> challenge_used challenge = true.

(** [linkedAccountResult.ok ? linkedAccountResult.polymarketAccountId : null] *)
Definition linkedId (result : GetLinkedAccountResult) : option string :=
  match result with
  | GetLinkedAccountOk polymarketAccountId => Some polymarketAccountId
  | GetLinkedAccountErr _ => None
  end.

(** A verifier that accepts every signature, and a short history: alice
    asks for a challenge and answers it; bob and alice then ask for new
    ones. *)
Definition acceptingVerifier : SignatureVerifier := fun _ _ _ => Some true.

Definition aliceConnects : list (string * LinkCommand) :=
  [("alice", ConnectAccount (Some "n-1") 1000)].

Definition laterConnects : list (string * LinkCommand) :=
  [("bob", ConnectAccount (Some "n-2") 3000);
   ("alice", ConnectAccount (Some "n-3") 4000)].

(** ** src/trading/UserAccountTrader.ts *)

Record ExecuteTradeParams := {
  params_marketId : string;
  params_outcome : Outcome;
  params_action : TradeAction;
  params_amountCents : Q;
  params_idempotencyKey : string
}.

Record ExecuteTradeResponse := {
  response_tradeId : string;
  response_executedAtMs : Z
}.

(** What the gateway throws: an object with a string [code]
    ([isCodeError]), or anything else. *)
Inductive ExecutionError :=
| CodeError (code : string)
| OtherError.

Record Balance := {
  balance_userId : string;
  availableCents : Q;
  spentTodayCents : Q;
  balance_remainingDailyLimitCents : Q;
  asOfMs : Z
}.

(** [PolymarketExecutionGateway]; [inr] and [None] are a call that
    throws. *)
Record PolymarketExecutionGateway := {
  executeTradeForAccount :
    string -> ExecuteTradeParams -> ExecuteTradeResponse + ExecutionError;
  getBalanceForAccount : string -> option Balance;
  getRecentTradesForAccount : string -> Q -> option (list TradeResult)
}.

(** The string of a [TradeErrorCode] (types.ts). *)
Definition tradeErrorCodeToString (errorCode : TradeErrorCode) : string :=
  match errorCode with
  | TE_LIMIT_EXCEEDED => "LIMIT_EXCEEDED"
  | TE_INVALID_MARKET => "INVALID_MARKET"
  | TE_MARKET_NOT_ACTIVE => "MARKET_NOT_ACTIVE"
  | TE_INVALID_AMOUNT => "INVALID_AMOUNT"
  | TE_RATE_LIMITED => "RATE_LIMITED"
  | TE_ABUSE_BLOCKED => "ABUSE_BLOCKED"
  | TE_UPSTREAM_UNAVAILABLE => "UPSTREAM_UNAVAILABLE"
  | TE_INTERNAL_ERROR => "INTERNAL_ERROR"
  end.

Definition mapExecutionErrorToTradeErrorCode (error : ExecutionError)
    : TradeErrorCode :=
  match error with
  | CodeError code =>
      if String.eqb code "RATE_LIMITED" then TE_RATE_LIMITED
      else if String.eqb code "UPSTREAM_UNAVAILABLE"
      then TE_UPSTREAM_UNAVAILABLE
      else if String.eqb code "INVALID_MARKET" then TE_INVALID_MARKET
      else if String.eqb code "MARKET_NOT_ACTIVE" then TE_MARKET_NOT_ACTIVE
      else if String.eqb code "INVALID_AMOUNT" then TE_INVALID_AMOUNT
      else if String.eqb code "ABUSE_BLOCKED" then TE_ABUSE_BLOCKED
      else if String.eqb code "LIMIT_EXCEEDED" then TE_LIMIT_EXCEEDED
      else TE_INTERNAL_ERROR
  | OtherError => TE_INTERNAL_ERROR
  end.

Definition executeTradeParams (request : TradeRequest) : ExecuteTradeParams :=
  {| params_marketId := market_id (req_market request);
     params_outcome := req_outcome request;
     params_action := req_action request;
     params_amountCents := req_amountCents request;
     params_idempotencyKey := req_idempotencyKey request |}.

(** [UserAccountTrader.placeTrade]; [dateNow] is the clock read in the
    [catch]. *)
Definition UserAccountTrader_placeTrade (gateway : PolymarketExecutionGateway)
    (dateNow : Z) (request : TradeRequest) : TradeResult :=
  match
    executeTradeForAccount gateway
      (polymarketAccountId (req_identity request))
      (executeTradeParams request)
  with
  | inl execution =>
      TradeResultSuccess (response_tradeId execution)
        (discordUserId (req_identity request))
        (market_id (req_market request))
        (req_outcome request) (req_amountCents request)
        (response_executedAtMs execution)
  | inr error =>
      TradeResultFailure (mapExecutionErrorToTradeErrorCode error) None
        dateNow
  end.

(** [!accountId]: [null], or the empty string. *)
Definition noAccount (accountId : option string) : bool :=
  match accountId with
  | None => true
  | Some a => String.eqb a ""
  end.

(** [UserAccountTrader.getBalance]; [None] is a gateway error, which is
    not caught here. *)
Definition UserAccountTrader_getBalance (gateway : PolymarketExecutionGateway)
    (resolveAccountId : string -> option string) (dateNow : Z)
    (userId : string) : option Balance :=
  let accountId := resolveAccountId userId in
  if noAccount accountId then
    Some {| balance_userId := userId; availableCents := 0;
            spentTodayCents := 0; balance_remainingDailyLimitCents := 0;
            asOfMs := dateNow |}
  else
    match getBalanceForAccount gateway (default "" accountId) with
    | None => None
    | Some accountBalance =>
        Some {| balance_userId := userId;
                availableCents := availableCents accountBalance;
                spentTodayCents := spentTodayCents accountBalance;
                balance_remainingDailyLimitCents :=
                  balance_remainingDailyLimitCents accountBalance;
                asOfMs := asOfMs accountBalance |}
    end.

Definition attributeTo (userId : string) (trade : TradeResult)
    : TradeResult :=
  match trade with
  | TradeResultFailure _ _ _ => trade
  | TradeResultSuccess tradeId _ marketId outcome amountCents executedAtMs =>
      TradeResultSuccess tradeId userId marketId outcome amountCents
        executedAtMs
  end.

(** [UserAccountTrader.getRecentTrades] *)
Definition UserAccountTrader_getRecentTrades
    (gateway : PolymarketExecutionGateway)
    (resolveAccountId : string -> option string) (userId : string)
    (limit : Q) : option (list TradeResult) :=
  let accountId := resolveAccountId userId in
  if noAccount accountId then Some []
  else
    match getRecentTradesForAccount gateway (default "" accountId) limit with
    | None => None
    | Some trades => Some (map (attributeTo userId) trades)
    end.

(** The account resolver the trader is wired with: the linked account, or
    the leader's proxy wallet. *)
Definition resolveAccountId (cfg : Config) (store : LinkStore)
    (discordUserId : string) : option string :=
  match getLinkedAccount discordUserId store with
  | GetLinkedAccountOk polymarketAccountId => Some polymarketAccountId
  | GetLinkedAccountErr _ => env_POLYMARKET_PROXY_WALLET cfg
  end.

(** The validation-context builder the router is wired with
    ([createBuildValidationContext]), over the link store and the answer
    of the market search. *)
Definition createBuildValidationContext (cfg : Config) (store : LinkStore)
    (searchResult : option (list Market)) (discordUserId : string)
    : ValidationContext :=
  buildValidationContext cfg
    (linkedId (getLinkedAccount discordUserId store)) searchResult.

(** A successful trade of the list carries [userId]. *)
Definition attributedTo (userId : string) (trade : TradeResult) : Prop :=
  match trade with
  | TradeResultSuccess _ u _ _ _ _ => u = userId
  | TradeResultFailure _ _ _ => True
  end.

(** The example collaborators with the trader and the validation-context
    builder as the bot wires them: [UserAccountTrader] over [gateway], the
    context built from the link store [store]. *)
Definition wiredDeps (now : Z) (uuid : string) (reply : option JsonValue)
    (gateway : PolymarketExecutionGateway) (store : LinkStore) : Deps :=
  let d := exampleDeps now uuid reply in
  {| dateNow := dateNow d;
     deps_nowMs := deps_nowMs d;
     randomUUID := randomUUID d;
     hasGeminiKeys := hasGeminiKeys d;
     callGemini := callGemini d;
     handleRead := handleRead d;
     getMarketById := getMarketById d;
     fetchTimedUpDownEvent := fetchTimedUpDownEvent d;
     searchMarketsByText := searchMarketsByText d;
     deps_buildValidationContext :=
       createBuildValidationContext exampleConfig store (Some [exampleMarket]);
     getBalance := getBalance d;
     getRecentTrades := getRecentTrades d;
     fetchPolymarketActivity := fetchPolymarketActivity d;
     placeTrade := UserAccountTrader_placeTrade gateway now |}.

(** A gateway that is rate limited: every execution throws that code. *)
Definition rateLimitedGateway : PolymarketExecutionGateway :=
  {| executeTradeForAccount := fun _ _ => inr (CodeError "RATE_LIMITED");
     getBalanceForAccount := fun _ => None;
     getRecentTradesForAccount := fun _ _ => None |}.

(** ** index.ts: the messageCreate handler, up to the routing *)

(** Per-user command cooldown (5 seconds between commands). *)
Definition COOLDOWN_MS : Z := 5000.

(** What the handler reads of a Discord message before routing it. *)
Record DiscordMessage := {
  message_id : string;
  author_id : string;
  author_bot : bool;
  mentionsBot : bool
}.

(** [processedMessages], a [Set] in insertion order, and
    [userCooldowns]. *)
Record HandlerState := {
  processedMessages : list string;
  userCooldowns : gmap string Z
}.

Definition newHandlerState : HandlerState :=
  {| processedMessages := []; userCooldowns := ∅ |}.

Definition setHas (v : string) (ids : list string) : bool :=
  existsb (String.eqb v) ids.

(** [Set.prototype.add] *)
Definition setAdd (v : string) (ids : list string) : list string :=
  if setHas v ids then ids else ids ++ [v].

(** [Set.prototype.delete] *)
Definition setDelete (v : string) (ids : list string) : list string :=
  filter (fun x => x <> v) ids.

(** The eviction loop: the live iterator yields the first 100 values in
    insertion order, and every truthy one (every non-empty string) is
    deleted. *)
Definition evictOldest (ids : list string) : list string :=
  fold_left
    (fun acc v => if String.eqb v "" then acc else setDelete v acc)
    (take 100 ids) ids.

Inductive HandlerDecision :=
| Ignored
| CoolingDown
| Accepted.

(** The handler up to the point where the text is passed on (to the
    account-link commands or to the router): [Accepted]; the clock is read
    once for the cooldown check ([nowMs]) and once more when the command is
    accepted ([acceptedAtMs]). *)
Definition onMessageCreate (nowMs acceptedAtMs : Z) (message : DiscordMessage)
    (st : HandlerState) : HandlerDecision * HandlerState :=
  if author_bot message then (Ignored, st)
  else if negb (mentionsBot message) then (Ignored, st)
  else if setHas (message_id message) (processedMessages st)
  then (Ignored, st)
  else
    let added := setAdd (message_id message) (processedMessages st) in
    let processed :=
      if (500 <? length added)%nat then evictOldest added else added in
    let lastCmd := default 0 (userCooldowns st !! author_id message) in
    if Z.ltb (nowMs - lastCmd) COOLDOWN_MS
    then (CoolingDown,
          {| processedMessages := processed;
             userCooldowns := userCooldowns st |})
    else (Accepted,
          {| processedMessages := processed;
             userCooldowns :=
               <[author_id message := acceptedAtMs]> (userCooldowns st) |}).

(** A delivery: the two clock readings and the message. *)
Definition Delivery : Type := Z * Z * DiscordMessage.

Definition handleDelivery (delivery : Delivery) (st : HandlerState)
    : HandlerDecision * HandlerState :=
  let '(nowMs, acceptedAtMs, message) := delivery in
  onMessageCreate nowMs acceptedAtMs message st.

Definition runHandler (deliveries : list Delivery) (st : HandlerState)
    : HandlerState :=
  fold_left (fun st delivery => snd (handleDelivery delivery st)) deliveries st.

(** The delivery cannot restart the cooldown of [user] that began at
    [since]: it is someone else's, or it comes too early. *)
Definition keepsCooldown (user : string) (since : Z) (delivery : Delivery)
    : Prop :=
  let '(nowMs, _, message) := delivery in
  author_id message <> user \/ nowMs - since < COOLDOWN_MS.

(** The dedupe set is a set, and it is bounded. *)
Definition handlerInvariant (st : HandlerState) : Prop :=
  NoDup (processedMessages st) /\
  (length (processedMessages st) <= 500)%nat.

(** [id] is in the dedupe set with at most [newer] ids behind it. *)
Definition remembered (id : string) (newer : nat) (st : HandlerState)
    : Prop :=
  exists before after,
    processedMessages st = (before ++ id :: after)%list /\
    (length after <= newer)%nat.

(** A user's message that mentions the bot. *)
Definition mention (id author : string) : DiscordMessage :=
  {| message_id := id; author_id := author; author_bot := false;
     mentionsBot := true |}.
(** * Verification *)

(** ** The spend ledger *)

Section LedgerFacts.
Variable nowMs : Z.
Implicit Types (u : string) (l : Ledger) (um : gmap Z Q) (amt : Q).

Let today := utcDateKey nowMs.
Let yesterday := utcDateKey (nowMs - MS_PER_DAY).

Lemma evict_lookup_recent um day :
  day = today \/ day = yesterday ->
  evictStaleEntries nowMs um !! day = um !! day.
Proof.
  intros Hday. unfold evictStaleEntries.
  destruct (um !! day) as [q|] eqn:E.
  - apply map_lookup_filter_Some. split; [exact E | exact Hday].
  - apply map_lookup_filter_None. left. exact E.
Qed.

Lemma evict_lookup_cases um day :
  evictStaleEntries nowMs um !! day = um !! day \/
  evictStaleEntries nowMs um !! day = None.
Proof.
  unfold evictStaleEntries.
  destruct (filter _ um !! day) as [q|] eqn:E; [left | right; reflexivity].
  apply map_lookup_filter_Some in E. destruct E as [E _]. now rewrite E.
Qed.

Lemma memGetSpent_value u l :
  fst (memGetSpent nowMs u l) = spentOn today u l.
Proof.
  unfold memGetSpent, spentOn.
  destruct (l !! u) as [um|] eqn:E; simpl; [|reflexivity].
  rewrite evict_lookup_recent; [reflexivity | now left].
Qed.

Lemma memGetSpent_other_user u u' l :
  u' <> u -> snd (memGetSpent nowMs u l) !! u' = l !! u'.
Proof.
  intros Hne. unfold memGetSpent.
  destruct (l !! u) as [um|]; simpl; [|reflexivity].
  apply lookup_insert_ne. congruence.
Qed.

Lemma memGetSpent_recent u u' l day :
  day = today \/ day = yesterday \/ u' <> u ->
  spentOn day u' (snd (memGetSpent nowMs u l)) = spentOn day u' l.
Proof.
  intros Hday. unfold spentOn.
  destruct (decide (u' = u)) as [->|Hne].
  - unfold memGetSpent. destruct (l !! u) as [um|] eqn:E; simpl.
    + rewrite lookup_insert_eq. simpl.
      rewrite evict_lookup_recent; [reflexivity | tauto].
    + now rewrite E.
  - now rewrite memGetSpent_other_user.
Qed.

Lemma memGetSpent_cases u u' l day :
  spentOn day u' (snd (memGetSpent nowMs u l)) = spentOn day u' l \/
  spentOn day u' (snd (memGetSpent nowMs u l)) = 0%Q.
Proof.
  unfold spentOn.
  destruct (decide (u' = u)) as [->|Hne].
  - unfold memGetSpent. destruct (l !! u) as [um|] eqn:E; simpl.
    + rewrite lookup_insert_eq. simpl.
      destruct (evict_lookup_cases um day) as [-> | ->]; [now left | now right].
    + left. now rewrite E.
  - left. now rewrite memGetSpent_other_user.
Qed.

Lemma memRecordSpend_spentOn u u' amt l day :
  spentOn day u' (memRecordSpend nowMs u amt l) =
  if decide (u' = u /\ day = today)
  then (spentOn today u l + amt)%Q
  else spentOn day u' l.
Proof.
  unfold memRecordSpend, spentOn. fold today.
  destruct (decide (u' = u)) as [->|Hne].
  - rewrite lookup_insert_eq. simpl.
    destruct (decide (day = today)) as [->|Hd].
    + rewrite lookup_insert_eq. simpl.
      rewrite decide_True; [reflexivity | tauto].
    + rewrite lookup_insert_ne by congruence.
      rewrite decide_False; [reflexivity | tauto].
  - rewrite lookup_insert_ne by congruence.
    rewrite decide_False; [reflexivity | tauto].
Qed.

End LedgerFacts.






(** ** The output validator *)

(** C5 (as amended): for a [place_bet] intent whose account is resolved,
    whose market the injected lookup reports active, and whose amount is a
    whole number of cents with 500 <= amount <= remaining daily allowance
    and hourly spend + amount <= the hourly ceiling, [validateAgentOutput]
    answers Ok. *)
Theorem validateAgentOutput_accepts (userId marketId : string)
    (outcome : Outcome) (action : option TradeAction) (amountCents : Q)
    (rawText : option string) (context : ValidationContext)
    (account id : string) :
  ctx_polymarketAccountId context = Some account ->
  marketLookup context marketId = Some (id, active) ->
  isInteger amountCents = true ->
  (500 # 1 <= amountCents)%Q ->
  (amountCents <= remainingDailyLimitCents context)%Q ->
  (spentThisHourCents context + amountCents <= HOURLY_LIMIT_CENTS)%Q ->
  validateAgentOutput
    (place_bet userId marketId outcome action amountCents rawText) context
  = ValidationOk.
Proof.
  intros Hacc Hmkt Hint Hmin Hrem Hhour.
  unfold validateAgentOutput. rewrite Hacc, Hmkt, Hint. simpl.
  replace (Qle_bool amountCents 0) with false.
  2: { symmetry. apply not_true_is_false. intros H.
       apply Qle_bool_iff in H. lra. }
  apply Qle_bool_iff in Hrem. apply Qle_bool_iff in Hhour.
  now rewrite Hrem, Hhour.
Qed.

(** ** The request builder *)

Lemma intToString_inj a b : intToString a = intToString b -> a = b.
Proof.
  unfold intToString. intros H.
  assert (forall z, NilZero.int_of_string (NilZero.string_of_int (Z.to_int z))
                    = Some (Z.to_int z)) as Hrt.
  { intros z. apply NilZero.isi; destruct z; simpl; try discriminate.
    - intros [= E]. now apply (DecimalPos.Unsigned.to_uint_nonnil p).
    - intros [= E]. now apply (DecimalPos.Unsigned.to_uint_nonnil p). }
  apply (f_equal NilZero.int_of_string) in H.
  rewrite !Hrt in H. injection H as H.
  apply (f_equal Z.of_int) in H. now rewrite !DecimalZ.of_to in H.
Qed.

Lemma append_inv_head (s a b : string) : s ++ a = s ++ b -> a = b.
Proof.
  induction s as [|c s IH]; simpl; [trivial|].
  intros [= H]. now apply IH.
Qed.

(** C6: the idempotency key of the built request is the ':'-join of
    discordUserId, polymarketAccountId, marketId, outcome, amountCents and
    floor(nowMs / 300000); two builds with the same identity, market,
    outcome and amount give the same key when their clock readings fall in
    the same 5-minute bucket, and different keys when the buckets differ. *)
Theorem idempotency_key_by_bucket (identity : UserIdentity) (market : Market)
    (outcome : Outcome) (amountCents : Q)
    (userId1 marketId1 userId2 marketId2 : string)
    (action1 action2 : option TradeAction)
    (rawText1 rawText2 : option string) (nowMs1 nowMs2 : Z) :
  let key1 :=
    idempotencyKeyOf
      (place_bet userId1 marketId1 outcome action1 amountCents rawText1)
      {| bctx_identity := identity; bctx_market := market;
         bctx_nowMs := nowMs1 |} in
  let key2 :=
    idempotencyKeyOf
      (place_bet userId2 marketId2 outcome action2 amountCents rawText2)
      {| bctx_identity := identity; bctx_market := market;
         bctx_nowMs := nowMs2 |} in
  key1 =
    Some (join ":" [discordUserId identity; polymarketAccountId identity;
                    market_id market; outcomeToString outcome;
                    numberToString amountCents;
                    intToString (nowMs1 / 300000)]) /\
  (nowMs1 / 300000 = nowMs2 / 300000 -> key1 = key2) /\
  (nowMs1 / 300000 <> nowMs2 / 300000 -> key1 <> key2).
Proof.
  cbv zeta. unfold idempotencyKeyOf, buildTradeRequest,
    createDeterministicIdempotencyKey, IDEMPOTENCY_WINDOW_MS. simpl.
  change (5 * 60 * 1000) with 300000.
  split; [reflexivity | split].
  - intros ->. reflexivity.
  - intros Hne [= H]. apply Hne.
    repeat apply append_inv_head in H.
    now apply intToString_inj.
Qed.

(** ** The intent classifier *)



(** ** The confirmation registry *)

Local Opaque test regexMatch pickBestNaturalTradeMarket
  tryResolveTimedUpDownMarket parseIntent.

Ltac split_cases :=
  repeat (case_match; simplify_eq/=).

Lemma dailyLimitGuard_pending cfg d user action amt st :
  pendingTrades (snd (dailyLimitGuard cfg d user action amt st)) =
  pendingTrades st.
Proof. unfold dailyLimitGuard. split_cases; reflexivity. Qed.

Lemma validateBuildAndStore_pending d user intent mid chosen o a amt st :
  pendingStep d (pendingTrades st)
    (pendingTrades
       (snd (validateBuildAndStore d user intent mid chosen o a amt st))).
Proof.
  unfold validateBuildAndStore, storePendingTrade.
  split_cases; try (left; reflexivity).
  right. eexists. reflexivity.
Qed.

Lemma withLedger_same st : withLedger (spendLedger st) st = st.
Proof. now destruct st. Qed.

Lemma dailyLimitGuard_sell cfg d user amt st :
  dailyLimitGuard cfg d user SELL amt st = (None, st).
Proof. reflexivity. Qed.

(** The tail of the write paths neither reads nor writes the ledger. *)
Lemma validateBuildAndStore_frame d user intent mid chosen o a amt st l :
  validateBuildAndStore d user intent mid chosen o a amt (withLedger l st) =
  (fst (validateBuildAndStore d user intent mid chosen o a amt st),
   withLedger l (snd (validateBuildAndStore d user intent mid chosen o a amt st))).
Proof.
  unfold validateBuildAndStore, storePendingTrade.
  split_cases; reflexivity.
Qed.

Lemma validateBuildAndStore_spendEvents d user intent mid chosen o a amt st :
  spendEvents (snd (validateBuildAndStore d user intent mid chosen o a amt st))
  = spendEvents st.
Proof.
  unfold validateBuildAndStore, storePendingTrade, spendEvents.
  split_cases; reflexivity.
Qed.

Lemma validateBuildAndStore_confirm d user intent mid chosen o a amt st
    confirmId q o' a' dollars :
  fst (validateBuildAndStore d user intent mid chosen o a amt st)
    = RConfirm confirmId q o' a' dollars ->
  a' = a /\
  exists pending,
    pendingTrades (snd (validateBuildAndStore d user intent mid chosen o a amt st))
      !! confirmId = Some pending /\
    ex_action (execute pending) = a.
Proof.
  unfold validateBuildAndStore, storePendingTrade, somethingWentWrong.
  split_cases; intros [= <- <- <- <- <-].
  split; [reflexivity|]. eexists. split; [apply lookup_insert_eq | reflexivity].
Qed.

Local Opaque dailyLimitGuard validateBuildAndStore.

(** Bring in what the two helpers of the write paths do to the pending
    map, for every call of them among the hypotheses. *)
Ltac pending_facts :=
  repeat match goal with
  | H : dailyLimitGuard ?c ?d ?u ?a ?m ?s = (_, _) |- _ =>
      let E := fresh "Eg" in
      pose proof (dailyLimitGuard_pending c d u a m s) as E;
      rewrite H in E; simpl in E; clear H
  | H : validateBuildAndStore ?d ?u ?i ?mid ?ch ?o ?a ?m ?s = (_, _) |- _ =>
      let E := fresh "Ev" in
      pose proof (validateBuildAndStore_pending d u i mid ch o a m s) as E;
      rewrite H in E; simpl in E; clear H
  end.

Ltac pending_done :=
  pending_facts;
  first
    [ match goal with
      | E : pendingTrades ?r = pendingTrades ?s
        |- pendingStep _ (pendingTrades ?s) _ =>
          rewrite <- E; apply validateBuildAndStore_pending
      end
    | repeat match goal with
      | E : pendingTrades _ = pendingTrades _ |- _ => rewrite E in *; clear E
      end;
      first [ left; reflexivity | assumption ] ].

Lemma tryDeterministicWriteFallback_pending cfg d message user st :
  pendingStep d (pendingTrades st)
    (pendingTrades
       (snd (tryDeterministicWriteFallback cfg d message user st))).
Proof.
  unfold tryDeterministicWriteFallback.
  split_cases; pending_done.
Qed.

Lemma handleWrite_pending cfg d message user st :
  pendingStep d (pendingTrades st)
    (pendingTrades (snd (handleWrite cfg d message user st))).
Proof.
  unfold handleWrite.
  pose proof (tryDeterministicWriteFallback_pending cfg d message user st).
  destruct (tryDeterministicWriteFallback cfg d message user st) as [[r|] st1];
    split_cases; pending_done.
Qed.

Lemma routeMessage_pending cfg d message user st :
  pendingStep d (pendingTrades st)
    (pendingTrades (snd (routeMessage cfg d message user st))).
Proof.
  unfold routeMessage.
  split_cases; first [ apply handleWrite_pending | left; reflexivity ].
Qed.

Lemma runExecutor_pending d ex st :
  pendingTrades (snd (runExecutor d ex st)) = pendingTrades st.
Proof. unfold runExecutor. split_cases; reflexivity. Qed.

Lemma executePendingTrade_pending d confirmId st :
  pendingTrades (snd (executePendingTrade d confirmId st)) =
  delete confirmId (pendingTrades st).
Proof.
  unfold executePendingTrade.
  destruct (pendingTrades st !! confirmId) as [p|] eqn:E; simpl.
  - destruct (Z.ltb _ _); simpl; [reflexivity|].
    now destruct (_ && _).
  - symmetry. now apply delete_id.
Qed.

Lemma cancelPendingTrade_pending confirmId st :
  pendingTrades (snd (cancelPendingTrade confirmId st)) =
  delete confirmId (pendingTrades st).
Proof.
  unfold cancelPendingTrade.
  destruct (pendingTrades st !! confirmId) as [p|] eqn:E; simpl;
    [reflexivity | symmetry; now apply delete_id].
Qed.

Lemma delete_lookup_cases (m : gmap string PendingTrade) i j :
  delete i m !! j = m !! j \/ delete i m !! j = None.
Proof.
  destruct (decide (i = j)) as [->|Hne].
  - right. apply lookup_delete_eq.
  - left. now apply lookup_delete_ne.
Qed.

(** An operation that stores elsewhere leaves the entry of [confirmId] as
    it is, or removes it. *)
Lemma step_pending_lookup cfg op st confirmId :
  storesElsewhere confirmId op ->
  pendingTrades (step cfg op st) !! confirmId = pendingTrades st !! confirmId
  \/ pendingTrades (step cfg op st) !! confirmId = None.
Proof.
  destruct op as [d message user | d cid | cid | now]; simpl; intros Hop.
  - destruct (routeMessage_pending cfg d message user st) as [-> | [ex ->]].
    + now left.
    + left. now apply lookup_insert_ne.
  - rewrite executePendingTrade_pending. apply delete_lookup_cases.
  - rewrite cancelPendingTrade_pending. apply delete_lookup_cases.
  - destruct (filter _ (pendingTrades st) !! confirmId) as [p|] eqn:E;
      [left | now right].
    apply map_lookup_filter_Some in E. now destruct E as [-> _].
Qed.

Lemma run_pending_lookup cfg ops st confirmId :
  Forall (storesElsewhere confirmId) ops ->
  pendingTrades (run cfg ops st) !! confirmId = pendingTrades st !! confirmId
  \/ pendingTrades (run cfg ops st) !! confirmId = None.
Proof.
  intros Hops. revert st.
  induction Hops as [|op ops Hop _ IH]; intros st; simpl; [now left|].
  destruct (IH (step cfg op st)) as [-> | ->]; [|now right].
  now apply step_pending_lookup.
Qed.

Lemma claimedIn_absent confirmId st st' :
  claimedIn confirmId st st' -> pendingTrades st' !! confirmId = None.
Proof.
  intros [(d & text & H) | H].
  - apply (f_equal snd) in H. simpl in H. subst st'.
    rewrite executePendingTrade_pending. apply lookup_delete_eq.
  - apply (f_equal snd) in H. simpl in H. subst st'.
    rewrite cancelPendingTrade_pending. apply lookup_delete_eq.
Qed.

Lemma absent_not_claimable confirmId st :
  pendingTrades st !! confirmId = None ->
  (forall d, executePendingTrade d confirmId st = (None, st)) /\
  cancelPendingTrade confirmId st = (false, st).
Proof.
  intros E. unfold executePendingTrade, cancelPendingTrade.
  now rewrite E.
Qed.

(** C3: at most one claim of a confirmation id succeeds.  After a
    successful [executePendingTrade] (non-null) or [cancelPendingTrade]
    ([true]) on the id, and whatever operations follow (routed messages
    drawing other ids, executions, cancellations, sweeps), every
    [executePendingTrade] on the id answers null and every
    [cancelPendingTrade] answers [false]; the same holds for an id that was
    never stored, from the router's initial state on. *)
Theorem pending_trade_claimed_at_most_once (cfg : Config)
    (confirmId : string) (st st' : Router) (ops : list Op) :
  claimedIn confirmId st st' \/ st' = newRouter ->
  Forall (storesElsewhere confirmId) ops ->
  let st'' := run cfg ops st' in
  (forall d, executePendingTrade d confirmId st'' = (None, st'')) /\
  cancelPendingTrade confirmId st'' = (false, st'').
Proof.
  intros Hstart Hops. cbv zeta.
  apply absent_not_claimable.
  assert (pendingTrades st' !! confirmId = None) as Habs.
  { destruct Hstart as [Hc | ->];
      [now apply (claimedIn_absent confirmId st)|].
    apply lookup_empty. }
  destruct (run_pending_lookup cfg ops st' confirmId Hops) as [-> | ->];
    [exact Habs | reflexivity].
Qed.

(** C10: [cancelPendingTrade] looks at no clock.  Whenever the id is in
    the pending map, whatever the entry's expiry, it deletes the entry and
    answers [true]; it answers [false] exactly when the id is absent, and
    then changes nothing. *)
Theorem cancelPendingTrade_ignores_expiry (confirmId : string)
    (st : Router) :
  (forall pending, pendingTrades st !! confirmId = Some pending ->
     cancelPendingTrade confirmId st =
       (true, withPending (delete confirmId (pendingTrades st)) st) /\
     pendingTrades (snd (cancelPendingTrade confirmId st)) !! confirmId
       = None) /\
  (fst (cancelPendingTrade confirmId st) = false <->
     pendingTrades st !! confirmId = None) /\
  (pendingTrades st !! confirmId = None ->
     cancelPendingTrade confirmId st = (false, st)).
Proof.
  unfold cancelPendingTrade.
  destruct (pendingTrades st !! confirmId) as [p|] eqn:E; simpl.
  - split; [|split].
    + intros pending _. split; [reflexivity | apply lookup_delete_eq].
    + split; discriminate.
    + discriminate.
  - split; [|split].
    + discriminate.
    + split; reflexivity.
    + reflexivity.
Qed.

(** C4 (as amended): a pending trade stored by [storePendingTrade] is
    never executed strictly after its expiry.  Whatever operations happen in
    between (sweeps included), an [executePendingTrade] at a clock reading
    greater than creation + 5 minutes answers null, calls neither the trader
    nor the ledger, and leaves no entry under the id. *)
Theorem expired_pending_trade_never_executes (cfg : Config) (d0 : Deps)
    (ex : Executor) (st0 : Router) (ops : list Op) (d : Deps) :
  let confirmId := fst (storePendingTrade d0 ex st0) in
  let st1 := snd (storePendingTrade d0 ex st0) in
  let st2 := run cfg ops st1 in
  Forall (storesElsewhere confirmId) ops ->
  dateNow d0 + PENDING_TTL_MS < dateNow d ->
  fst (executePendingTrade d confirmId st2) = None /\
  events (snd (executePendingTrade d confirmId st2)) = events st2 /\
  spendLedger (snd (executePendingTrade d confirmId st2)) = spendLedger st2 /\
  pendingTrades (snd (executePendingTrade d confirmId st2)) !! confirmId
    = None.
Proof.
  cbv zeta. simpl. intros Hops Hlate.
  set (st1 := logEvent _ _).
  assert (pendingTrades st1 !! randomUUID d0 =
          Some {| execute := ex;
                  expiresAtMs := dateNow d0 + PENDING_TTL_MS |}) as Hst1.
  { subst st1. simpl. apply lookup_insert_eq. }
  split; [|split; [|split]];
    try (rewrite executePendingTrade_pending; apply lookup_delete_eq).
  all: unfold executePendingTrade;
    destruct (run_pending_lookup cfg ops st1 (randomUUID d0) Hops)
      as [-> | ->];
    [ rewrite Hst1; simpl;
      replace (Z.ltb _ _) with true by (symmetry; apply Z.ltb_lt; lia);
      reflexivity
    | reflexivity ].
Qed.

(** ** Sells and the ledger *)

Lemma runExecutor_sell d ex st l :
  ex_action ex = SELL ->
  runExecutor d ex (withLedger l st) =
    (fst (runExecutor d ex st), withLedger l (snd (runExecutor d ex st))) /\
  spendEvents (snd (runExecutor d ex st)) = spendEvents st /\
  events (snd (runExecutor d ex st)) =
    PlaceTradeCalled (ex_tradeRequest ex) :: events st.
Proof.
  intros Ha. unfold runExecutor, spendEvents. rewrite Ha. simpl.
  rewrite andb_false_r. split; [reflexivity | split; reflexivity].
Qed.

Lemma tryDeterministicWriteFallback_sell cfg d message user st l :
  test (wordBounded false ["sell"; "exit"; "close"])
    (toLowerCase (trim message)) = true ->
  let r := tryDeterministicWriteFallback cfg d message user st in
  tryDeterministicWriteFallback cfg d message user (withLedger l st) =
    (fst r, withLedger l (snd r)) /\
  spendEvents (snd r) = spendEvents st /\
  (forall confirmId q o a dollars,
     fst r = Some (RConfirm confirmId q o a dollars) ->
     a = SELL /\
     exists pending,
       pendingTrades (snd r) !! confirmId = Some pending /\
       ex_action (execute pending) = SELL).
Proof.
  intros Hsell. cbv zeta. unfold tryDeterministicWriteFallback.
  rewrite Hsell. cbv beta zeta iota.
  split_cases;
    repeat match goal with
    | H : dailyLimitGuard _ _ _ SELL _ _ = _ |- _ =>
        rewrite dailyLimitGuard_sell in H; simplify_eq/=
    end;
    repeat match goal with
    | H : validateBuildAndStore _ _ _ _ _ _ _ _ (withLedger _ _) = _ |- _ =>
        rewrite validateBuildAndStore_frame in H; simplify_eq/=
    end;
    (split; [|split]); try reflexivity; try discriminate.
  all: repeat match goal with
    | H : validateBuildAndStore ?d ?u ?i ?mid ?ch ?o ?a ?m ?s = (?r, ?s')
      |- _ =>
        pose proof (validateBuildAndStore_spendEvents d u i mid ch o a m s);
        pose proof (validateBuildAndStore_confirm d u i mid ch o a m s);
        rewrite H in *; simpl in *; clear H
    end; try congruence.
  all: intros confirmId q o a dollars [= ->]; eauto.
Qed.

Lemma handleWrite_sell cfg d message user st l :
  sellRequested d message user = true ->
  let r := handleWrite cfg d message user st in
  handleWrite cfg d message user (withLedger l st) =
    (fst r, withLedger l (snd r)) /\
  spendEvents (snd r) = spendEvents st /\
  (forall confirmId q o a dollars,
     fst r = RConfirm confirmId q o a dollars ->
     a = SELL /\
     exists pending,
       pendingTrades (snd r) !! confirmId = Some pending /\
       ex_action (execute pending) = SELL).
Proof.
  unfold sellRequested, handleWrite. cbv zeta.
  destruct (parseIntent d message user)
    as [[uid mid o [[|]|] amt raw | | |]|]; try discriminate.
  - intros _. simpl default. rewrite !dailyLimitGuard_sell.
    rewrite validateBuildAndStore_frame.
    split; [reflexivity | split].
    + apply validateBuildAndStore_spendEvents.
    + intros confirmId q o' a dollars H.
      now apply validateBuildAndStore_confirm in H.
  - intros Hsell.
    destruct (tryDeterministicWriteFallback_sell cfg d message user st l Hsell)
      as (Hf & He & Hc).
    rewrite Hf.
    destruct (tryDeterministicWriteFallback cfg d message user st)
      as [[r|] st1]; simpl in *.
    + split; [reflexivity | split; [exact He|]].
      intros confirmId q o a dollars ->. eapply Hc. reflexivity.
    + split; [reflexivity | split; [exact He | discriminate]].
Qed.

Lemma executePendingTrade_sell d confirmId st pending l :
  pendingTrades st !! confirmId = Some pending ->
  ex_action (execute pending) = SELL ->
  let e := executePendingTrade d confirmId st in
  executePendingTrade d confirmId (withLedger l st) =
    (fst e, withLedger l (snd e)) /\
  spendEvents (snd e) = spendEvents st.
Proof.
  intros Hp Ha. unfold executePendingTrade. simpl pendingTrades.
  rewrite Hp. cbv zeta.
  destruct (Z.ltb _ _); [split; reflexivity|].
  change (withPending ?p (withLedger l st)) with
    (withLedger l (withPending p st)).
  set (st1 := withPending _ st).
  destruct (runExecutor_sell d (execute pending) st1 l Ha) as (Hf & He & _).
  rewrite Hf. destruct (runExecutor d (execute pending) st1) as [text st2].
  split; [reflexivity | exact He].
Qed.

(** C9: a SELL never touches the spend ledger.  Routing a sell request
    leaves the ledger as it was and calls neither [canSpend] nor
    [recordSpend]; its answer is the same whatever the ledger holds; a
    confirmation it hands out is for a SELL, stored with that action; and
    executing a pending SELL again leaves the ledger as it was, calls no
    ledger function, and answers the same whatever the ledger holds. *)
Theorem sell_never_touches_ledger (cfg : Config) (d : Deps)
    (message user : string) (st : Router) :
  sellRequested d message user = true ->
  let r := routeMessage cfg d message user st in
  spendLedger (snd r) = spendLedger st /\
  spendEvents (snd r) = spendEvents st /\
  (forall l, fst (routeMessage cfg d message user (withLedger l st)) = fst r) /\
  (forall confirmId q o a dollars,
     fst r = RConfirm confirmId q o a dollars ->
     a = SELL /\
     exists pending,
       pendingTrades (snd r) !! confirmId = Some pending /\
       ex_action (execute pending) = SELL) /\
  (forall d' confirmId st' pending,
     pendingTrades st' !! confirmId = Some pending ->
     ex_action (execute pending) = SELL ->
     let e := executePendingTrade d' confirmId st' in
     spendLedger (snd e) = spendLedger st' /\
     spendEvents (snd e) = spendEvents st' /\
     (forall l,
        fst (executePendingTrade d' confirmId (withLedger l st')) = fst e)).
Proof.
  intros Hsell. cbv zeta.
  assert (forall l,
    routeMessage cfg d message user (withLedger l st) =
      (fst (routeMessage cfg d message user st),
       withLedger l (snd (routeMessage cfg d message user st))) /\
    spendEvents (snd (routeMessage cfg d message user st)) = spendEvents st /\
    (forall confirmId q o a dollars,
       fst (routeMessage cfg d message user st)
         = RConfirm confirmId q o a dollars ->
       a = SELL /\
       exists pending,
         pendingTrades (snd (routeMessage cfg d message user st))
           !! confirmId = Some pending /\
         ex_action (execute pending) = SELL)) as Hroute.
  { intros l. unfold routeMessage.
    destruct (isDeterministicWriteMessage message);
      [now apply handleWrite_sell|].
    destruct (classifyMessageIntent message);
      [|now apply handleWrite_sell].
    split; [reflexivity | split; [reflexivity | discriminate]]. }
  split; [|split; [|split; [|split]]].
  - destruct (Hroute (spendLedger st)) as (Hf & _ & _).
    rewrite withLedger_same in Hf.
    apply (f_equal (fun x => spendLedger (snd x))) in Hf. exact Hf.
  - now destruct (Hroute ∅) as (_ & He & _).
  - intros l. destruct (Hroute l) as (Hf & _ & _). now rewrite Hf.
  - now destruct (Hroute ∅) as (_ & _ & Hc).
  - intros d' confirmId st' pending Hp Ha. cbv zeta.
    split; [|split].
    + destruct (executePendingTrade_sell d' confirmId st' pending
                  (spendLedger st') Hp Ha) as (Hf & _).
      rewrite withLedger_same in Hf.
      apply (f_equal (fun x => spendLedger (snd x))) in Hf. exact Hf.
    + now destruct (executePendingTrade_sell d' confirmId st' pending ∅ Hp Ha).
    + intros l.
      destruct (executePendingTrade_sell d' confirmId st' pending l Hp Ha)
        as (Hf & _).
      now rewrite Hf.
Qed.

(** ** Parse failures *)




(** ** The daily ceiling across pending confirmations *)

(** C1 fails on the code: the router checks a buy with [canSpend] when the
    message is routed and records it with [recordSpend] when the pending
    trade is confirmed.  Two $5 buys routed before either is confirmed both
    pass the check; once both are confirmed, the non-exempt user's recorded
    spend of the day is 1000 cents, above the ceiling of 500. *)
Theorem two_pending_buys_exceed_daily_limit :
  let st := run exampleConfig twoPendingBuys newRouter in
  isOwnerExempt exampleConfig "alice" = false /\
  spendEvents st =
    [RecordSpendCalled "alice" (500 # 1); RecordSpendCalled "alice" (500 # 1);
     CanSpendCalled "alice" (500 # 1); CanSpendCalled "alice" (500 # 1)] /\
  fst (getSpentToday 5000 "alice" (spendLedger st)) = 1000 # 1 /\
  (DAILY_LIMIT_CENTS < fst (getSpentToday 5000 "alice" (spendLedger st)))%Q.
Proof.
  cbv zeta. split; [reflexivity | split; [|split]].
  - vm_compute. reflexivity.
  - vm_compute. reflexivity.
  - vm_compute. reflexivity.
Qed.

(** ** Where the code departs from the specification *)


(** C4 as stated fails at the boundary: the buy routed at clock reading
    1000 expires at 301000, and an [executePendingTrade] made exactly then
    still runs the stored continuation, calls the trader and records the
    spend. *)
Lemma executePendingTrade_runs_at_expiry :
  let atExpiry := exampleDeps (1000 + PENDING_TTL_MS) "" None in
  let result := executePendingTrade atExpiry "confirm-1" onePending in
  expiresAtMs <$> pendingTrades onePending !! "confirm-1"
    = Some (dateNow atExpiry) /\
  fst result <> None /\
  filter (fun e => isGatewayEvent e = true) (events (snd result)) =
    [PlaceTradeCalled (ex_tradeRequest exampleExecutor)] /\
  spentOn 0 "alice" (spendLedger (snd result)) = 500 # 1.
Proof.
  cbv zeta. split; [vm_compute; reflexivity | split; [|split]].
  - vm_compute. discriminate.
  - vm_compute. reflexivity.
  - vm_compute. reflexivity.
Qed.

(** C5 as stated fails: an active market and 500 <= amount <= remaining
    do not suffice.  With no account resolved the answer is
    ACCOUNT_NOT_CONNECTED; with one cent already spent this hour a
    500-cent bet is LIMIT_EXCEEDED; an amount of 500.5 cents is
    INVALID_AMOUNT. *)
Lemma validateAgentOutput_rejects_in_range :
  let bet amount := place_bet "alice" "m1" YES (Some BUY) amount None in
  marketLookup (contextWith None (500 # 1) 0) "m1" = Some ("m1", active) /\
  (500 # 1 <= 500 # 1)%Q /\
  (500 # 1 <= remainingDailyLimitCents (contextWith None (500 # 1) 0))%Q /\
  validateAgentOutput (bet (500 # 1)) (contextWith None (500 # 1) 0)
    = ValidationErr ACCOUNT_NOT_CONNECTED /\
  validateAgentOutput (bet (500 # 1))
    (contextWith (Some "0xleader") (500 # 1) (1 # 1))
    = ValidationErr LIMIT_EXCEEDED /\
  (500 # 1 <= 1001 # 2)%Q /\ (1001 # 2 <= 600 # 1)%Q /\
  validateAgentOutput (bet (1001 # 2))
    (contextWith (Some "0xleader") (600 # 1) 0)
    = ValidationErr INVALID_AMOUNT.
Proof.
  cbv zeta. simpl remainingDailyLimitCents.
  repeat split; try reflexivity; lra.
Qed.


(** ** Instances *)

Lemma pending_trade_claimed_at_most_once_witness :
  let st' := snd (cancelPendingTrade "confirm-1" onePending) in
  let st'' := run exampleConfig laterOps st' in
  (claimedIn "confirm-1" onePending st' \/ st' = newRouter) /\
  Forall (storesElsewhere "confirm-1") laterOps /\
  (forall d, executePendingTrade d "confirm-1" st'' = (None, st'')) /\
  cancelPendingTrade "confirm-1" st'' = (false, st'').
Proof.
  cbv zeta.
  assert (claimedIn "confirm-1" onePending
            (snd (cancelPendingTrade "confirm-1" onePending))
          \/ snd (cancelPendingTrade "confirm-1" onePending) = newRouter)
    as Hclaim.
  { left. right. vm_compute. reflexivity. }
  assert (Forall (storesElsewhere "confirm-1") laterOps) as Hops.
  { repeat constructor. simpl. discriminate. }
  split; [exact Hclaim | split; [exact Hops|]].
  exact (pending_trade_claimed_at_most_once exampleConfig "confirm-1"
           onePending _ laterOps Hclaim Hops).
Defined.

Lemma expired_pending_trade_never_executes_witness :
  let d0 := exampleDeps 1000 "confirm-1" None in
  let d := exampleDeps 301001 "" None in
  let confirmId := fst (storePendingTrade d0 exampleExecutor newRouter) in
  let st2 :=
    run exampleConfig [OpSweep 200000]
      (snd (storePendingTrade d0 exampleExecutor newRouter)) in
  Forall (storesElsewhere confirmId) [OpSweep 200000] /\
  dateNow d0 + PENDING_TTL_MS < dateNow d /\
  fst (executePendingTrade d confirmId st2) = None /\
  events (snd (executePendingTrade d confirmId st2)) = events st2 /\
  spendLedger (snd (executePendingTrade d confirmId st2)) = spendLedger st2 /\
  pendingTrades (snd (executePendingTrade d confirmId st2)) !! confirmId
    = None.
Proof.
  cbv zeta.
  assert (Forall (storesElsewhere
                    (fst (storePendingTrade (exampleDeps 1000 "confirm-1" None)
                            exampleExecutor newRouter)))
            [OpSweep 200000]) as Hops.
  { repeat constructor. }
  assert (dateNow (exampleDeps 1000 "confirm-1" None) + PENDING_TTL_MS
          < dateNow (exampleDeps 301001 "" None)) as Hlate.
  { vm_compute. reflexivity. }
  split; [exact Hops | split; [exact Hlate|]].
  exact (expired_pending_trade_never_executes exampleConfig
           (exampleDeps 1000 "confirm-1" None) exampleExecutor newRouter
           [OpSweep 200000] (exampleDeps 301001 "" None) Hops Hlate).
Defined.

Lemma validateAgentOutput_accepts_witness :
  validateAgentOutput (place_bet "alice" "m1" YES (Some BUY) (500 # 1) None)
    (contextWith (Some "0xleader") (500 # 1) 0)
  = ValidationOk.
Proof.
  apply (validateAgentOutput_accepts "alice" "m1" YES (Some BUY) (500 # 1)
           None (contextWith (Some "0xleader") (500 # 1) 0) "0xleader" "m1").
  - reflexivity.
  - reflexivity.
  - reflexivity.
  - vm_compute. discriminate.
  - vm_compute. discriminate.
  - vm_compute. discriminate.
Defined.


Lemma sell_never_touches_ledger_witness :
  let st := withLedger spentLedger newRouter in
  let buy := exampleDeps 1000 "confirm-1" (buyFiveDollars YES) in
  let sell := exampleDeps 1000 "confirm-1" sellThreeDollars in
  let r := routeMessage exampleConfig sell "sell $3 of yes on m1" "alice" st in
  fst (routeMessage exampleConfig buy "buy $5 of yes on m1" "alice" st)
    = RText (DailyLimitReached "0.00" "5.00") /\
  sellRequested sell "sell $3 of yes on m1" "alice" = true /\
  fst r = RConfirm "confirm-1" "Bitcoin up or down?" YES SELL "3.00" /\
  spendLedger (snd r) = spentLedger /\
  spendEvents (snd r) = [] /\
  spendLedger
    (snd (executePendingTrade (exampleDeps 2000 "" None) "confirm-1" (snd r)))
    = spentLedger.
Proof.
  cbv zeta.
  pose proof (sell_never_touches_ledger exampleConfig
                (exampleDeps 1000 "confirm-1" sellThreeDollars)
                "sell $3 of yes on m1" "alice"
                (withLedger spentLedger newRouter) eq_refl)
    as (Hl & He & _ & Hc & Hx).
  split; [vm_compute; reflexivity|].
  split; [reflexivity|].
  split; [vm_compute; reflexivity|].
  split; [exact Hl|].
  split; [exact He|].
  destruct (Hc "confirm-1" "Bitcoin up or down?" YES SELL "3.00")
    as (_ & pending & Hp & Ha); [vm_compute; reflexivity|].
  destruct (Hx (exampleDeps 2000 "" None) "confirm-1" _ pending Hp Ha)
    as (Hl' & _).
  rewrite Hl'. exact Hl.
Defined.


Lemma idempotency_key_by_bucket_witness :
  let identity := {| discordUserId := "alice";
                     polymarketAccountId := "0xleader" |} in
  let key nowMs :=
    idempotencyKeyOf (place_bet "alice" "m1" YES (Some BUY) (500 # 1) None)
      {| bctx_identity := identity; bctx_market := exampleMarket;
         bctx_nowMs := nowMs |} in
  key 1000 = Some "alice:0xleader:m1:YES:500:0" /\
  key 1000 = key 299999 /\
  key 1000 <> key 300000.
Proof.
  cbv zeta.
  destruct (idempotency_key_by_bucket
              {| discordUserId := "alice"; polymarketAccountId := "0xleader" |}
              exampleMarket YES (500 # 1) "alice" "m1" "alice" "m1"
              (Some BUY) (Some BUY) None None 1000 299999) as (Hk & Hsame & _).
  destruct (idempotency_key_by_bucket
              {| discordUserId := "alice"; polymarketAccountId := "0xleader" |}
              exampleMarket YES (500 # 1) "alice" "m1" "alice" "m1"
              (Some BUY) (Some BUY) None None 1000 300000) as (_ & _ & Hdiff).
  split; [exact Hk | split].
  - apply Hsame. reflexivity.
  - apply Hdiff. vm_compute. discriminate.
Defined.

Lemma cancelPendingTrade_ignores_expiry_witness :
  let st := snd (storePendingTrade (exampleDeps 1000 "confirm-1" None)
                   exampleExecutor newRouter) in
  (exists pending,
     pendingTrades st !! "confirm-1" = Some pending /\
     expiresAtMs pending < 999999999) /\
  fst (cancelPendingTrade "confirm-1" st) = true /\
  pendingTrades (snd (cancelPendingTrade "confirm-1" st)) !! "confirm-1"
    = None /\
  cancelPendingTrade "confirm-2" st = (false, st).
Proof.
  cbv zeta.
  set (st := snd (storePendingTrade (exampleDeps 1000 "confirm-1" None)
                    exampleExecutor newRouter)).
  destruct (cancelPendingTrade_ignores_expiry "confirm-1" st)
    as (Hpresent & _ & _).
  destruct (cancelPendingTrade_ignores_expiry "confirm-2" st)
    as (_ & _ & Habsent).
  assert (pendingTrades st !! "confirm-1" =
          Some {| execute := exampleExecutor;
                  expiresAtMs := 1000 + PENDING_TTL_MS |}) as Hp.
  { vm_compute. reflexivity. }
  destruct (Hpresent _ Hp) as (Hc & Hgone).
  split; [|split; [|split]].
  - eexists. split; [exact Hp | vm_compute; reflexivity].
  - now rewrite Hc.
  - exact Hgone.
  - apply Habsent. vm_compute. reflexivity.
Defined.


(** * Further properties of the embedded code *)

Local Opaque test regexMatch pickBestNaturalTradeMarket
  tryResolveTimedUpDownMarket parseIntent dailyLimitGuard
  validateBuildAndStore.

(** ** limits.ts: the ledger as a store *)

(** X1: [recordSpend] followed by [getSpentToday] reads back the sum for
    the same user on the same UTC day, and nothing else moves: another
    user, or the same user on another UTC day, reads what was read
    before. *)
Theorem recordSpend_then_getSpentToday (nowMs nowMs' : Z) (u u' : string)
    (amountCents : Q) (l : Ledger) :
  fst (getSpentToday nowMs' u' (recordSpend nowMs u amountCents l)) =
  if decide (u' = u /\ utcDateKey nowMs' = utcDateKey nowMs)
  then (fst (getSpentToday nowMs u l) + amountCents)%Q
  else fst (getSpentToday nowMs' u' l).
Proof.
  unfold getSpentToday, recordSpend.
  rewrite !memGetSpent_value, memRecordSpend_spentOn.
  destruct (decide (u' = u /\ utcDateKey nowMs' = utcDateKey nowMs));
    reflexivity.
Qed.

Lemma evictStaleEntries_lookup_Some nowMs (um : gmap Z Q) day q :
  evictStaleEntries nowMs um !! day = Some q ->
  um !! day = Some q /\
  (day = utcDateKey nowMs \/ day = utcDateKey (nowMs - MS_PER_DAY)).
Proof.
  unfold evictStaleEntries. intros H.
  apply map_lookup_filter_Some in H. exact H.
Qed.

Lemma evictStaleEntries_idemp nowMs (um : gmap Z Q) :
  evictStaleEntries nowMs (evictStaleEntries nowMs um) =
  evictStaleEntries nowMs um.
Proof.
  apply map_eq. intros day.
  destruct (evictStaleEntries nowMs um !! day) as [q|] eqn:E.
  - rewrite evict_lookup_recent; [exact E|].
    apply evictStaleEntries_lookup_Some in E. tauto.
  - destruct (evict_lookup_cases nowMs (evictStaleEntries nowMs um) day)
      as [-> | ->]; [exact E | reflexivity].
Qed.

(** X2: reading the counter evicts and retains by the day.  After
    [getSpentToday] the user's map holds buckets of the current and the
    previous UTC day only, those two are as they were, other users' maps
    are untouched, and reading again gives the same answer and changes
    nothing more. *)
Theorem getSpentToday_retains_two_days (nowMs : Z) (u : string) (l : Ledger) :
  let today := utcDateKey nowMs in
  let yesterday := utcDateKey (nowMs - MS_PER_DAY) in
  let l' := snd (getSpentToday nowMs u l) in
  (forall userMap day q,
     l' !! u = Some userMap -> userMap !! day = Some q ->
     day = today \/ day = yesterday) /\
  (forall day, day = today \/ day = yesterday ->
     default ∅ (l' !! u) !! day = default ∅ (l !! u) !! day) /\
  (forall u', u' <> u -> l' !! u' = l !! u') /\
  (is_Some (l' !! u) <-> is_Some (l !! u)) /\
  getSpentToday nowMs u l' = (fst (getSpentToday nowMs u l), l').
Proof.
  cbv zeta. unfold getSpentToday, memGetSpent.
  destruct (l !! u) as [um|] eqn:E; simpl.
  - split; [|split; [|split; [|split]]].
    + intros userMap day q. rewrite lookup_insert_eq. intros [= <-] H.
      apply evictStaleEntries_lookup_Some in H. tauto.
    + intros day Hday. rewrite lookup_insert_eq. simpl.
      now apply evict_lookup_recent.
    + intros u' Hne. apply lookup_insert_ne. congruence.
    + rewrite lookup_insert_eq. split; intros _; eauto.
    + rewrite lookup_insert_eq, evictStaleEntries_idemp, insert_insert_eq.
      reflexivity.
  - split; [|split; [|split; [|split]]]; try reflexivity.
    all: now rewrite E.
Qed.

(** X3: [canSpend] and [getRemainingToday] agree on positive amounts: a
    positive amount can be spent exactly when it is at most the remaining
    allowance; the remaining allowance is never negative, and it is
    500 - spent whenever the spent total is within the limit.  Both leave
    the same ledger behind. *)
Theorem canSpend_iff_within_remaining (nowMs : Z) (u : string)
    (amountCents : Q) (l : Ledger) :
  (0 < amountCents)%Q ->
  let spent := fst (getSpentToday nowMs u l) in
  let remaining := fst (getRemainingToday nowMs u l) in
  fst (canSpend nowMs u amountCents l) = Qle_bool amountCents remaining /\
  (0 <= remaining)%Q /\
  ((spent <= DAILY_LIMIT_CENTS)%Q ->
     (remaining == DAILY_LIMIT_CENTS - spent)%Q) /\
  snd (canSpend nowMs u amountCents l) = snd (getRemainingToday nowMs u l).
Proof.
  intros Hpos. cbv zeta. unfold canSpend, getRemainingToday.
  destruct (getSpentToday nowMs u l) as [spent l1]. simpl.
  unfold Qmax0.
  destruct (Qle_bool 0 (DAILY_LIMIT_CENTS - spent)) eqn:Hr.
  - apply Qle_bool_iff in Hr.
    split; [|split; [exact Hr | split; [reflexivity | reflexivity]]].
    destruct (Qle_bool amountCents _) eqn:Ha.
    + apply Qle_bool_iff in Ha. apply Qle_bool_iff. lra.
    + apply not_true_is_false. intros Hc. apply Qle_bool_iff in Hc.
      apply not_true_iff_false in Ha. apply Ha. apply Qle_bool_iff. lra.
  - apply not_true_iff_false in Hr.
    assert (~ (0 <= DAILY_LIMIT_CENTS - spent)%Q) as Hr'.
    { intros Hc. apply Hr. now apply Qle_bool_iff. }
    split; [|split; [lra | split; [intros Hs; lra | reflexivity]]].
    replace (Qle_bool amountCents 0) with false.
    2: { symmetry. apply not_true_is_false. intros Hc.
         apply Qle_bool_iff in Hc. lra. }
    apply not_true_is_false. intros Hc. apply Qle_bool_iff in Hc. lra.
Qed.

Lemma canSpend_iff_within_remaining_witness :
  (0 < 200 # 1)%Q /\
  fst (canSpend 1000 "alice" (200 # 1) spentLedger) = false /\
  fst (getRemainingToday 1000 "alice" spentLedger) = 0%Q /\
  fst (canSpend 1000 "bob" (200 # 1) spentLedger) = true.
Proof.
  assert (0 < 200 # 1)%Q as Hpos by (vm_compute; reflexivity).
  destruct (canSpend_iff_within_remaining 1000 "alice" (200 # 1) spentLedger
              Hpos) as (Hc & _).
  destruct (canSpend_iff_within_remaining 1000 "bob" (200 # 1) spentLedger
              Hpos) as (Hb & _).
  split; [exact Hpos | split; [|split]].
  - rewrite Hc. vm_compute. reflexivity.
  - vm_compute. reflexivity.
  - rewrite Hb. vm_compute. reflexivity.
Defined.

(** ** validateAgentOutput.ts, buildValidationContext.ts *)

Lemma Qle_bool_false a b : Qle_bool a b = false <-> (b < a)%Q.
Proof.
  split.
  - intros H. apply Qnot_le_lt. intros Hc. apply Qle_bool_iff in Hc.
    congruence.
  - intros H. apply not_true_is_false. intros Hc. apply Qle_bool_iff in Hc.
    lra.
Qed.

(** Turn the boolean comparisons among the hypotheses into inequalities. *)
Ltac qbool :=
  repeat match goal with
  | H : Qle_bool _ _ = true |- _ => apply Qle_bool_iff in H
  | H : Qle_bool _ _ = false |- _ => apply Qle_bool_false in H
  end.

Lemma validate_ok_spec (userId marketId : string)
    (outcome : Outcome) (action : option TradeAction) (amountCents : Q)
    (rawText : option string) (context : ValidationContext) :
  validateAgentOutput
    (place_bet userId marketId outcome action amountCents rawText) context
  = ValidationOk
  <->
  is_Some (ctx_polymarketAccountId context) /\
  (exists id, marketLookup context marketId = Some (id, active)) /\
  isInteger amountCents = true /\
  (0 < amountCents)%Q /\
  (amountCents <= remainingDailyLimitCents context)%Q /\
  (spentThisHourCents context + amountCents <= HOURLY_LIMIT_CENTS)%Q.
Proof.
  unfold validateAgentOutput.
  destruct (ctx_polymarketAccountId context) as [account|].
  2: { split; [discriminate | intros ([? [=]] & _)]. }
  destruct (marketLookup context marketId) as [[id status]|].
  2: { split; [discriminate | intros (_ & [? [=]] & _)]. }
  destruct status; simpl;
    try (split; [discriminate | intros (_ & [? [=]] & _)]).
  destruct (isInteger amountCents); simpl.
  2: { split; [discriminate | intros (_ & _ & [=] & _)]. }
  destruct (Qle_bool amountCents 0) eqn:H0; simpl; qbool.
  { split; [discriminate | intros (_ & _ & _ & ? & _); lra]. }
  destruct (Qle_bool amountCents _) eqn:H1; simpl; qbool.
  2: { split; [discriminate | intros (_ & _ & _ & _ & ? & _); lra]. }
  destruct (Qle_bool (_ + _) _) eqn:H2; simpl; qbool.
  2: { split; [discriminate | intros (_ & _ & _ & _ & _ & ?); lra]. }
  split; [intros _ | reflexivity].
  repeat split; eauto.
Qed.

(** X4: the checks run in a fixed order and the first failure names the
    error.  The answer is Ok exactly when the account is resolved, the
    lookup reports the market active, and the amount is a positive whole
    number within the remaining daily allowance and within the hourly
    ceiling once added to the hour's spend.
    ACCOUNT_NOT_CONNECTED means no account, whatever the rest;
    INVALID_MARKET an account but no market; MARKET_NOT_ACTIVE a market
    that is closed or paused; INVALID_AMOUNT an active market and an amount
    that is fractional or not positive; LIMIT_EXCEEDED a valid amount
    beyond the daily allowance or the hourly ceiling.  Every intent other
    than [place_bet] is Ok. *)
Theorem validateAgentOutput_error_order (userId marketId : string)
    (outcome : Outcome) (action : option TradeAction) (amountCents : Q)
    (rawText : option string) (context : ValidationContext) :
  let result :=
    validateAgentOutput
      (place_bet userId marketId outcome action amountCents rawText)
      context in
  let account := ctx_polymarketAccountId context in
  let market := marketLookup context marketId in
  (result = ValidationOk <->
     is_Some account /\ (exists id, market = Some (id, active)) /\
     isInteger amountCents = true /\ (0 < amountCents)%Q /\
     (amountCents <= remainingDailyLimitCents context)%Q /\
     (spentThisHourCents context + amountCents <= HOURLY_LIMIT_CENTS)%Q) /\
  (result = ValidationErr ACCOUNT_NOT_CONNECTED <-> account = None) /\
  (result = ValidationErr INVALID_MARKET <->
     is_Some account /\ market = None) /\
  (result = ValidationErr MARKET_NOT_ACTIVE <->
     is_Some account /\
     exists id status, market = Some (id, status) /\ status <> active) /\
  (result = ValidationErr INVALID_AMOUNT <->
     is_Some account /\ (exists id, market = Some (id, active)) /\
     (isInteger amountCents = false \/ (amountCents <= 0)%Q)) /\
  (result = ValidationErr LIMIT_EXCEEDED <->
     is_Some account /\ (exists id, market = Some (id, active)) /\
     isInteger amountCents = true /\ (0 < amountCents)%Q /\
     ((remainingDailyLimitCents context < amountCents)%Q \/
      (HOURLY_LIMIT_CENTS < spentThisHourCents context + amountCents)%Q)) /\
  (forall intent,
     (forall u m o a c r, intent <> place_bet u m o a c r) ->
     validateAgentOutput intent context = ValidationOk).
Proof.
  cbv zeta.
  split; [apply validate_ok_spec|].
  split; [|split; [|split; [|split; [|split]]]].
  6: { intros intent Hn. destruct intent; try reflexivity.
       exfalso. eapply Hn. reflexivity. }
  all: unfold validateAgentOutput.
  all: destruct (ctx_polymarketAccountId context) as [account|];
    destruct (marketLookup context marketId) as [[id status]|];
    try destruct status;
    destruct (isInteger amountCents) eqn:Hint;
    destruct (Qle_bool amountCents 0) eqn:H0;
    destruct (Qle_bool amountCents (remainingDailyLimitCents context)) eqn:H1;
    destruct (Qle_bool (spentThisHourCents context + amountCents)
                HOURLY_LIMIT_CENTS) eqn:H2;
    simpl; qbool.
  all: split;
    [ intros Heq; first
        [ discriminate Heq
        | repeat split; eauto; try lra;
          first [ left; first [reflexivity | lra] | right; lra
                | eexists _, _; split; [reflexivity | discriminate] ] ]
    | intros Hr; first
        [ reflexivity
        | exfalso;
          repeat match goal with
          | H : _ /\ _ |- _ => destruct H
          | H : exists _, _ |- _ => destruct H
          | H : _ \/ _ |- _ => destruct H
          | H : is_Some None |- _ => destruct H
          end;
          simplify_eq; first [ lra | congruence ] ] ].
Qed.


Lemma marketStatusIndex_fold (markets : list Market)
    (acc : gmap string (string * MarketStatus)) (id : string) :
  fold_left
    (fun index market =>
       <[market_id market := (market_id market, market_status market)]> index)
    markets acc !! id =
  match
    last (List.filter (fun m => String.eqb (market_id m) id) markets)
  with
  | Some m => Some (market_id m, market_status m)
  | None => acc !! id
  end.
Proof.
  revert acc. induction markets as [|m ms IH]; intros acc; simpl;
    [reflexivity|].
  rewrite IH.
  destruct (String.eqb_spec (market_id m) id) as [E|E].
  - destruct (List.filter _ ms) as [|m' rest] eqn:Hf; simpl.
    + now rewrite E, lookup_insert_eq.
    + rewrite last_cons. now destruct (last rest).
  - destruct (last (List.filter _ ms)); [reflexivity|].
    now apply lookup_insert_ne.
Qed.

(** X5: the market status index answers with the last market of the
    search result that carries the id: a later entry overrides an earlier
    one with the same id, an id no market carries is not found, and a
    failed search gives an empty index. *)
Theorem buildMarketStatusIndex_lookup (markets : list Market) (id : string) :
  (forall before m after,
     markets = (before ++ m :: after)%list ->
     Forall (fun m' => market_id m' <> market_id m) after ->
     buildMarketStatusIndex (Some markets) !! market_id m
       = Some (market_id m, market_status m)) /\
  (buildMarketStatusIndex (Some markets) !! id = None <->
     Forall (fun m => market_id m <> id) markets) /\
  (forall i status,
     buildMarketStatusIndex (Some markets) !! id = Some (i, status) ->
     i = id /\
     exists m, In m markets /\ market_id m = id /\ market_status m = status) /\
  buildMarketStatusIndex None !! id = None.
Proof.
  unfold buildMarketStatusIndex.
  split; [|split; [|split]].
  - intros before m after -> Hafter.
    rewrite marketStatusIndex_fold, List.filter_app. simpl.
    rewrite String.eqb_refl.
    replace (List.filter _ after) with (@nil Market).
    2: { symmetry. induction Hafter as [|m' l Hm' _ IH]; simpl; [reflexivity|].
         destruct (String.eqb_spec (market_id m') (market_id m));
           [contradiction | exact IH]. }
    now rewrite last_snoc.
  - rewrite marketStatusIndex_fold, lookup_empty.
    induction markets as [|m ms IH]; simpl.
    + split; [constructor | reflexivity].
    + destruct (String.eqb_spec (market_id m) id) as [E|E].
      * split.
        -- destruct (List.filter _ ms) as [|m' rest]; simpl; [discriminate|].
           rewrite last_cons. destruct (last rest); discriminate.
        -- intros H. inversion H; subst. contradiction.
      * rewrite IH. split; [now constructor | intros H; now inversion H].
  - intros i status. rewrite marketStatusIndex_fold, lookup_empty.
    destruct (last (List.filter _ markets)) as [m|] eqn:Hl; [|discriminate].
    intros [= <- <-].
    apply last_Some in Hl. destruct Hl as [l' Hl].
    assert (In m (List.filter (fun m0 => String.eqb (market_id m0) id)
                    markets)) as Hin.
    { rewrite Hl. apply in_or_app. right. now left. }
    apply List.filter_In in Hin. destruct Hin as [Hin Hid].
    apply String.eqb_eq in Hid. eauto.
  - apply lookup_empty.
Qed.

(** X6: with the context that [buildValidationContext] builds, a
    [place_bet] is Ok exactly when the user is linked or a leader wallet is
    configured, the market index reports the market active, and the amount
    is a whole number of cents with 0 < amount <= 500; the account used is
    the linked one when there is one, the leader wallet otherwise, and
    ACCOUNT_NOT_CONNECTED is answered exactly when there is neither. *)
Theorem validateAgentOutput_in_built_context (cfg : Config)
    (linkedAccount : option string) (searchResult : option (list Market))
    (userId marketId : string) (outcome : Outcome)
    (action : option TradeAction) (amountCents : Q)
    (rawText : option string) :
  let context := buildValidationContext cfg linkedAccount searchResult in
  let intent :=
    place_bet userId marketId outcome action amountCents rawText in
  (validateAgentOutput intent context = ValidationOk <->
     (is_Some linkedAccount \/ is_Some (env_POLYMARKET_PROXY_WALLET cfg)) /\
     (exists id,
        buildMarketStatusIndex searchResult !! marketId = Some (id, active)) /\
     isInteger amountCents = true /\
     (0 < amountCents)%Q /\ (amountCents <= 500 # 1)%Q) /\
  (validateAgentOutput intent context = ValidationErr ACCOUNT_NOT_CONNECTED
   <-> linkedAccount = None /\ env_POLYMARKET_PROXY_WALLET cfg = None) /\
  (forall account, linkedAccount = Some account ->
     ctx_polymarketAccountId context = Some account) /\
  (linkedAccount = None ->
     ctx_polymarketAccountId context = env_POLYMARKET_PROXY_WALLET cfg).
Proof.
  cbv zeta. split; [|split; [|split]].
  - rewrite validate_ok_spec. unfold buildValidationContext. simpl.
    unfold DAILY_LIMIT_CENTS_STUB, SPENT_THIS_HOUR_CENTS_STUB,
      HOURLY_LIMIT_CENTS.
    destruct linkedAccount as [a|];
      destruct (env_POLYMARKET_PROXY_WALLET cfg) as [w|];
      (split;
       [ intros (Ha & Hm & Hi & H0 & H1 & H2);
         repeat split; eauto; try lra; destruct Ha; discriminate
       | intros ([Ha | Ha] & Hm & Hi & H0 & H1);
         repeat split; eauto; try lra; destruct Ha; discriminate ]).
  - unfold validateAgentOutput, buildValidationContext. simpl.
    destruct linkedAccount as [a|];
      destruct (env_POLYMARKET_PROXY_WALLET cfg) as [w|]; simpl.
    4: { split; [intros _; split; reflexivity | reflexivity]. }
    all: split; [|intros [? ?]; discriminate].
    all: repeat case_match; discriminate.
  - intros account ->. reflexivity.
  - intros ->. reflexivity.
Qed.

(** ** buildTradeRequest.ts: keys of different trades *)

Lemma colonFree_split (a b x y : string) :
  colonFree a = true -> colonFree b = true ->
  a ++ String ":" x = b ++ String ":" y -> a = b /\ x = y.
Proof.
  revert b. induction a as [|c a IH]; intros [|c' b] Ha Hb H; simpl in *.
  - injection H as H. now split.
  - injection H as Hc H. subst c'. simpl in Hb. discriminate.
  - injection H as Hc H. subst c. simpl in Ha. discriminate.
  - injection H as Hc H. subst c'.
    apply andb_true_iff in Ha, Hb.
    destruct (IH b (proj2 Ha) (proj2 Hb) H) as [-> ->]. now split.
Qed.

Lemma colonFree_uint (d : Decimal.uint) :
  colonFree (NilEmpty.string_of_uint d) = true.
Proof. induction d; simpl; auto. Qed.

Lemma colonFree_intToString (z : Z) : colonFree (intToString z) = true.
Proof.
  unfold intToString, NilZero.string_of_int, NilZero.string_of_uint.
  destruct (Z.to_int z) as [d|d]; destruct d; simpl; auto using colonFree_uint.
Qed.

Lemma integer_rendering_inj (a b : Q) :
  isInteger a = true -> isInteger b = true ->
  numberToString a = numberToString b -> (a == b)%Q.
Proof.
  unfold numberToString, isInteger. intros Ha Hb H. rewrite Ha, Hb in H.
  apply intToString_inj in H.
  apply Pos.eqb_eq in Ha, Hb.
  apply Qred_eq_iff.
  destruct (Qred a) as [na da], (Qred b) as [nb db]. simpl in *.
  congruence.
Qed.

(** X7: requests of different trades get different idempotency keys.
    When the user, account and market ids hold no ":" and the amounts are
    whole numbers, two built requests have the same key only if they agree
    on the user, the account, the market, the outcome, the amount and the
    5-minute bucket. *)
Theorem idempotency_key_injective (intent1 intent2 : AgentOutput)
    (context1 context2 : BuildTradeRequestContext)
    (request1 request2 : TradeRequest) :
  buildTradeRequest intent1 context1 = Some request1 ->
  buildTradeRequest intent2 context2 = Some request2 ->
  colonFree (discordUserId (req_identity request1)) = true ->
  colonFree (polymarketAccountId (req_identity request1)) = true ->
  colonFree (market_id (req_market request1)) = true ->
  colonFree (discordUserId (req_identity request2)) = true ->
  colonFree (polymarketAccountId (req_identity request2)) = true ->
  colonFree (market_id (req_market request2)) = true ->
  isInteger (req_amountCents request1) = true ->
  isInteger (req_amountCents request2) = true ->
  req_idempotencyKey request1 = req_idempotencyKey request2 ->
  req_identity request1 = req_identity request2 /\
  market_id (req_market request1) = market_id (req_market request2) /\
  req_outcome request1 = req_outcome request2 /\
  (req_amountCents request1 == req_amountCents request2)%Q /\
  req_requestedAtMs request1 / 300000 = req_requestedAtMs request2 / 300000.
Proof.
  unfold buildTradeRequest.
  destruct intent1 as [u1 m1 o1 a1 c1 r1| | |]; try discriminate.
  destruct intent2 as [u2 m2 o2 a2 c2 r2| | |]; try discriminate.
  intros [= <-] [= <-]. simpl.
  unfold createDeterministicIdempotencyKey, IDEMPOTENCY_WINDOW_MS. simpl.
  change (5 * 60 * 1000) with 300000.
  destruct context1 as [[du1 pa1] mk1 now1], context2 as [[du2 pa2] mk2 now2].
  simpl. intros Hu1 Hp1 Hm1 Hu2 Hp2 Hm2 Hi1 Hi2 H.
  apply colonFree_split in H; [|assumption..]. destruct H as [-> H].
  apply colonFree_split in H; [|assumption..]. destruct H as [-> H].
  apply colonFree_split in H; [|assumption..]. destruct H as [Hm H].
  apply colonFree_split in H; [|now destruct o1|now destruct o2].
  destruct H as [Ho H].
  assert (colonFree (numberToString c1) = true) as Hc1.
  { unfold numberToString. rewrite Hi1. apply colonFree_intToString. }
  assert (colonFree (numberToString c2) = true) as Hc2.
  { unfold numberToString. rewrite Hi2. apply colonFree_intToString. }
  apply colonFree_split in H; [|assumption..]. destruct H as [Hc H].
  apply intToString_inj in H.
  repeat split; try assumption.
  - destruct o1, o2; simpl in Ho; congruence.
  - now apply integer_rendering_inj.
Qed.

Lemma idempotency_key_injective_witness :
  let context nowMs :=
    {| bctx_identity := {| discordUserId := "alice";
                           polymarketAccountId := "0xleader" |};
       bctx_market := exampleMarket; bctx_nowMs := nowMs |} in
  exists request1 request2,
    buildTradeRequest (place_bet "alice" "m1" YES (Some BUY) (500 # 1) None)
      (context 1000) = Some request1 /\
    buildTradeRequest (place_bet "alice" "m1" NO None (500 # 1) None)
      (context 2000) = Some request2 /\
    req_idempotencyKey request1 <> req_idempotencyKey request2.
Proof.
  cbv zeta. eexists _, _.
  split; [reflexivity | split; [reflexivity|]].
  intros Hkey.
  destruct (idempotency_key_injective
              (place_bet "alice" "m1" YES (Some BUY) (500 # 1) None)
              (place_bet "alice" "m1" NO None (500 # 1) None)
              {| bctx_identity := {| discordUserId := "alice";
                                     polymarketAccountId := "0xleader" |};
                 bctx_market := exampleMarket; bctx_nowMs := 1000 |}
              {| bctx_identity := {| discordUserId := "alice";
                                     polymarketAccountId := "0xleader" |};
                 bctx_market := exampleMarket; bctx_nowMs := 2000 |}
              _ _ eq_refl eq_refl
              eq_refl eq_refl eq_refl eq_refl eq_refl eq_refl eq_refl eq_refl
              Hkey) as (_ & _ & Ho & _).
  discriminate Ho.
Defined.


(** ** intentParser.ts: what gets past the parser *)

Lemma isAgentOutput_inv (value : JsonValue) :
  isAgentOutput value = true ->
  exists fields intent user,
    value = JObject fields /\
    property "intent" fields = Some (JString intent) /\
    In intent SUPPORTED_INTENTS /\
    property "userId" fields = Some (JString user) /\
    hasOnlyKeys fields (allowedKeys intent) = true.
Proof.
  destruct value as [| | | | |fields]; try discriminate.
  unfold isAgentOutput, intentIs, isStringIn, isJsonString.
  destruct (property "intent" fields) as [[| | |intent| |]|] eqn:Ei;
    try (simpl; discriminate).
  destruct (property "userId" fields) as [[| | |user| |]|] eqn:Eu;
    try (simpl; repeat case_match; discriminate).
  intros H. exists fields, intent, user.
  split; [reflexivity | split; [exact Ei|]].
  assert (forall P Q : Prop, P -> Q -> P /\ property "userId" fields
            = Some (JString user) /\ Q) as Hpack by (intros; tauto).
  unfold SUPPORTED_INTENTS, allowedKeys in *. simpl in H |- *.
  rewrite !orb_false_r in H.
  destruct (String.eqb_spec intent "place_bet") as [->|_];
    [simpl in H; repeat case_match; try discriminate; apply Hpack; tauto|].
  destruct (String.eqb_spec intent "get_balance") as [->|_];
    [simpl in H; repeat case_match; try discriminate; apply Hpack; tauto|].
  destruct (String.eqb_spec intent "get_trade_history") as [->|_];
    [simpl in H; repeat case_match; try discriminate; apply Hpack; tauto|].
  destruct (String.eqb_spec intent "query_market") as [->|_];
    [simpl in H; repeat case_match; try discriminate; apply Hpack; tauto|].
  simpl in H. discriminate.
Qed.


Lemma isAgentOutput_place_bet (fields : list (string * JsonValue)) :
  isAgentOutput (JObject fields) = true ->
  intentIs "place_bet" fields = true ->
  exists m o c,
    property "marketId" fields = Some (JString m) /\
    property "outcome" fields = Some (JString o) /\
    (o = "YES" \/ o = "NO") /\
    property "amountCents" fields = Some (JNumber (Some c)) /\
    (property "action" fields = None \/
     property "action" fields = Some (JString "BUY") \/
     property "action" fields = Some (JString "SELL")).
Proof.
  unfold isAgentOutput. intros H Hpb. rewrite Hpb in H.
  destruct (negb (isStringIn SUPPORTED_INTENTS _)); [discriminate|].
  destruct (negb (isJsonString _)); [discriminate|].
  destruct (negb (hasValidRawText fields)); [discriminate|].
  unfold isJsonString, isStringIn, isFiniteNumber, isUndefined in H.
  destruct (property "marketId" fields) as [[| | |m| |]|];
    try (simpl in H; discriminate).
  destruct (property "outcome" fields) as [[| | |o| |]|];
    try (simpl in H; discriminate).
  destruct (property "amountCents" fields) as [[| |[c|]| | |]|];
    try (simpl in H; rewrite ?orb_true_r in H; discriminate).
  simpl in H. rewrite !orb_false_r in H.
  destruct (String.eqb_spec o "YES") as [->|_];
    [|destruct (String.eqb_spec o "NO") as [->|_]; [|discriminate]].
  all: eexists _, _, _;
    split; [reflexivity | split; [reflexivity | split; [eauto|]]];
    split; [reflexivity|].
  all: destruct (property "action" fields) as [[| | |a| |]|];
    simpl in H; try discriminate; eauto.
  all: rewrite orb_false_r in H.
  all: match goal with a : string |- _ \/ _ =>
         destruct (String.eqb_spec a "BUY") as [E|_];
           [subst; eauto|];
         destruct (String.eqb_spec a "SELL") as [E|_];
           [subst; eauto | discriminate]
       end.
Qed.

Local Transparent parseIntent.

(** X8: the intent parser fails closed.  It returns an intent only for a
    non-blank message, with a key configured, from a reply that is a JSON
    object with a supported intent, no key outside that intent's list, and
    the requester's own user id; the returned intent carries that user id,
    and a returned [place_bet] carries the reply's market id, outcome and
    (finite) amount and an explicit action.  A blank message, a missing
    key, no reply, or a reply that fails the shape check gives null. *)
Theorem parseIntent_fails_closed (d : Deps) (message user : string) :
  (forall output,
     parseIntent d message user = Some output ->
     trim message <> "" /\
     hasGeminiKeys d = true /\
     agentUserId output = user /\
     exists fields intent,
       callGemini d message user = Some (JObject fields) /\
       property "intent" fields = Some (JString intent) /\
       In intent SUPPORTED_INTENTS /\
       property "userId" fields = Some (JString user) /\
       hasOnlyKeys fields (allowedKeys intent) = true /\
       match output with
       | place_bet _ marketId outcome action amountCents _ =>
           is_Some action /\
           property "marketId" fields = Some (JString marketId) /\
           property "outcome" fields
             = Some (JString (outcomeToString outcome)) /\
           property "amountCents" fields = Some (JNumber (Some amountCents))
       | _ => True
       end) /\
  (trim message = "" -> parseIntent d message user = None) /\
  (hasGeminiKeys d = false -> parseIntent d message user = None) /\
  (callGemini d message user = None -> parseIntent d message user = None) /\
  (forall reply,
     callGemini d message user = Some reply ->
     isAgentOutput reply = false ->
     parseIntent d message user = None).
Proof.
  unfold parseIntent, parseIntentWith.
  split; [|split; [|split; [|split]]].
  - intros output.
    destruct (Nat.eqb (String.length (trim message)) 0) eqn:El;
      [discriminate|].
    destruct (hasGeminiKeys d); [|discriminate]. simpl.
    destruct (callGemini d message user) as [reply|]; [|discriminate].
    destruct (isAgentOutput reply) eqn:Hshape.
    2: { destruct reply; discriminate. }
    destruct (isAgentOutput_inv reply Hshape)
      as (fields & intent & u & -> & Hi & Hsup & Hu & Hkeys).
    simpl. unfold stringOf at 1. rewrite Hu.
    destruct (String.eqb_spec u user) as [->|]; [|discriminate].
    simpl. intros [= <-].
    split; [intros E; now rewrite E in El|].
    split; [reflexivity|].
    assert (Hcases : intentIs "place_bet" fields = true \/
                     intentIs "place_bet" fields = false)
      by (destruct (intentIs "place_bet" fields); auto).
    unfold toBrandedAgentOutput.
    destruct Hcases as [Hpb|Hpb]; rewrite Hpb.
    + destruct (isAgentOutput_place_bet fields Hshape Hpb)
        as (m & o & c & Hm & Ho & Hyn & Hc & Ha).
      destruct Hyn as [-> | ->];
        simpl; unfold stringOf, isStringIn; rewrite ?Hu, ?Hm, ?Ho, ?Hc; simpl;
        (split; [reflexivity|]);
        exists fields, intent; rewrite ?Hu, ?Hm, ?Ho, ?Hc;
        repeat split; eauto.
    + repeat case_match; simpl; unfold stringOf; rewrite Hu;
        (split; [reflexivity|]); exists fields, intent; repeat split; eauto.
  - intros ->. reflexivity.
  - intros ->. now destruct (Nat.eqb _ _).
  - intros ->. destruct (Nat.eqb _ _); [reflexivity|].
    now destruct (hasGeminiKeys d).
  - intros reply -> Hbad. rewrite Hbad.
    destruct (Nat.eqb _ _); [reflexivity|].
    destruct (hasGeminiKeys d); [|reflexivity]. simpl.
    now destruct reply.
Qed.

Local Opaque parseIntent.

(** ** DiscordMessageRouter.ts: the life of a pending trade *)

(** X9: the sweep removes exactly the expired entries.  An entry is in
    the map after [sweepPendingTrades] at clock reading [now] exactly when
    it was there before and [now] is not past its expiry; the sweep touches
    neither ledger nor trader, and sweeping twice at the same reading
    changes nothing more. *)
Theorem sweepPendingTrades_removes_expired (now : Z) (st : Router) :
  (forall confirmId pending,
     pendingTrades (sweepPendingTrades now st) !! confirmId = Some pending <->
     pendingTrades st !! confirmId = Some pending /\
     now <= expiresAtMs pending) /\
  spendLedger (sweepPendingTrades now st) = spendLedger st /\
  events (sweepPendingTrades now st) = events st /\
  sweepPendingTrades now (sweepPendingTrades now st) =
    sweepPendingTrades now st.
Proof.
  assert (forall s confirmId pending,
    pendingTrades (sweepPendingTrades now s) !! confirmId = Some pending <->
    pendingTrades s !! confirmId = Some pending /\
    now <= expiresAtMs pending) as Hlookup.
  { intros s confirmId pending. unfold sweepPendingTrades. simpl.
    rewrite map_lookup_filter_Some. simpl. intuition lia. }
  split; [apply Hlookup | split; [reflexivity | split; [reflexivity|]]].
  assert (pendingTrades (sweepPendingTrades now (sweepPendingTrades now st))
          = pendingTrades (sweepPendingTrades now st)) as Hsame.
  { apply map_eq. intros confirmId. apply option_eq. intros pending.
    rewrite (Hlookup (sweepPendingTrades now st)), (Hlookup st). tauto. }
  revert Hsame. generalize (sweepPendingTrades now st). intros s Hsame.
  destruct s as [ledger pend evs]. unfold sweepPendingTrades, withPending in *.
  simpl in *. now rewrite Hsame.
Qed.

Lemma step_leavesPending cfg op st confirmId pending :
  pendingTrades st !! confirmId = Some pending ->
  leavesPending confirmId (expiresAtMs pending) op ->
  pendingTrades (step cfg op st) !! confirmId = Some pending.
Proof.
  intros Hp.
  destruct op as [d message user | d cid | cid | now]; simpl; intros Hop.
  - destruct (routeMessage_pending cfg d message user st) as [-> | [ex ->]];
      [exact Hp|].
    now rewrite lookup_insert_ne.
  - rewrite executePendingTrade_pending. now rewrite lookup_delete_ne.
  - rewrite cancelPendingTrade_pending. now rewrite lookup_delete_ne.
  - apply map_lookup_filter_Some. split; [exact Hp | simpl; lia].
Qed.

Lemma run_leavesPending cfg ops st confirmId pending :
  pendingTrades st !! confirmId = Some pending ->
  Forall (leavesPending confirmId (expiresAtMs pending)) ops ->
  pendingTrades (run cfg ops st) !! confirmId = Some pending.
Proof.
  intros Hp Hops. revert st Hp.
  induction Hops as [|op ops Hop _ IH]; intros st Hp; simpl; [exact Hp|].
  apply IH. now apply step_leavesPending.
Qed.

(** X10: a stored trade that nobody claims survives until its expiry and
    then executes exactly once.  After [storePendingTrade], and any
    operations that neither claim nor replace the id nor sweep after the
    expiry, an [executePendingTrade] at a clock reading up to creation +
    5 minutes runs the stored continuation: it answers the formatted result
    of the trader's answer to the stored request, logs that one trader
    call, and leaves no entry under the id, so a second call answers
    null. *)
Theorem pending_trade_executes_once_before_expiry (cfg : Config)
    (d0 : Deps) (ex : Executor) (st0 : Router) (ops : list Op) (d : Deps) :
  let confirmId := fst (storePendingTrade d0 ex st0) in
  let expiry := dateNow d0 + PENDING_TTL_MS in
  let st2 := run cfg ops (snd (storePendingTrade d0 ex st0)) in
  let result := executePendingTrade d confirmId st2 in
  Forall (leavesPending confirmId expiry) ops ->
  dateNow d <= expiry ->
  fst result =
    Some (formatTradeResultMessage (placeTrade d (ex_tradeRequest ex))
            (ex_marketQuestion ex) (ex_outcome ex) (ex_action ex)
            (ex_amountCentsNum ex)) /\
  filter (fun e => isGatewayEvent e = true) (events (snd result)) =
    PlaceTradeCalled (ex_tradeRequest ex)
      :: filter (fun e => isGatewayEvent e = true) (events st2) /\
  (forall d', executePendingTrade d' confirmId (snd result)
              = (None, snd result)).
Proof.
  cbv zeta. change (fst (storePendingTrade d0 ex st0)) with (randomUUID d0).
  intros Hops Hearly.
  set (pending := {| execute := ex;
                     expiresAtMs := dateNow d0 + PENDING_TTL_MS |}).
  assert (pendingTrades (snd (storePendingTrade d0 ex st0)) !! randomUUID d0
          = Some pending) as Hst1.
  { simpl. apply lookup_insert_eq. }
  revert Hops Hst1. generalize (snd (storePendingTrade d0 ex st0)).
  intros st1 Hops Hst1.
  pose proof (run_leavesPending cfg ops st1 (randomUUID d0) pending Hst1 Hops)
    as Hst2.
  split; [|split].
  - unfold executePendingTrade. rewrite Hst2. simpl.
    replace (Z.ltb _ _) with false by (symmetry; apply Z.ltb_ge; lia).
    reflexivity.
  - unfold executePendingTrade. rewrite Hst2. simpl.
    replace (Z.ltb _ _) with false by (symmetry; apply Z.ltb_ge; lia).
    simpl. destruct (_ && _); reflexivity.
  - intros d'. apply absent_not_claimable.
    rewrite executePendingTrade_pending. apply lookup_delete_eq.
Qed.

Lemma pending_trade_executes_once_before_expiry_witness :
  let d0 := exampleDeps 1000 "confirm-1" None in
  let d := exampleDeps 301000 "" None in
  let ops := [OpSweep 301000; OpCancel "confirm-2"] in
  let st2 := run exampleConfig ops
               (snd (storePendingTrade d0 exampleExecutor newRouter)) in
  Forall (leavesPending "confirm-1" 301000) ops /\
  dateNow d <= 301000 /\
  is_Some (fst (executePendingTrade d "confirm-1" st2)) /\
  fst (executePendingTrade d "confirm-1"
         (snd (executePendingTrade d "confirm-1" st2))) = None.
Proof.
  cbv zeta.
  assert (Forall (leavesPending "confirm-1" 301000)
            [OpSweep 301000; OpCancel "confirm-2"]) as Hops.
  { repeat constructor; simpl; [lia | discriminate]. }
  assert (dateNow (exampleDeps 301000 "" None) <= 301000) as Hearly.
  { simpl. lia. }
  destruct (pending_trade_executes_once_before_expiry exampleConfig
              (exampleDeps 1000 "confirm-1" None) exampleExecutor newRouter
              [OpSweep 301000; OpCancel "confirm-2"]
              (exampleDeps 301000 "" None) Hops Hearly) as (Hr & _ & Hagain).
  split; [exact Hops | split; [exact Hearly | split]].
  - eexists. exact Hr.
  - exact (f_equal fst (Hagain (exampleDeps 301000 "" None))).
Defined.

(** X11: cancelling undoes storing.  When the drawn id is not in use,
    [storePendingTrade] followed by [cancelPendingTrade] on the returned id
    answers [true] and gives back the pending map and the ledger as they
    were; a lookup of the id in between finds the stored continuation with
    expiry creation + 5 minutes. *)
Theorem store_then_cancel_roundtrip (d : Deps) (ex : Executor) (st : Router) :
  pendingTrades st !! randomUUID d = None ->
  let stored := storePendingTrade d ex st in
  let cancelled := cancelPendingTrade (fst stored) (snd stored) in
  pendingTrades (snd stored) !! fst stored
    = Some {| execute := ex; expiresAtMs := dateNow d + 300000 |} /\
  fst cancelled = true /\
  pendingTrades (snd cancelled) = pendingTrades st /\
  spendLedger (snd cancelled) = spendLedger st.
Proof.
  intros Hfresh. cbv zeta. unfold storePendingTrade, cancelPendingTrade.
  simpl. rewrite lookup_insert_eq. simpl.
  split; [reflexivity | split; [reflexivity | split; [|reflexivity]]].
  rewrite delete_insert_eq. now apply delete_id.
Qed.

Lemma store_then_cancel_roundtrip_witness :
  let d := exampleDeps 5000 "confirm-2" None in
  let stored := storePendingTrade d exampleExecutor onePending in
  pendingTrades onePending !! randomUUID d = None /\
  fst (cancelPendingTrade (fst stored) (snd stored)) = true /\
  pendingTrades (snd (cancelPendingTrade (fst stored) (snd stored)))
    = pendingTrades onePending.
Proof.
  cbv zeta.
  assert (pendingTrades onePending
            !! randomUUID (exampleDeps 5000 "confirm-2" None) = None) as Hf.
  { vm_compute. reflexivity. }
  destruct (store_then_cancel_roundtrip (exampleDeps 5000 "confirm-2" None)
              exampleExecutor onePending Hf) as (_ & Hc & Hp & _).
  split; [exact Hf | split; [exact Hc | exact Hp]].
Defined.

(** ** DiscordMessageRouter.ts: routing a message moves no money *)

Lemma getSpentToday_read_twice nowMs u l :
  snd (getSpentToday nowMs u (snd (getSpentToday nowMs u l))) =
  snd (getSpentToday nowMs u l).
Proof.
  unfold getSpentToday, memGetSpent.
  destruct (l !! u) as [um|] eqn:E; simpl.
  - rewrite lookup_insert_eq. simpl.
    now rewrite evictStaleEntries_idemp, insert_insert_eq.
  - now rewrite E.
Qed.

Lemma readsLedger_same_reading nowMs u u' l l' :
  readsLedger nowMs u l l' ->
  fst (getSpentToday nowMs u' l') = fst (getSpentToday nowMs u' l).
Proof.
  intros [-> | ->]; [reflexivity|].
  unfold getSpentToday. rewrite !memGetSpent_value.
  apply memGetSpent_recent. now left.
Qed.

Lemma readsLedger_again nowMs u l l' :
  readsLedger nowMs u l l' ->
  readsLedger nowMs u l (snd (getSpentToday nowMs u l')).
Proof.
  intros [-> | ->]; right; [reflexivity | apply getSpentToday_read_twice].
Qed.

Lemma movesNoMoney_refl nowMs u st : movesNoMoney nowMs u st st.
Proof. split; [now left | reflexivity]. Qed.

Local Transparent dailyLimitGuard validateBuildAndStore.

Lemma dailyLimitGuard_movesNoMoney cfg d user action amt st :
  movesNoMoney (dateNow d) user st
    (snd (dailyLimitGuard cfg d user action amt st)).
Proof.
  unfold dailyLimitGuard, canSpend, getRemainingToday.
  destruct (isBUY action && negb (isOwnerExempt cfg user));
    [|apply movesNoMoney_refl].
  destruct (getSpentToday (dateNow d) user (spendLedger st))
    as [spent l1] eqn:E1.
  assert (l1 = snd (getSpentToday (dateNow d) user (spendLedger st))) as Hl1
    by now rewrite E1.
  destruct (Qle_bool (spent + amt) DAILY_LIMIT_CENTS); simpl.
  - split; [right; exact Hl1 | reflexivity].
  - destruct (getSpentToday (dateNow d) user l1) as [spent2 l2] eqn:E2.
    simpl. split; [|reflexivity]. right.
    assert (l2 = snd (getSpentToday (dateNow d) user l1)) as ->
      by now rewrite E2.
    rewrite Hl1. apply getSpentToday_read_twice.
Qed.

Lemma validateBuildAndStore_movesNoMoney d user intent mid chosen o a amt st :
  spendLedger (snd (validateBuildAndStore d user intent mid chosen o a amt st))
    = spendLedger st /\
  executionEvents
    (snd (validateBuildAndStore d user intent mid chosen o a amt st))
    = executionEvents st.
Proof.
  unfold validateBuildAndStore, storePendingTrade, executionEvents.
  split_cases; split; reflexivity.
Qed.

Local Opaque dailyLimitGuard validateBuildAndStore.

Ltac money_facts :=
  repeat match goal with
  | H : dailyLimitGuard ?c ?d ?u ?a ?m ?s = (_, _) |- _ =>
      let E := fresh "Eg" in
      pose proof (dailyLimitGuard_movesNoMoney c d u a m s) as E;
      rewrite H in E; simpl in E; clear H
  | H : validateBuildAndStore ?d ?u ?i ?mid ?ch ?o ?a ?m ?s = (_, _) |- _ =>
      let E := fresh "Ev" in
      pose proof (validateBuildAndStore_movesNoMoney d u i mid ch o a m s)
        as E;
      rewrite H in E; simpl in E; destruct E; clear H
  end.

Ltac money_done :=
  money_facts; simpl;
  first
    [ apply movesNoMoney_refl
    | assumption
    | match goal with
      | Eg : movesNoMoney _ _ ?s ?s1, El : spendLedger ?s2 = spendLedger ?s1,
        Ee : executionEvents ?s2 = executionEvents ?s1
        |- movesNoMoney _ _ ?s ?s2 =>
          destruct Eg as [Egl Ege]; split;
          [rewrite El; exact Egl | rewrite Ee; exact Ege]
      | El : spendLedger ?s2 = spendLedger ?s,
        Ee : executionEvents ?s2 = executionEvents ?s
        |- movesNoMoney _ _ ?s ?s2 =>
          split; [rewrite El; now left | exact Ee]
      | Eg : movesNoMoney _ _ ?s ?s1
        |- movesNoMoney _ _ ?s
             (snd (validateBuildAndStore ?d ?u ?i ?mid ?ch ?o ?a ?m ?s1)) =>
          destruct (validateBuildAndStore_movesNoMoney d u i mid ch o a m s1)
            as [El Ee];
          destruct Eg as [Egl Ege]; split;
          [rewrite El; exact Egl | rewrite Ee; exact Ege]
      end ].

Lemma tryDeterministicWriteFallback_movesNoMoney cfg d message user st :
  movesNoMoney (dateNow d) user st
    (snd (tryDeterministicWriteFallback cfg d message user st)).
Proof.
  unfold tryDeterministicWriteFallback.
  split_cases; money_done.
Qed.

Lemma handleWrite_movesNoMoney cfg d message user st :
  movesNoMoney (dateNow d) user st (snd (handleWrite cfg d message user st)).
Proof.
  unfold handleWrite.
  pose proof (tryDeterministicWriteFallback_movesNoMoney cfg d message user st).
  destruct (tryDeterministicWriteFallback cfg d message user st) as [[r|] st1];
    split_cases; try money_done.
  all: unfold getRemainingToday in *; split_cases.
  all: split; [|reflexivity]; simpl; right.
  all: repeat match goal with
       | H : getSpentToday ?n ?u ?l = (_, ?l') |- _ =>
           assert (l' = snd (getSpentToday n u l)) as -> by (now rewrite H);
           clear H
       end.
  all: now rewrite getSpentToday_read_twice.
Qed.

Lemma routeMessage_moves_nothing cfg d message user st :
  movesNoMoney (dateNow d) user st (snd (routeMessage cfg d message user st)).
Proof.
  unfold routeMessage.
  split_cases;
    first [apply handleWrite_movesNoMoney | apply movesNoMoney_refl].
Qed.

(** X12: routing a message moves no money.  Whatever the message, the
    parser's reply and the collaborators' answers, [routeMessage] never
    calls the trader and never records a spend; all it may do to the ledger
    is the eviction of the sender's stale day buckets that reading the
    counter performs, so every user's counter for the day of the call reads
    as before. *)
Theorem routeMessage_moves_no_money (cfg : Config) (d : Deps)
    (message user : string) (st : Router) :
  let st' := snd (routeMessage cfg d message user st) in
  executionEvents st' = executionEvents st /\
  (spendLedger st' = spendLedger st \/
   spendLedger st' = snd (getSpentToday (dateNow d) user (spendLedger st))) /\
  (forall u, fst (getSpentToday (dateNow d) u (spendLedger st'))
             = fst (getSpentToday (dateNow d) u (spendLedger st))).
Proof.
  cbv zeta.
  destruct (routeMessage_moves_nothing cfg d message user st) as [Hl He].
  split; [exact He | split; [exact Hl|]].
  intros u. now apply (readsLedger_same_reading _ user).
Qed.

(** ** DiscordMessageRouter.ts: the daily-limit refusal *)

Local Transparent dailyLimitGuard validateBuildAndStore.

(** The guard's answer in closed form. *)
Lemma dailyLimitGuard_answer cfg d user action amt st :
  fst (dailyLimitGuard cfg d user action amt st) =
  if isBUY action && negb (isOwnerExempt cfg user)
     && negb (Qle_bool
                (fst (getSpentToday (dateNow d) user (spendLedger st)) + amt)
                DAILY_LIMIT_CENTS)
  then Some (DailyLimitReached
               (toFixed2
                  (fst (getRemainingToday (dateNow d) user (spendLedger st))
                   / (100 # 1)))
               "5.00")
  else None.
Proof.
  unfold dailyLimitGuard, canSpend.
  destruct (isBUY action && negb (isOwnerExempt cfg user)); [|reflexivity].
  simpl andb.
  pose proof (readsLedger_same_reading (dateNow d) user user (spendLedger st)
                (snd (getSpentToday (dateNow d) user (spendLedger st)))
                (or_intror eq_refl)) as Hsame.
  unfold getRemainingToday.
  destruct (getSpentToday (dateNow d) user (spendLedger st))
    as [spent l1] eqn:E1.
  simpl in Hsame. simpl.
  destruct (Qle_bool (spent + amt) DAILY_LIMIT_CENTS); simpl; [reflexivity|].
  destruct (getSpentToday (dateNow d) user l1) as [spent2 l2] eqn:E2.
  simpl in Hsame. subst spent2. reflexivity.
Qed.

Lemma dailyLimitGuard_events cfg d user action amt st :
  events (snd (dailyLimitGuard cfg d user action amt st)) =
  if isBUY action && negb (isOwnerExempt cfg user)
  then CanSpendCalled user amt :: events st
  else events st.
Proof.
  unfold dailyLimitGuard, canSpend, getRemainingToday.
  split_cases; reflexivity.
Qed.

Lemma validateBuildAndStore_no_refusal d user intent mid chosen o a amt st
    remaining limit :
  fst (validateBuildAndStore d user intent mid chosen o a amt st)
    <> RText (DailyLimitReached remaining limit).
Proof.
  unfold validateBuildAndStore, storePendingTrade, somethingWentWrong.
  split_cases; discriminate.
Qed.

Local Opaque dailyLimitGuard validateBuildAndStore.

(** The facts a refusal carries. *)
Lemma dailyLimitGuard_refusal cfg d user action amt st text st1 :
  dailyLimitGuard cfg d user action amt st = (Some text, st1) ->
  isOwnerExempt cfg user = false /\
  action = BUY /\
  (DAILY_LIMIT_CENTS
     < fst (getSpentToday (dateNow d) user (spendLedger st)) + amt)%Q /\
  text = DailyLimitReached
           (toFixed2
              (fst (getRemainingToday (dateNow d) user (spendLedger st))
               / (100 # 1)))
           "5.00" /\
  pendingTrades st1 = pendingTrades st /\
  events st1 = CanSpendCalled user amt :: events st.
Proof.
  intros H.
  pose proof (dailyLimitGuard_answer cfg d user action amt st) as Ha.
  pose proof (dailyLimitGuard_pending cfg d user action amt st) as Hp.
  pose proof (dailyLimitGuard_events cfg d user action amt st) as He.
  rewrite H in Ha, Hp, He. simpl in Ha, Hp, He.
  destruct action; simpl in Ha, He; [|discriminate].
  destruct (isOwnerExempt cfg user); simpl in Ha, He; [discriminate|].
  destruct (Qle_bool _ _) eqn:Hq; simpl in Ha; [discriminate|].
  apply Qle_bool_false in Hq. injection Ha as ->.
  repeat split; [exact Hq | exact Hp | exact He].
Qed.

Ltac refusal_done :=
  simpl; intros Hr; simplify_eq/=;
  first
    [ exfalso; eapply validateBuildAndStore_no_refusal; eassumption
    | match goal with
      | H : validateBuildAndStore ?d ?u ?i ?mid ?ch ?o ?a ?m ?s
            = (RText (DailyLimitReached ?r ?l), _)
        |- _ =>
          exfalso;
          apply (validateBuildAndStore_no_refusal d u i mid ch o a m s r l);
          now rewrite H
      end
    | match goal with
      | H : dailyLimitGuard _ _ _ _ ?amt _ = (Some _, _) |- _ =>
          apply dailyLimitGuard_refusal in H;
          destruct H as (Ho & _ & Hq & Ht & Hp & He);
          injection Ht as <- <-;
          split; [exact Ho|]; exists amt;
          repeat split; [exact Hq | exact Hp | exact He]
      end ].

Lemma tryDeterministicWriteFallback_refusal cfg d message user st
    remaining limit :
  fst (tryDeterministicWriteFallback cfg d message user st)
    = Some (RText (DailyLimitReached remaining limit)) ->
  isOwnerExempt cfg user = false /\
  exists amountCents,
    (DAILY_LIMIT_CENTS
       < fst (getSpentToday (dateNow d) user (spendLedger st))
         + amountCents)%Q /\
    remaining = toFixed2
                  (fst (getRemainingToday (dateNow d) user (spendLedger st))
                   / (100 # 1)) /\
    limit = "5.00" /\
    pendingTrades (snd (tryDeterministicWriteFallback cfg d message user st))
      = pendingTrades st /\
    events (snd (tryDeterministicWriteFallback cfg d message user st))
      = CanSpendCalled user amountCents :: events st.
Proof.
  unfold tryDeterministicWriteFallback.
  split_cases; refusal_done.
Qed.

Lemma handleWrite_refusal cfg d message user st remaining limit :
  fst (handleWrite cfg d message user st)
    = RText (DailyLimitReached remaining limit) ->
  isOwnerExempt cfg user = false /\
  exists amountCents,
    (DAILY_LIMIT_CENTS
       < fst (getSpentToday (dateNow d) user (spendLedger st))
         + amountCents)%Q /\
    remaining = toFixed2
                  (fst (getRemainingToday (dateNow d) user (spendLedger st))
                   / (100 # 1)) /\
    limit = "5.00" /\
    pendingTrades (snd (handleWrite cfg d message user st))
      = pendingTrades st /\
    events (snd (handleWrite cfg d message user st))
      = CanSpendCalled user amountCents :: events st.
Proof.
  unfold handleWrite.
  pose proof (tryDeterministicWriteFallback_refusal cfg d message user st
                remaining limit) as Hf.
  destruct (tryDeterministicWriteFallback cfg d message user st)
    as [[r|] st1].
  all: split_cases; try refusal_done.
  all: simpl; intros Hr; try discriminate Hr.
  all: first [ apply Hf; simpl; now rewrite Hr
             | exfalso; eapply validateBuildAndStore_no_refusal; exact Hr ].
Qed.

(** X13: what a daily-limit refusal means.  Whenever [routeMessage]
    answers with the daily-limit text, on the parsed path or on the
    deterministic fallback, the sender is not the exempt owner, [canSpend]
    has been asked once, for an amount that added to the counter of the
    day exceeds 500 cents, the text shows the remaining allowance
    max(0, 500 - spent) in dollars and the limit as 5.00, and no pending
    trade has been stored. *)
Theorem daily_limit_refusal_is_justified (cfg : Config) (d : Deps)
    (message user : string) (st : Router) (remaining limit : string) :
  fst (routeMessage cfg d message user st)
    = RText (DailyLimitReached remaining limit) ->
  isOwnerExempt cfg user = false /\
  exists amountCents,
    (DAILY_LIMIT_CENTS
       < fst (getSpentToday (dateNow d) user (spendLedger st))
         + amountCents)%Q /\
    remaining = toFixed2
                  (fst (getRemainingToday (dateNow d) user (spendLedger st))
                   / (100 # 1)) /\
    limit = "5.00" /\
    pendingTrades (snd (routeMessage cfg d message user st))
      = pendingTrades st /\
    events (snd (routeMessage cfg d message user st))
      = CanSpendCalled user amountCents :: events st.
Proof.
  unfold routeMessage.
  split_cases; first [apply handleWrite_refusal | discriminate].
Qed.

Lemma daily_limit_refusal_is_justified_witness :
  let d := exampleDeps 1000 "confirm-1" None in
  let st := withLedger spentLedger newRouter in
  fst (routeMessage exampleConfig d "buy $5 of btc up" "alice" st)
    = RText (DailyLimitReached "0.00" "5.00") /\
  isOwnerExempt exampleConfig "alice" = false /\
  pendingTrades (snd (routeMessage exampleConfig d "buy $5 of btc up"
                        "alice" st))
    = pendingTrades st.
Proof.
  cbv zeta.
  assert (fst (routeMessage exampleConfig (exampleDeps 1000 "confirm-1" None)
                 "buy $5 of btc up" "alice" (withLedger spentLedger newRouter))
          = RText (DailyLimitReached "0.00" "5.00")) as Hr.
  { vm_compute. reflexivity. }
  destruct (daily_limit_refusal_is_justified exampleConfig
              (exampleDeps 1000 "confirm-1" None) "buy $5 of btc up" "alice"
              (withLedger spentLedger newRouter) "0.00" "5.00" Hr)
    as (Ho & amt & _ & _ & _ & Hp & _).
  split; [exact Hr | split; [exact Ho | exact Hp]].
Defined.

(** X14: on the parsed path the limit check comes before market
    resolution and validation.  When a message routed to WRITE is parsed
    as a place_bet whose action is BUY or absent, the sender is not the
    exempt owner and the day's counter plus the amount exceeds 500 cents,
    the answer is the daily-limit text, whatever the market id and even
    for an amount that validation would reject, and the pending map is
    unchanged. *)
Theorem limit_check_precedes_validation (cfg : Config) (d : Deps)
    (message user : string) (st : Router)
    (userId marketId : string) (outcome : Outcome)
    (action : option TradeAction) (amountCents : Q)
    (rawText : option string) :
  routedToWrite message = true ->
  parseIntent d message user
    = Some (place_bet userId marketId outcome action amountCents rawText) ->
  action <> Some SELL ->
  isOwnerExempt cfg user = false ->
  (DAILY_LIMIT_CENTS
     < fst (getSpentToday (dateNow d) user (spendLedger st))
       + amountCents)%Q ->
  fst (routeMessage cfg d message user st)
    = RText (DailyLimitReached
               (toFixed2
                  (fst (getRemainingToday (dateNow d) user (spendLedger st))
                   / (100 # 1)))
               "5.00") /\
  pendingTrades (snd (routeMessage cfg d message user st))
    = pendingTrades st.
Proof.
  intros Hw Hparse Hact Howner Hover.
  assert (routeMessage cfg d message user st
          = handleWrite cfg d message user st) as ->.
  { unfold routeMessage, routedToWrite in *.
    destruct (isDeterministicWriteMessage message); [reflexivity|].
    now destruct (classifyMessageIntent message). }
  unfold handleWrite. rewrite Hparse.
  pose proof (dailyLimitGuard_answer cfg d user (default BUY action)
                amountCents st) as Ha.
  pose proof (dailyLimitGuard_pending cfg d user (default BUY action)
                amountCents st) as Hp.
  assert (isBUY (default BUY action) = true) as Hbuy.
  { destruct action as [[|]|]; [reflexivity | congruence | reflexivity]. }
  rewrite Hbuy, Howner in Ha. simpl in Ha.
  apply Qle_bool_false in Hover. rewrite Hover in Ha. simpl in Ha.
  destruct (dailyLimitGuard cfg d user (default BUY action) amountCents st)
    as [[text|] st1]; simpl in *; [|discriminate].
  injection Ha as ->. split; [reflexivity | exact Hp].
Qed.

Lemma limit_check_precedes_validation_witness :
  let d := exampleDeps 1000 "confirm-1"
             (placeBetReply "YES" "BUY" (1 # 2)) in
  let st := withLedger spentLedger newRouter in
  validateAgentOutput
    (place_bet "alice" "m1" YES (Some BUY) (1 # 2) None)
    (deps_buildValidationContext d "alice") = ValidationErr INVALID_AMOUNT /\
  fst (routeMessage exampleConfig d "buy half a cent of yes on m1 for $1"
         "alice" st)
    = RText (DailyLimitReached "0.00" "5.00").
Proof.
  cbv zeta. split; [vm_compute; reflexivity|].
  refine (proj1 (limit_check_precedes_validation exampleConfig
            (exampleDeps 1000 "confirm-1" (placeBetReply "YES" "BUY" (1 # 2)))
            "buy half a cent of yes on m1 for $1" "alice"
            (withLedger spentLedger newRouter)
            "alice" "m1" YES (Some BUY) (1 # 2) None _ _ _ _ _)).
  - vm_compute. reflexivity.
  - vm_compute. reflexivity.
  - discriminate.
  - vm_compute. reflexivity.
  - vm_compute. reflexivity.
Defined.

(** ** DiscordMessageRouter.ts: what a confirmation does to the ledger *)

(** X15: a confirmed trade is charged exactly when it is a filled BUY.
    For a pending trade confirmed at or before its expiry: if the trader
    reports failure, or the action is SELL, the ledger is left as it was;
    if the trader fills a BUY, the counter of the executor's user for the
    UTC day of the confirmation (not of the request) grows by the amount,
    and every other counter reads as before.  Confirmed after its expiry,
    the trade changes nothing in the ledger. *)
Theorem confirmed_trade_charged_iff_filled_buy (d : Deps)
    (confirmId : string) (st : Router) (pending : PendingTrade) :
  pendingTrades st !! confirmId = Some pending ->
  let ex := execute pending in
  let st' := snd (executePendingTrade d confirmId st) in
  let filled :=
    tradeOk (placeTrade d (ex_tradeRequest ex)) && isBUY (ex_action ex) in
  (dateNow d <= expiresAtMs pending -> filled = true ->
     forall nowMs u,
       fst (getSpentToday nowMs u (spendLedger st')) =
       if decide (u = ex_discordUserId ex /\
                  utcDateKey nowMs = utcDateKey (dateNow d))
       then (fst (getSpentToday (dateNow d) u (spendLedger st))
             + ex_amountCentsNum ex)%Q
       else fst (getSpentToday nowMs u (spendLedger st))) /\
  (dateNow d <= expiresAtMs pending -> filled = false ->
     spendLedger st' = spendLedger st) /\
  (expiresAtMs pending < dateNow d -> spendLedger st' = spendLedger st).
Proof.
  intros Hp. cbv zeta. unfold executePendingTrade. rewrite Hp.
  split; [|split].
  - intros Hearly Hfilled nowMs u.
    replace (Z.ltb _ _) with false by (symmetry; apply Z.ltb_ge; lia).
    unfold runExecutor. rewrite Hfilled. simpl.
    unfold getSpentToday, recordSpend.
    rewrite !memGetSpent_value, memRecordSpend_spentOn.
    destruct (decide (u = _ /\ _)) as [[-> _]|]; reflexivity.
  - intros Hearly Hfilled.
    replace (Z.ltb _ _) with false by (symmetry; apply Z.ltb_ge; lia).
    unfold runExecutor. rewrite Hfilled. reflexivity.
  - intros Hlate.
    replace (Z.ltb _ _) with true by (symmetry; apply Z.ltb_lt; lia).
    reflexivity.
Qed.

Lemma confirmed_trade_charged_iff_filled_buy_witness :
  let d := exampleDeps (MS_PER_DAY + 1000) "" None in
  let st := withLedger spentLedger
              (snd (storePendingTrade (exampleDeps MS_PER_DAY "confirm-1" None)
                      exampleExecutor newRouter)) in
  let st' := snd (executePendingTrade d "confirm-1" st) in
  fst (getSpentToday (MS_PER_DAY + 2000) "alice" (spendLedger st'))
    = (0 + (500 # 1))%Q /\
  fst (getSpentToday 0 "alice" (spendLedger st')) = (500 # 1)%Q.
Proof.
  cbv zeta.
  pose (d := exampleDeps (MS_PER_DAY + 1000) "" None).
  pose (st := withLedger spentLedger
                (snd (storePendingTrade
                        (exampleDeps MS_PER_DAY "confirm-1" None)
                        exampleExecutor newRouter))).
  pose (pending := {| execute := exampleExecutor;
                      expiresAtMs := MS_PER_DAY + PENDING_TTL_MS |}).
  assert (pendingTrades st !! "confirm-1" = Some pending) as Hp
    by (vm_compute; reflexivity).
  assert (dateNow d <= expiresAtMs pending) as Hearly
    by (vm_compute; discriminate).
  destruct (confirmed_trade_charged_iff_filled_buy d "confirm-1" st pending Hp)
    as (Hfilled & _ & _).
  specialize (Hfilled Hearly eq_refl).
  split.
  - exact (Hfilled (MS_PER_DAY + 2000) "alice").
  - exact (Hfilled 0 "alice").
Defined.

(** ** DiscordMessageRouter.ts: only validated trades are stored and sent *)

Local Transparent validateBuildAndStore.

Lemma validateBuildAndStore_validated d user uid mid o actionOpt amt raw
    chosen st :
  pendingValidated (pendingTrades st) ->
  pendingValidated
    (pendingTrades
       (snd (validateBuildAndStore d user
               (place_bet uid mid o actionOpt amt raw) mid chosen o
               (default BUY actionOpt) amt st))).
Proof.
  intros Hst.
  unfold validateBuildAndStore, storePendingTrade, validateAgentOutput,
    overrideMarketLookup, buildTradeRequest.
  simpl. rewrite String.eqb_refl. simpl.
  split_cases; try exact Hst.
  intros confirmId pending. simpl.
  destruct (decide (randomUUID d = confirmId)) as [->|Hne].
  - rewrite lookup_insert_eq. intros [= <-]. simpl.
    repeat split; simpl.
    + now apply negb_false_iff.
    + now apply Qle_bool_false.
    + match goal with
      | H : negb (isActive ?s) = false |- _ => now destruct s
      end.
  - rewrite lookup_insert_ne by exact Hne. apply Hst.
Qed.

Local Opaque validateBuildAndStore.

Ltac validated_done :=
  simpl;
  repeat match goal with
  | H : dailyLimitGuard ?c ?d ?u ?a ?m ?s = (_, _) |- _ =>
      let E := fresh "Eg" in
      pose proof (dailyLimitGuard_pending c d u a m s) as E;
      rewrite H in E; simpl in E; clear H
  end;
  first
    [ assumption
    | match goal with
      | E : pendingTrades ?s1 = pendingTrades ?s,
        Hst : pendingValidated (pendingTrades ?s) |- _ =>
          rewrite <- E in Hst
      end;
      match goal with
      | H : validateBuildAndStore ?d ?u (place_bet ?uid ?mid ?o ?ao ?amt ?raw)
              ?mid ?ch ?o _ ?amt ?s = (_, ?s2)
        |- pendingValidated (pendingTrades ?s2) =>
          let V := fresh "V" in
          pose proof (validateBuildAndStore_validated d u uid mid o ao amt
                        raw ch s) as V;
          simpl in V; rewrite H in V; apply V; assumption
      | |- pendingValidated
             (pendingTrades
                (snd (validateBuildAndStore ?d ?u
                        (place_bet ?uid ?mid ?o ?ao ?amt ?raw)
                        ?mid ?ch ?o _ ?amt ?s))) =>
          apply (validateBuildAndStore_validated d u uid mid o ao amt raw
                   ch s);
          assumption
      | |- _ => assumption
      end ].

Lemma tryDeterministicWriteFallback_validated cfg d message user st :
  pendingValidated (pendingTrades st) ->
  pendingValidated
    (pendingTrades
       (snd (tryDeterministicWriteFallback cfg d message user st))).
Proof.
  intros Hst. unfold tryDeterministicWriteFallback.
  split_cases; validated_done.
Qed.

Lemma handleWrite_validated cfg d message user st :
  pendingValidated (pendingTrades st) ->
  pendingValidated (pendingTrades (snd (handleWrite cfg d message user st))).
Proof.
  intros Hst. unfold handleWrite.
  pose proof (tryDeterministicWriteFallback_validated cfg d message user st
                Hst) as Hf.
  destruct (tryDeterministicWriteFallback cfg d message user st)
    as [[r|] st1].
  all: split_cases; validated_done.
Qed.

Lemma routeMessage_validated cfg d message user st :
  pendingValidated (pendingTrades st) ->
  pendingValidated (pendingTrades (snd (routeMessage cfg d message user st))).
Proof.
  intros Hst. unfold routeMessage.
  split_cases; first [now apply handleWrite_validated | exact Hst].
Qed.

Lemma executionEventOk_others e :
  isExecutionEvent e <> true -> executionEventOk e.
Proof. destruct e; simpl; intros H; try exact I; now destruct H. Qed.

Lemma executionEvents_ok (l : list Event) :
  Forall executionEventOk l <->
  Forall executionEventOk (filter (fun e => isExecutionEvent e = true) l).
Proof.
  induction l as [|e l IH]; [reflexivity|].
  rewrite filter_cons. destruct (decide (isExecutionEvent e = true)).
  - rewrite !Forall_cons, IH. reflexivity.
  - rewrite Forall_cons, IH.
    pose proof (executionEventOk_others e). tauto.
Qed.

Lemma readsLedger_nonneg nowMs user l l' :
  readsLedger nowMs user l l' ->
  (forall u day, (0 <= spentOn day u l)%Q) ->
  forall u day, (0 <= spentOn day u l')%Q.
Proof.
  intros [-> | ->] Hl u day; [apply Hl|].
  unfold getSpentToday.
  destruct (memGetSpent_cases nowMs user u l day) as [-> | ->];
    [apply Hl | lra].
Qed.

Lemma pendingValidated_delete confirmId p :
  pendingValidated p -> pendingValidated (delete confirmId p).
Proof.
  intros Hp id pending Hl. apply (Hp id).
  destruct (decide (confirmId = id)) as [->|Hne].
  - now rewrite lookup_delete_eq in Hl.
  - now rewrite lookup_delete_ne in Hl.
Qed.

Lemma step_routerInvariant cfg op st :
  routerInvariant st -> routerInvariant (step cfg op st).
Proof.
  intros (Hp & He & Hl).
  destruct op as [d message user | d confirmId | confirmId | now]; simpl.
  - destruct (routeMessage_moves_nothing cfg d message user st) as [Hrl Hre].
    split; [now apply routeMessage_validated | split].
    + apply (proj2 (executionEvents_ok _)).
      fold (executionEvents (snd (routeMessage cfg d message user st))).
      rewrite Hre. now apply (proj1 (executionEvents_ok _)).
    + now apply (readsLedger_nonneg (dateNow d) user (spendLedger st)).
  - split; [rewrite executePendingTrade_pending;
            now apply pendingValidated_delete|].
    unfold executePendingTrade.
    destruct (pendingTrades st !! confirmId) as [pending|] eqn:E;
      [|now split].
    destruct (Z.ltb _ _); [now split|].
    destruct (Hp confirmId pending E) as (Hreq & Hamt & _).
    assert (0 < ex_amountCentsNum (execute pending))%Q as Hpos.
    { rewrite <- Hamt. apply Hreq. }
    unfold runExecutor. destruct (_ && _); simpl.
    + split; [apply Forall_cons; split; [exact Hpos|];
              apply Forall_cons; split; [exact Hreq | exact He]|].
      intros u day. unfold recordSpend. rewrite memRecordSpend_spentOn.
      destruct (decide _); [|apply Hl].
      pose proof (Hl (ex_discordUserId (execute pending))
                     (utcDateKey (dateNow d))). lra.
    + split; [apply Forall_cons; split; [exact Hreq | exact He]
             | exact Hl].
  - split; [rewrite cancelPendingTrade_pending;
            now apply pendingValidated_delete|].
    unfold cancelPendingTrade.
    destruct (pendingTrades st !! confirmId); now split.
  - split; [|now split].
    intros id pending Hlk. apply (Hp id).
    apply map_lookup_filter_Some in Hlk. apply Hlk.
Qed.

Lemma run_routerInvariant cfg ops st :
  routerInvariant st -> routerInvariant (run cfg ops st).
Proof.
  revert st. induction ops as [|op ops IH]; intros st Hst; [exact Hst|].
  simpl. apply IH. now apply step_routerInvariant.
Qed.

Lemma spentOn_empty day u : spentOn day u ∅ = 0%Q.
Proof. unfold spentOn. now rewrite lookup_empty. Qed.

Lemma newRouter_routerInvariant : routerInvariant newRouter.
Proof.
  split; [|split].
  - intros id pending Hl. simpl in Hl. now rewrite lookup_empty in Hl.
  - constructor.
  - intros u day. now rewrite spentOn_empty.
Qed.

(** X16: the trader only ever sees validated requests.  In every history
    of the router from its initial state (routed messages, confirmations,
    cancellations, sweeps, with any collaborators), each request passed to
    [placeTrade] carries a positive whole number of cents, a market that
    was active when validated and the idempotency key of its own fields;
    and every trade still pending is of that kind, its captured user,
    action, outcome, amount and market question being those of its
    request. *)
Theorem trader_sees_only_validated_requests (cfg : Config) (ops : list Op) :
  let st := run cfg ops newRouter in
  (forall request, In (PlaceTradeCalled request) (events st) ->
     isInteger (req_amountCents request) = true /\
     (0 < req_amountCents request)%Q /\
     market_status (req_market request) = active /\
     req_idempotencyKey request =
       createDeterministicIdempotencyKey
         {| iki_identity := req_identity request;
            iki_marketId := market_id (req_market request);
            iki_outcome := req_outcome request;
            iki_amountCents := req_amountCents request;
            iki_nowMs := req_requestedAtMs request;
            iki_windowMs := IDEMPOTENCY_WINDOW_MS |}) /\
  (forall confirmId pending,
     pendingTrades st !! confirmId = Some pending ->
     validatedExecutor (execute pending)).
Proof.
  cbv zeta.
  destruct (run_routerInvariant cfg ops newRouter newRouter_routerInvariant)
    as (Hp & He & _).
  split; [|exact Hp].
  intros request Hin. rewrite Forall_forall in He.
  apply (He (PlaceTradeCalled request)). now apply list_elem_of_In.
Qed.

(** X17: the ledger only ever holds non-negative counters, so the
    remaining allowance never exceeds the limit.  In every history of the
    router from its initial state, each user's counter of each day is at
    least 0, [getSpentToday] answers at least 0 and [getRemainingToday] at
    most 500 cents. *)
Theorem ledger_counters_never_negative (cfg : Config) (ops : list Op)
    (nowMs : Z) (u : string) :
  let l := spendLedger (run cfg ops newRouter) in
  (forall day, (0 <= spentOn day u l)%Q) /\
  (0 <= fst (getSpentToday nowMs u l))%Q /\
  (fst (getRemainingToday nowMs u l) <= DAILY_LIMIT_CENTS)%Q.
Proof.
  cbv zeta.
  destruct (run_routerInvariant cfg ops newRouter newRouter_routerInvariant)
    as (_ & _ & Hl).
  assert (0 <= fst (getSpentToday nowMs u
                      (spendLedger (run cfg ops newRouter))))%Q as Hs.
  { unfold getSpentToday. rewrite memGetSpent_value. apply Hl. }
  split; [intros day; apply Hl | split; [exact Hs|]].
  unfold getRemainingToday.
  destruct (getSpentToday nowMs u _) as [spent l1]. simpl in *.
  unfold Qmax0, DAILY_LIMIT_CENTS in *.
  destruct (Qle_bool 0 _); lra.
Qed.

(** ** AccountLinkChallengeService.ts: the life of a challenge *)

(** X18: an issued challenge is valid until its expiry, and is the only
    one.  When [issueChallenge] answers a challenge (new, or the one on
    file), it is unused and not yet expired; presenting its nonce for its
    user validates at every clock reading before the expiry and answers
    CHALLENGE_EXPIRED from the expiry on; and asking again before the
    expiry returns the same challenge and draws no nonce. *)
Theorem issued_challenge_valid_until_expiry (ttlMs : Z)
    (createNonce : option string) (discordUserId : string) (nowMs : Z)
    (store store' : ChallengeStore) (challenge : AccountLinkChallenge) :
  0 < ttlMs ->
  issueChallenge ttlMs createNonce discordUserId nowMs store
    = (IssueChallengeOk challenge, store') ->
  challenge_used challenge = false /\
  nowMs < challenge_expiresAtMs challenge /\
  (forall later,
     validateWithoutConsume discordUserId (challenge_nonce challenge) later
       store' =
     if Z.leb (challenge_expiresAtMs challenge) later
     then ValidateChallengeErr CHALLENGE_EXPIRED
     else ValidateChallengeOk challenge) /\
  (forall later anotherNonce,
     later < challenge_expiresAtMs challenge ->
     issueChallenge ttlMs anotherNonce discordUserId later store'
       = (IssueChallengeOk challenge, store')).
Proof.
  intros Httl Hissue.
  assert (byDiscordUserId store' !! discordUserId = Some challenge /\
          challenge_used challenge = false /\
          nowMs < challenge_expiresAtMs challenge) as (Hfile & Hused & Hexp).
  { unfold issueChallenge, challengeStore_getActive in Hissue.
    destruct (byDiscordUserId store !! discordUserId) as [existing|] eqn:E.
    - destruct (negb (challenge_used existing)
                && Z.gtb (challenge_expiresAtMs existing) nowMs) eqn:Hactive.
      + injection Hissue as <- <-.
        apply andb_true_iff in Hactive. destruct Hactive as [Hu Hg].
        apply negb_true_iff in Hu. rewrite Z.gtb_ltb in Hg.
        apply Z.ltb_lt in Hg. auto.
      + destruct createNonce as [nonce|]; [|discriminate].
        injection Hissue as <- <-. simpl.
        rewrite lookup_insert_eq. repeat split; lia.
    - destruct createNonce as [nonce|]; [|discriminate].
      injection Hissue as <- <-. simpl.
      rewrite lookup_insert_eq. repeat split; lia. }
  split; [exact Hused | split; [exact Hexp | split]].
  - intros later. unfold validateWithoutConsume, challengeStore_getActive.
    rewrite Hfile, String.eqb_refl, Hused. simpl.
    destruct (Z.leb _ _); reflexivity.
  - intros later anotherNonce Hlater.
    unfold issueChallenge, challengeStore_getActive.
    rewrite Hfile, Hused. simpl.
    rewrite Z.gtb_ltb. replace (Z.ltb _ _) with true
      by (symmetry; apply Z.ltb_lt; lia).
    reflexivity.
Qed.

Lemma issued_challenge_valid_until_expiry_witness :
  let issued := issueChallenge DEFAULT_CHALLENGE_TTL_MS (Some "n-1") "alice"
                  1000 newChallengeStore in
  exists challenge,
    fst issued = IssueChallengeOk challenge /\
    validateWithoutConsume "alice" "n-1" 300999 (snd issued)
      = ValidateChallengeOk challenge /\
    validateWithoutConsume "alice" "n-1" 301000 (snd issued)
      = ValidateChallengeErr CHALLENGE_EXPIRED.
Proof.
  cbv zeta.
  pose (challenge := {| challenge_discordUserId := "alice";
                        challenge_nonce := "n-1";
                        challenge_issuedAtMs := 1000;
                        challenge_expiresAtMs := 301000;
                        challenge_used := false |}).
  assert (0 < DEFAULT_CHALLENGE_TTL_MS) as Httl by reflexivity.
  destruct (issued_challenge_valid_until_expiry DEFAULT_CHALLENGE_TTL_MS
              (Some "n-1") "alice" 1000 newChallengeStore
              (challengeStore_create challenge newChallengeStore) challenge
              Httl eq_refl) as (_ & _ & Hvalid & _).
  exists challenge. split; [reflexivity | split].
  - exact (Hvalid 300999).
  - exact (Hvalid 301000).
Defined.

Lemma replies_differ :
  CONNECTED <> CHALLENGE_INVALID_REPLY /\
  CONNECTED <> SIGNATURE_INVALID_REPLY /\
  CONNECTED <> LINK_NOT_SAVED.
Proof. repeat split; discriminate. Qed.

Lemma accountLinks_eta st :
  {| challenges := challenges st; links := links st |} = st.
Proof. now destruct st. Qed.

(** What a successful [handleVerify] went through. *)
Lemma handleVerify_facts signatureVerifier discordUserId polymarketAccountId
    nonce signature nowMs linkedAtMs st :
  fst (handleVerify signatureVerifier discordUserId polymarketAccountId nonce
         signature nowMs linkedAtMs st) = CONNECTED ->
  exists challenge,
    validateWithoutConsume discordUserId nonce nowMs (challenges st)
      = ValidateChallengeOk challenge /\
    challenges (snd (handleVerify signatureVerifier discordUserId
                       polymarketAccountId nonce signature nowMs linkedAtMs
                       st))
      = challengeStore_markUsed nonce (challenges st).
Proof.
  unfold handleVerify, verifyLink, consumeChallenge, persistLink.
  destruct replies_differ as (Hd1 & Hd2 & Hd3).
  destruct (validateWithoutConsume discordUserId nonce nowMs (challenges st))
    as [challenge|code] eqn:Hv; simpl;
    [|intros H; now destruct Hd1].
  assert (challenge_nonce challenge = nonce) as Hnonce.
  { unfold validateWithoutConsume in Hv.
    destruct (challengeStore_getActive _ _) as [c|]; [|discriminate].
    destruct (String.eqb (challenge_nonce c) nonce) eqn:Hn; simpl in Hv;
      [|discriminate].
    apply String.eqb_eq in Hn.
    destruct (Z.leb _ _); [discriminate|].
    destruct (challenge_used c); [discriminate|]. now injection Hv as <-. }
  destruct (signatureVerifier _ signature polymarketAccountId)
    as [[|]|]; simpl; intros H;
    [|now destruct Hd2|now destruct Hd2].
  exists challenge. split; [reflexivity | now rewrite Hnonce].
Qed.

(** X19: an account is linked only on proof, and a failed attempt costs
    nothing.  [handleVerify] answers that the account is connected exactly
    when the user's challenge on file validates for the nonce at the clock
    reading and the verifier accepts the signature over the message built
    from that challenge for the claimed account; it then records the link
    (account, timestamp) for the user and marks the challenge used.  In every other case (unknown,
    mismatched, expired or used challenge, rejected signature, verifier
    that throws) neither the links nor the challenges change, so the
    challenge can still be answered. *)
Theorem handleVerify_links_only_on_proof (signatureVerifier : SignatureVerifier)
    (discordUserId polymarketAccountId nonce signature : string)
    (nowMs linkedAtMs : Z) (st : AccountLinks) :
  let result :=
    handleVerify signatureVerifier discordUserId polymarketAccountId nonce
      signature nowMs linkedAtMs st in
  (fst result = CONNECTED <->
   exists challenge,
     validateWithoutConsume discordUserId nonce nowMs (challenges st)
       = ValidateChallengeOk challenge /\
     signatureVerifier (buildSignedLinkMessage challenge) signature
       polymarketAccountId = Some true) /\
  (fst result = CONNECTED ->
   links (snd result)
     = <[discordUserId := (polymarketAccountId, linkedAtMs)]> (links st) /\
   challenges (snd result)
     = challengeStore_markUsed nonce (challenges st)) /\
  (fst result <> CONNECTED -> snd result = st).
Proof.
  cbv zeta. unfold handleVerify, verifyLink, consumeChallenge, persistLink.
  destruct replies_differ as (Hd1 & Hd2 & Hd3).
  destruct (validateWithoutConsume discordUserId nonce nowMs (challenges st))
    as [challenge|code] eqn:Hv; simpl.
  - assert (challenge_nonce challenge = nonce) as Hnonce.
    { unfold validateWithoutConsume in Hv.
      destruct (challengeStore_getActive _ _) as [c|]; [|discriminate].
      destruct (String.eqb (challenge_nonce c) nonce) eqn:Hn; simpl in Hv;
        [|discriminate].
      apply String.eqb_eq in Hn.
      destruct (Z.leb _ _); [discriminate|].
      destruct (challenge_used c); [discriminate|]. now injection Hv as <-. }
    destruct (signatureVerifier _ signature polymarketAccountId)
      as [[|]|] eqn:Hs; simpl.
    + split; [|split].
      * split; [intros _; eauto | reflexivity].
      * intros _. now rewrite Hnonce.
      * intros Hne. now destruct Hne.
    + split; [|split].
      * split; [intros H; now destruct Hd2 |].
        intros (c & [= <-] & Hc). congruence.
      * intros H. now destruct Hd2.
      * intros _. apply accountLinks_eta.
    + split; [|split].
      * split; [intros H; now destruct Hd2 |].
        intros (c & [= <-] & Hc). congruence.
      * intros H. now destruct Hd2.
      * intros _. apply accountLinks_eta.
  - split; [|split].
    + split; [intros H; now destruct Hd1 |].
      intros (c & Hc & _). discriminate.
    + intros H. now destruct Hd1.
    + intros _. apply accountLinks_eta.
Qed.

Lemma challengeStore_create_consistent challenge store :
  ownersConsistent store ->
  ownerByNonce store !! challenge_nonce challenge = None ->
  ownersConsistent (challengeStore_create challenge store).
Proof.
  intros Hc Hfresh u c. unfold challengeStore_create. simpl.
  destruct (decide (challenge_discordUserId challenge = u)) as [<-|Hne].
  - rewrite lookup_insert_eq. intros [= <-]. apply lookup_insert_eq.
  - rewrite lookup_insert_ne by exact Hne. intros Hu.
    pose proof (Hc u c Hu) as Ho.
    rewrite lookup_insert_ne; [exact Ho|]. congruence.
Qed.

Lemma challengeStore_markUsed_owner nonce store :
  ownerByNonce (challengeStore_markUsed nonce store) = ownerByNonce store.
Proof. unfold challengeStore_markUsed. split_cases; reflexivity. Qed.

(** What [markUsed] does to the challenge of a user: nothing, or the
    [used] flag is set. *)
Lemma challengeStore_markUsed_lookup nonce store u :
  byDiscordUserId (challengeStore_markUsed nonce store) !! u
    = byDiscordUserId store !! u \/
  exists challenge,
    byDiscordUserId store !! u = Some challenge /\
    byDiscordUserId (challengeStore_markUsed nonce store) !! u
      = Some (markChallengeUsed challenge).
Proof.
  unfold challengeStore_markUsed.
  destruct (ownerByNonce store !! nonce) as [owner|]; [|now left].
  destruct (String.eqb owner ""); [now left|].
  destruct (byDiscordUserId store !! owner) as [challenge|] eqn:E;
    [|now left].
  simpl. destruct (decide (owner = u)) as [<-|Hne].
  - right. exists challenge. split; [exact E | apply lookup_insert_eq].
  - left. now apply lookup_insert_ne.
Qed.

Lemma challengeStore_markUsed_consistent nonce store :
  ownersConsistent store ->
  ownersConsistent (challengeStore_markUsed nonce store).
Proof.
  intros Hc u c. rewrite challengeStore_markUsed_owner.
  destruct (challengeStore_markUsed_lookup nonce store u)
    as [-> | (c0 & Hc0 & ->)].
  - apply Hc.
  - intros [= <-]. simpl. now apply Hc.
Qed.

(** What a command does to the challenge store: nothing, a creation under
    the nonce it draws, or a consumption. *)
Lemma handleLinkCommand_challenges u command st :
  challenges (snd (handleLinkCommand u command st)) = challenges st \/
  (exists nonce nowMs challenge,
     command = ConnectAccount (Some nonce) nowMs /\
     challenge_discordUserId challenge = u /\
     challenge_nonce challenge = nonce /\
     challenges (snd (handleLinkCommand u command st))
       = challengeStore_create challenge (challenges st)) \/
  (exists nonce,
     challenges (snd (handleLinkCommand u command st))
       = challengeStore_markUsed nonce (challenges st)).
Proof.
  destruct command as [createNonce nowMs | v account nonce signature nowMs l |];
    simpl.
  - unfold handleConnectAccount, issueChallenge.
    destruct (challengeStore_getActive u (challenges st)) as [existing|].
    + destruct (_ && _); [now left|].
      destruct createNonce as [nonce|]; [|now left].
      right. left. simpl.
      exists nonce, nowMs,
        {| challenge_discordUserId := u; challenge_nonce := nonce;
           challenge_issuedAtMs := nowMs;
           challenge_expiresAtMs := nowMs + DEFAULT_CHALLENGE_TTL_MS;
           challenge_used := false |}.
      repeat split.
    + destruct createNonce as [nonce|]; [|now left].
      right. left. simpl.
      exists nonce, nowMs,
        {| challenge_discordUserId := u; challenge_nonce := nonce;
           challenge_issuedAtMs := nowMs;
           challenge_expiresAtMs := nowMs + DEFAULT_CHALLENGE_TTL_MS;
           challenge_used := false |}.
      repeat split.
  - unfold handleVerify, verifyLink, consumeChallenge, persistLink.
    split_cases; try (now left).
    all: right; right; eexists; reflexivity.
  - unfold handleDisconnect, unlink. split_cases; now left.
Qed.

Lemma handleLinkCommand_consistent u command st rest :
  noncesFresh ((u, command) :: rest) st ->
  ownersConsistent (challenges st) ->
  ownersConsistent (challenges (snd (handleLinkCommand u command st))).
Proof.
  intros [Hfresh _] Hc.
  destruct (handleLinkCommand_challenges u command st)
    as [-> | [(nonce & nowMs & challenge & -> & _ & Hn & ->) | (nonce & ->)]].
  - exact Hc.
  - apply challengeStore_create_consistent; [exact Hc | now rewrite Hn].
  - now apply challengeStore_markUsed_consistent.
Qed.

Lemma runLinkCommands_consistent commands st :
  noncesFresh commands st ->
  ownersConsistent (challenges st) ->
  ownersConsistent (challenges (runLinkCommands commands st)).
Proof.
  revert st. induction commands as [|[u command] rest IH]; intros st Hf Hc;
    [exact Hc|].
  simpl. apply IH; [apply Hf | now apply (handleLinkCommand_consistent _ _ _ rest)].
Qed.

Lemma handleLinkCommand_consumed user nonce u command st rest :
  noncesFresh ((u, command) :: rest) st ->
  consumed user nonce (challenges st) ->
  consumed user nonce (challenges (snd (handleLinkCommand u command st))).
Proof.
  intros Hf (Hc & Ho & Hb).
  split; [now apply (handleLinkCommand_consistent _ _ _ rest)|].
  destruct Hf as [Hfresh _].
  destruct (handleLinkCommand_challenges u command st)
    as [-> | [(n & nowMs & challenge & -> & Hu & Hn & ->) | (n & ->)]].
  - now split.
  - assert (n <> nonce) as Hne by congruence.
    unfold challengeStore_create. simpl. rewrite Hu, Hn. split.
    + now rewrite lookup_insert_ne.
    + intros c. destruct (decide (u = user)) as [->|Hneu].
      * rewrite lookup_insert_eq. intros [= <-]. congruence.
      * rewrite lookup_insert_ne by exact Hneu. apply Hb.
  - rewrite challengeStore_markUsed_owner. split; [exact Ho|].
    intros c.
    destruct (challengeStore_markUsed_lookup n (challenges st) user)
      as [-> | (c0 & Hc0 & ->)]; [apply Hb|].
    intros [= <-] _. reflexivity.
Qed.

Lemma runLinkCommands_consumed user nonce commands st :
  noncesFresh commands st ->
  consumed user nonce (challenges st) ->
  consumed user nonce (challenges (runLinkCommands commands st)).
Proof.
  revert st. induction commands as [|[u command] rest IH]; intros st Hf Hc;
    [exact Hc|].
  simpl. apply IH; [apply Hf | now apply (handleLinkCommand_consumed _ _ _ _ _ rest)].
Qed.

Lemma consumed_never_validates user nonce store u nowMs :
  consumed user nonce store ->
  exists errorCode,
    validateWithoutConsume u nonce nowMs store
      = ValidateChallengeErr errorCode.
Proof.
  intros (Hc & Ho & Hb).
  unfold validateWithoutConsume, challengeStore_getActive.
  destruct (byDiscordUserId store !! u) as [c|] eqn:E; [|eauto].
  destruct (String.eqb (challenge_nonce c) nonce) eqn:Hn; simpl; [|eauto].
  apply String.eqb_eq in Hn.
  destruct (Z.leb _ _); [eauto|].
  pose proof (Hc u c E) as Hu. rewrite Hn, Ho in Hu. injection Hu as ->.
  rewrite (Hb c E Hn). eauto.
Qed.

Lemma validated_then_consumed user nonce nowMs store challenge :
  user <> "" ->
  ownersConsistent store ->
  validateWithoutConsume user nonce nowMs store
    = ValidateChallengeOk challenge ->
  consumed user nonce (challengeStore_markUsed nonce store).
Proof.
  intros Hne Hc Hv.
  unfold validateWithoutConsume, challengeStore_getActive in Hv.
  destruct (byDiscordUserId store !! user) as [c|] eqn:E; [|discriminate].
  destruct (String.eqb (challenge_nonce c) nonce) eqn:Hn; simpl in Hv;
    [|discriminate].
  apply String.eqb_eq in Hn.
  pose proof (Hc user c E) as Ho. rewrite Hn in Ho.
  split; [now apply challengeStore_markUsed_consistent|].
  rewrite challengeStore_markUsed_owner. split; [exact Ho|].
  unfold challengeStore_markUsed. rewrite Ho.
  destruct (String.eqb user "") eqn:Hempty;
    [apply String.eqb_eq in Hempty; contradiction|].
  rewrite E. simpl. intros c'. rewrite lookup_insert_eq.
  intros [= <-] _. reflexivity.
Qed.

Lemma newChallengeStore_consistent : ownersConsistent newChallengeStore.
Proof. intros u c H. simpl in H. now rewrite lookup_empty in H. Qed.

Lemma handleVerify_invalid signatureVerifier discordUserId
    polymarketAccountId nonce signature nowMs linkedAtMs st errorCode :
  validateWithoutConsume discordUserId nonce nowMs (challenges st)
    = ValidateChallengeErr errorCode ->
  handleVerify signatureVerifier discordUserId polymarketAccountId nonce
    signature nowMs linkedAtMs st = (CHALLENGE_INVALID_REPLY, st).
Proof.
  intros Hcode. unfold handleVerify, verifyLink. rewrite Hcode.
  now rewrite accountLinks_eta.
Qed.

(** X20: a challenge proves ownership once.  In a history of account-link
    commands that starts from empty stores and in which every connect
    draws a new nonce, once a verify with a nonce has connected a user
    (whose id is not the empty string), every later verify with that
    nonce, by any user, with any account, signature and verifier, at any
    clock reading, answers that the challenge is invalid and changes
    nothing. *)
Theorem verified_challenge_cannot_be_replayed
    (before after : list (string * LinkCommand))
    (signatureVerifier : SignatureVerifier)
    (discordUserId polymarketAccountId nonce signature : string)
    (nowMs linkedAtMs : Z) :
  let st0 := runLinkCommands before newAccountLinks in
  let verified :=
    handleVerify signatureVerifier discordUserId polymarketAccountId nonce
      signature nowMs linkedAtMs st0 in
  let st2 := runLinkCommands after (snd verified) in
  discordUserId <> "" ->
  noncesFresh before newAccountLinks ->
  fst verified = CONNECTED ->
  noncesFresh after (snd verified) ->
  forall (verifier' : SignatureVerifier)
         (user' account' signature' : string) (nowMs' linkedAtMs' : Z),
    handleVerify verifier' user' account' nonce signature' nowMs' linkedAtMs'
      st2 = (CHALLENGE_INVALID_REPLY, st2).
Proof.
  cbv zeta. intros Hne Hbefore Hok Hafter.
  pose proof (runLinkCommands_consistent before newAccountLinks Hbefore
                newChallengeStore_consistent) as Hc0.
  set (st0 := runLinkCommands before newAccountLinks) in *.
  destruct (handleVerify_facts signatureVerifier discordUserId
              polymarketAccountId nonce signature nowMs linkedAtMs st0 Hok)
    as (challenge & Hv & Hstore).
  pose proof (validated_then_consumed discordUserId nonce nowMs
                (challenges st0) challenge Hne Hc0 Hv) as Hcons.
  rewrite <- Hstore in Hcons.
  pose proof (runLinkCommands_consumed discordUserId nonce after _ Hafter
                Hcons) as Hcons2.
  intros verifier' user' account' signature' nowMs' linkedAtMs'.
  destruct (consumed_never_validates discordUserId nonce _ user' nowMs' Hcons2)
    as [code Hcode].
  now apply (handleVerify_invalid _ _ _ _ _ _ _ _ code).
Qed.

Lemma verified_challenge_cannot_be_replayed_witness :
  let st0 := runLinkCommands aliceConnects newAccountLinks in
  let verified :=
    handleVerify acceptingVerifier "alice" "0xabc" "n-1" "sig" 2000 2001 st0 in
  let st2 := runLinkCommands laterConnects (snd verified) in
  fst verified = CONNECTED /\
  handleVerify acceptingVerifier "alice" "0xabc" "n-1" "sig" 5000 5001 st2
    = (CHALLENGE_INVALID_REPLY, st2).
Proof.
  cbv zeta.
  assert ("alice" <> "") as Hne by discriminate.
  assert (noncesFresh aliceConnects newAccountLinks) as Hbefore.
  { simpl. split; [apply lookup_empty | exact I]. }
  assert (fst (handleVerify acceptingVerifier "alice" "0xabc" "n-1" "sig" 2000
                 2001 (runLinkCommands aliceConnects newAccountLinks))
          = CONNECTED) as Hok by (vm_compute; reflexivity).
  assert (noncesFresh laterConnects
            (snd (handleVerify acceptingVerifier "alice" "0xabc" "n-1" "sig"
                    2000 2001 (runLinkCommands aliceConnects newAccountLinks))))
    as Hafter.
  { simpl. repeat split; vm_compute; reflexivity. }
  split; [exact Hok|].
  exact (verified_challenge_cannot_be_replayed aliceConnects laterConnects
           acceptingVerifier "alice" "0xabc" "n-1" "sig" 2000 2001
           Hne Hbefore Hok Hafter acceptingVerifier "alice" "0xabc" "sig"
           5000 5001).
Defined.

(** The precondition on the user id is needed: [markUsed] skips an owner
    whose id is the empty string, so that user's challenge validates
    again after it has connected an account. *)
Lemma empty_user_id_replays_challenge :
  let st0 :=
    runLinkCommands [("", ConnectAccount (Some "n-1") 1000)] newAccountLinks in
  let verified :=
    handleVerify acceptingVerifier "" "0xabc" "n-1" "sig" 2000 2001 st0 in
  fst verified = CONNECTED /\
  fst (handleVerify acceptingVerifier "" "0xdef" "n-1" "sig" 3000 3001
         (snd verified)) = CONNECTED.
Proof. split; vm_compute; reflexivity. Qed.

(** ** AccountLinkPersistenceService.ts: links as a store *)

(** X21: linking, reading and unlinking round-trip.  After [persistLink]
    the user reads back the new account (a re-link overwrites) and every
    other user reads what they read before; [unlink] succeeds exactly for
    a linked user, after which the user reads LINK_NOT_FOUND, a second
    [unlink] answers LINK_NOT_FOUND and changes nothing, and other users
    are untouched. *)
Theorem account_link_roundtrip (discordUserId polymarketAccountId : string)
    (nowMs : Z) (store : LinkStore) :
  (forall other,
     getLinkedAccount other
       (snd (persistLink discordUserId polymarketAccountId nowMs store)) =
     if decide (other = discordUserId)
     then GetLinkedAccountOk polymarketAccountId
     else getLinkedAccount other store) /\
  (fst (unlink discordUserId store) = UnlinkOk discordUserId <->
   exists account,
     getLinkedAccount discordUserId store = GetLinkedAccountOk account) /\
  (fst (unlink discordUserId store) <> UnlinkOk discordUserId ->
   unlink discordUserId store = (UnlinkErr LINK_NOT_FOUND, store)) /\
  (forall other,
     getLinkedAccount other (snd (unlink discordUserId store)) =
     if decide (other = discordUserId)
     then GetLinkedAccountErr LINK_NOT_FOUND
     else getLinkedAccount other store) /\
  unlink discordUserId (snd (unlink discordUserId store))
    = (UnlinkErr LINK_NOT_FOUND, snd (unlink discordUserId store)).
Proof.
  assert (forall other,
    getLinkedAccount other (delete discordUserId store) =
    if decide (other = discordUserId)
    then GetLinkedAccountErr LINK_NOT_FOUND
    else getLinkedAccount other store) as Hdel.
  { intros other. unfold getLinkedAccount, linkStore_getLinkedAccount.
    destruct (decide (other = discordUserId)) as [->|Hne].
    - now rewrite lookup_delete_eq.
    - now rewrite lookup_delete_ne. }
  split; [|split; [|split; [|split]]].
  - intros other.
    unfold getLinkedAccount, persistLink, linkStore_getLinkedAccount,
      linkStore_link. simpl.
    destruct (decide (other = discordUserId)) as [->|Hne].
    + now rewrite lookup_insert_eq.
    + now rewrite lookup_insert_ne.
  - unfold unlink, getLinkedAccount.
    destruct (linkStore_getLinkedAccount discordUserId store); simpl.
    + split; [eauto | reflexivity].
    + split; [discriminate | intros [a Ha]; discriminate].
  - unfold unlink.
    destruct (linkStore_getLinkedAccount discordUserId store); simpl.
    + intros H. now destruct H.
    + reflexivity.
  - intros other. unfold unlink.
    destruct (linkStore_getLinkedAccount discordUserId store) eqn:E; simpl.
    + apply Hdel.
    + destruct (decide (other = discordUserId)) as [->|Hne];
        [|reflexivity].
      unfold getLinkedAccount. now rewrite E.
  - unfold unlink at 1.
    assert (linkStore_getLinkedAccount discordUserId
              (snd (unlink discordUserId store)) = None) as ->;
      [|reflexivity].
    unfold unlink, linkStore_getLinkedAccount, linkStore_unlink in *.
    destruct (fst <$> store !! discordUserId) eqn:E; simpl.
    + now rewrite lookup_delete_eq.
    + exact E.
Qed.

(** ** UserAccountTrader.ts *)

(** X22: the error mapping keeps the codes it knows and invents none.
    Every [TradeErrorCode], thrown as an error with that code string, maps
    to itself; a mapped result other than INTERNAL_ERROR is the code that
    was thrown; an error without code, or with any other code string
    (the comparison is case-sensitive), maps to INTERNAL_ERROR. *)
Theorem execution_error_mapping_roundtrip :
  (forall errorCode,
     mapExecutionErrorToTradeErrorCode
       (CodeError (tradeErrorCodeToString errorCode)) = errorCode) /\
  (forall code errorCode,
     mapExecutionErrorToTradeErrorCode (CodeError code) = errorCode ->
     errorCode = TE_INTERNAL_ERROR \/
     code = tradeErrorCodeToString errorCode) /\
  mapExecutionErrorToTradeErrorCode OtherError = TE_INTERNAL_ERROR /\
  mapExecutionErrorToTradeErrorCode (CodeError "rate_limited")
    = TE_INTERNAL_ERROR.
Proof.
  split; [|split; [|split]]; try reflexivity.
  - intros []; reflexivity.
  - intros code errorCode. unfold mapExecutionErrorToTradeErrorCode.
    repeat match goal with
    | |- context [String.eqb code ?s] =>
        destruct (String.eqb_spec code s) as [->|_];
        [intros <-; right; reflexivity|]
    end.
    intros <-. now left.
Qed.

(** X23: the gateway's answer decides the reply and the charge.  With the
    router wired to [UserAccountTrader], confirming a pending trade at or
    before its expiry asks the gateway to execute for the account of the
    stored identity, with the stored market id, outcome, action, amount
    and idempotency key.  If the gateway throws, the reply is the failure with
    the mapped code and the ledger is untouched; if it answers, the reply
    is the success attributed to the stored user, and the user's counter
    is charged exactly when the action is BUY. *)
Theorem gateway_outcome_decides_charge (gateway : PolymarketExecutionGateway)
    (d : Deps) (confirmId : string) (st : Router) (pending : PendingTrade) :
  pendingTrades st !! confirmId = Some pending ->
  dateNow d <= expiresAtMs pending ->
  placeTrade d = UserAccountTrader_placeTrade gateway (dateNow d) ->
  let ex := execute pending in
  let request := ex_tradeRequest ex in
  let result := executePendingTrade d confirmId st in
  let reply tradeResult :=
    Some (TradeResultMessage tradeResult (ex_marketQuestion ex)
            (ex_outcome ex) (ex_action ex) (ex_amountCentsNum ex)) in
  match
    executeTradeForAccount gateway
      (polymarketAccountId (req_identity request))
      (executeTradeParams request)
  with
  | inr error =>
      fst result =
        reply (TradeResultFailure (mapExecutionErrorToTradeErrorCode error)
                 None (dateNow d)) /\
      spendLedger (snd result) = spendLedger st
  | inl execution =>
      fst result =
        reply (TradeResultSuccess (response_tradeId execution)
                 (discordUserId (req_identity request))
                 (market_id (req_market request)) (req_outcome request)
                 (req_amountCents request)
                 (response_executedAtMs execution)) /\
      spendLedger (snd result) =
        if isBUY (ex_action ex)
        then recordSpend (dateNow d) (ex_discordUserId ex)
               (ex_amountCentsNum ex) (spendLedger st)
        else spendLedger st
  end.
Proof.
  intros Hp Hearly Hwired. cbv zeta.
  unfold executePendingTrade. rewrite Hp.
  replace (Z.ltb _ _) with false by (symmetry; apply Z.ltb_ge; lia).
  unfold runExecutor, formatTradeResultMessage. rewrite Hwired.
  unfold UserAccountTrader_placeTrade.
  destruct (executeTradeForAccount gateway _ _) as [execution|error]; simpl.
  - split; [reflexivity|]. now destruct (isBUY _).
  - split; reflexivity.
Qed.

Lemma gateway_outcome_decides_charge_witness :
  let st := snd (storePendingTrade (exampleDeps 1000 "confirm-1" None)
                   exampleExecutor newRouter) in
  let d := wiredDeps 2000 "" None rateLimitedGateway ∅ in
  fst (executePendingTrade d "confirm-1" st) =
    Some (TradeResultMessage (TradeResultFailure TE_RATE_LIMITED None 2000)
            "Bitcoin up or down?" YES BUY (500 # 1)) /\
  spendLedger (snd (executePendingTrade d "confirm-1" st)) = spendLedger st.
Proof.
  cbv zeta.
  pose (pending := {| execute := exampleExecutor;
                      expiresAtMs := 1000 + PENDING_TTL_MS |}).
  assert (pendingTrades
            (snd (storePendingTrade (exampleDeps 1000 "confirm-1" None)
                    exampleExecutor newRouter)) !! "confirm-1"
          = Some pending) as Hp by (vm_compute; reflexivity).
  assert (dateNow (wiredDeps 2000 "" None rateLimitedGateway ∅)
          <= expiresAtMs pending) as Hearly by (vm_compute; discriminate).
  exact (gateway_outcome_decides_charge rateLimitedGateway
           (wiredDeps 2000 "" None rateLimitedGateway ∅) "confirm-1" _
           pending Hp Hearly eq_refl).
Defined.

(** X24: the trader's reads answer for the asking user only.  The balance
    [getBalance] returns carries the asking user's id, and is all zeros,
    stamped with the clock, when the user resolves to no account (null or
    the empty string); every successful trade [getRecentTrades] returns
    carries the asking user's id, failures are passed through unchanged,
    in the gateway's order and number, and a user without account gets the
    empty list. *)
Theorem trader_reads_attributed_to_asker (gateway : PolymarketExecutionGateway)
    (resolve : string -> option string) (dateNow : Z) (userId : string)
    (limit : Q) :
  (forall balance,
     UserAccountTrader_getBalance gateway resolve dateNow userId
       = Some balance ->
     balance_userId balance = userId /\
     (noAccount (resolve userId) = true ->
      balance = {| balance_userId := userId; availableCents := 0;
                   spentTodayCents := 0;
                   balance_remainingDailyLimitCents := 0;
                   asOfMs := dateNow |})) /\
  (forall trades,
     UserAccountTrader_getRecentTrades gateway resolve userId limit
       = Some trades ->
     Forall (attributedTo userId) trades /\
     (noAccount (resolve userId) = true -> trades = []) /\
     (noAccount (resolve userId) = false ->
      exists account raw,
        resolve userId = Some account /\
        getRecentTradesForAccount gateway account limit = Some raw /\
        length trades = length raw /\
        forall i trade, raw !! i = Some trade ->
          trades !! i = Some (attributeTo userId trade) /\
          (tradeOk trade = false -> trades !! i = Some trade))).
Proof.
  split.
  - intros balance. unfold UserAccountTrader_getBalance.
    destruct (noAccount (resolve userId)).
    + intros [= <-]. split; [reflexivity | intros _; reflexivity].
    + destruct (getBalanceForAccount gateway _); [|discriminate].
      intros [= <-]. split; [reflexivity | discriminate].
  - intros trades. unfold UserAccountTrader_getRecentTrades.
    destruct (noAccount (resolve userId)) eqn:Hno.
    + intros [= <-]. split; [constructor | split; [reflexivity|discriminate]].
    + destruct (resolve userId) as [account|] eqn:Hr; [|discriminate].
      simpl.
      destruct (getRecentTradesForAccount gateway account limit) as [raw|]
        eqn:Hraw; [|discriminate].
      intros [= <-]. split; [|split; [discriminate|]].
      * apply Forall_forall. intros t Ht.
        apply list_elem_of_fmap in Ht. destruct Ht as (r & -> & _).
        now destruct r.
      * intros _. exists account, raw.
        split; [reflexivity | split; [exact Hraw | split]].
        -- apply length_map.
        -- intros i trade Hi.
           assert (map (attributeTo userId) raw !! i
                   = Some (attributeTo userId trade)) as Hm.
           { change (map (attributeTo userId) raw)
               with (attributeTo userId <$> raw).
             now rewrite list_lookup_fmap, Hi. }
           split; [exact Hm|]. intros Hfail. rewrite Hm.
           now destruct trade.
Qed.

(** ** The account a trade is bound to *)

Local Transparent validateBuildAndStore.

Lemma validateBuildAndStore_identity d user intent mid chosen o a amt st
    confirmId q o' a' dollars :
  fst (validateBuildAndStore d user intent mid chosen o a amt st)
    = RConfirm confirmId q o' a' dollars ->
  exists pending account,
    pendingTrades (snd (validateBuildAndStore d user intent mid chosen o a
                          amt st)) !! confirmId = Some pending /\
    ctx_polymarketAccountId (deps_buildValidationContext d user)
      = Some account /\
    req_identity (ex_tradeRequest (execute pending))
      = {| discordUserId := user; polymarketAccountId := account |}.
Proof.
  unfold validateBuildAndStore, storePendingTrade, somethingWentWrong,
    validateAgentOutput, buildTradeRequest, overrideMarketLookup.
  destruct intent; simpl;
    [|split_cases; discriminate..].
  destruct (ctx_polymarketAccountId (deps_buildValidationContext d user))
    as [account|] eqn:Hacc; simpl; [|discriminate].
  split_cases; intros [= <- <- <- <- <-].
  all: eexists _, account; split; [apply lookup_insert_eq|];
    split; reflexivity.
Qed.

Local Opaque validateBuildAndStore.

Ltac identity_done :=
  simpl; intros Hr; simplify_eq/=;
  first
    [ eapply validateBuildAndStore_identity; eassumption
    | match goal with
      | H : validateBuildAndStore ?d ?u ?i ?mid ?ch ?o ?a ?m ?s
            = (RConfirm ?c ?q ?o' ?a' ?dd, _)
        |- _ =>
          let V := fresh "V" in
          pose proof (validateBuildAndStore_identity d u i mid ch o a m s
                        c q o' a' dd) as V;
          rewrite H in V; simpl in V; apply V; reflexivity
      end ].

Lemma tryDeterministicWriteFallback_identity cfg d message user st
    confirmId q o a dollars :
  fst (tryDeterministicWriteFallback cfg d message user st)
    = Some (RConfirm confirmId q o a dollars) ->
  exists pending account,
    pendingTrades (snd (tryDeterministicWriteFallback cfg d message user st))
      !! confirmId = Some pending /\
    ctx_polymarketAccountId (deps_buildValidationContext d user)
      = Some account /\
    req_identity (ex_tradeRequest (execute pending))
      = {| discordUserId := user; polymarketAccountId := account |}.
Proof.
  unfold tryDeterministicWriteFallback.
  split_cases; identity_done.
Qed.

Lemma handleWrite_identity cfg d message user st confirmId q o a dollars :
  fst (handleWrite cfg d message user st) = RConfirm confirmId q o a dollars ->
  exists pending account,
    pendingTrades (snd (handleWrite cfg d message user st))
      !! confirmId = Some pending /\
    ctx_polymarketAccountId (deps_buildValidationContext d user)
      = Some account /\
    req_identity (ex_tradeRequest (execute pending))
      = {| discordUserId := user; polymarketAccountId := account |}.
Proof.
  unfold handleWrite.
  pose proof (tryDeterministicWriteFallback_identity cfg d message user st
                confirmId q o a dollars) as Hf.
  destruct (tryDeterministicWriteFallback cfg d message user st)
    as [[r|] st1].
  all: split_cases; try identity_done.
  all: simpl; intros Hr; try discriminate Hr.
  all: first [ apply Hf; simpl; now rewrite Hr
             | eapply validateBuildAndStore_identity; exact Hr ].
Qed.

(** X25: a confirmation prompt is bound to the asker's linked account, or
    to the leader's wallet.  With the validation context wired to the link
    store, whenever [routeMessage] answers with a confirmation prompt, the
    trade stored under its id carries the identity of the sender together
    with the account the store has for the sender, and, only when the
    sender has no link, the configured leader wallet; with neither, no
    prompt is ever shown. *)
Theorem confirmation_bound_to_linked_account (cfg : Config) (d : Deps)
    (store : LinkStore) (searchResult : option (list Market))
    (message user : string) (st : Router)
    (confirmId question : string) (outcome : Outcome) (action : TradeAction)
    (dollars : string) :
  deps_buildValidationContext d
    = createBuildValidationContext cfg store searchResult ->
  fst (routeMessage cfg d message user st)
    = RConfirm confirmId question outcome action dollars ->
  exists pending account,
    pendingTrades (snd (routeMessage cfg d message user st)) !! confirmId
      = Some pending /\
    req_identity (ex_tradeRequest (execute pending))
      = {| discordUserId := user; polymarketAccountId := account |} /\
    resolveAccountId cfg store user = Some account /\
    (getLinkedAccount user store = GetLinkedAccountOk account \/
     getLinkedAccount user store = GetLinkedAccountErr LINK_NOT_FOUND /\
     env_POLYMARKET_PROXY_WALLET cfg = Some account).
Proof.
  intros Hwired Hr.
  assert (exists pending account,
    pendingTrades (snd (routeMessage cfg d message user st)) !! confirmId
      = Some pending /\
    ctx_polymarketAccountId (deps_buildValidationContext d user)
      = Some account /\
    req_identity (ex_tradeRequest (execute pending))
      = {| discordUserId := user; polymarketAccountId := account |})
    as (pending & account & Hp & Hacc & Hid).
  { revert Hr. unfold routeMessage.
    split_cases; first [apply handleWrite_identity | discriminate]. }
  exists pending, account. split; [exact Hp | split; [exact Hid|]].
  rewrite Hwired in Hacc.
  unfold createBuildValidationContext, buildValidationContext, resolveAccountId,
    getLinkedAccount in *. simpl in Hacc.
  destruct (linkStore_getLinkedAccount user store) as [linked|]; simpl in *.
  - injection Hacc as ->. split; [reflexivity | now left].
  - split; [exact Hacc | right; now split].
Qed.

Lemma confirmation_bound_to_linked_account_witness :
  let store := linkStore_link "alice" "0xabc" 500 ∅ in
  let d := wiredDeps 1000 "confirm-1" (buyFiveDollars YES)
             rateLimitedGateway store in
  exists pending,
    pendingTrades
      (snd (routeMessage exampleConfig d "buy $5 of yes on m1" "alice"
              newRouter)) !! "confirm-1" = Some pending /\
    req_identity (ex_tradeRequest (execute pending))
      = {| discordUserId := "alice"; polymarketAccountId := "0xabc" |}.
Proof.
  cbv zeta.
  pose (store := linkStore_link "alice" "0xabc" 500 ∅).
  pose (d := wiredDeps 1000 "confirm-1" (buyFiveDollars YES)
               rateLimitedGateway store).
  assert (fst (routeMessage exampleConfig d "buy $5 of yes on m1" "alice"
                 newRouter)
          = RConfirm "confirm-1" "Bitcoin up or down?" YES BUY "5.00") as Hr
    by (vm_compute; reflexivity).
  destruct (confirmation_bound_to_linked_account exampleConfig d store
              (Some [exampleMarket]) "buy $5 of yes on m1" "alice" newRouter
              "confirm-1" "Bitcoin up or down?" YES BUY "5.00" eq_refl Hr)
    as (pending & account & Hp & Hid & _ & [Hl | [Hl _]]).
  - exists pending. split; [exact Hp|].
    assert (account = "0xabc") as <-; [|exact Hid].
    vm_compute in Hl. now injection Hl.
  - vm_compute in Hl. discriminate Hl.
Defined.

(** ** index.ts: deduplication and cooldown *)

Lemma setHas_elem v ids : setHas v ids = true <-> v ∈ ids.
Proof.
  unfold setHas. rewrite existsb_exists, list_elem_of_In. split.
  - intros (x & Hx & He). apply String.eqb_eq in He. now subst.
  - intros H. exists v. split; [exact H | apply String.eqb_refl].
Qed.

Lemma setHas_not_elem v ids : setHas v ids = false <-> v ∉ ids.
Proof.
  rewrite <- setHas_elem. destruct (setHas v ids); split; congruence.
Qed.

Lemma setDelete_absent v (ids : list string) : v ∉ ids -> setDelete v ids = ids.
Proof.
  unfold setDelete. induction ids as [|x ids IH]; intros Hv; [reflexivity|].
  rewrite not_elem_of_cons in Hv. destruct Hv as [Hne Hv].
  rewrite filter_cons_True by congruence. now rewrite IH.
Qed.

Lemma evict_loop (vs kept rest : list string) :
  NoDup (kept ++ vs ++ rest)%list ->
  fold_left (fun acc v => if String.eqb v "" then acc else setDelete v acc)
    vs (kept ++ vs ++ rest)%list
  = (kept ++ filter (fun v => v = "") vs ++ rest)%list.
Proof.
  revert kept. induction vs as [|v vs IH]; intros kept Hnd; [reflexivity|].
  simpl in Hnd |- *.
  assert ((kept ++ v :: vs ++ rest)%list
          = ((kept ++ [v]) ++ vs ++ rest)%list) as Hshift
    by (now rewrite <- app_assoc).
  destruct (String.eqb_spec v "") as [Hv|Hne].
  - rewrite filter_cons_True by exact Hv.
    rewrite Hshift in Hnd |- *. rewrite (IH _ Hnd).
    now rewrite <- app_assoc.
  - rewrite filter_cons_False by exact Hne.
    apply NoDup_app in Hnd. destruct Hnd as (Hk & Hdisj & Hvs).
    apply NoDup_cons in Hvs. destruct Hvs as [Hv Hvs].
    assert (setDelete v (kept ++ v :: vs ++ rest)%list
            = (kept ++ vs ++ rest)%list) as ->.
    { unfold setDelete. rewrite filter_app.
      rewrite filter_cons_False by (intros H; now apply H).
      fold (setDelete v kept). fold (setDelete v (vs ++ rest)%list).
      rewrite !setDelete_absent; [reflexivity | exact Hv |].
      intros Hin. apply (Hdisj v Hin). now left. }
    apply IH. apply NoDup_app. split; [exact Hk | split; [|exact Hvs]].
    intros x Hx Hx'. apply (Hdisj x Hx). now right.
Qed.

(** On a duplicate-free set the eviction drops the 100 oldest ids, the
    empty string excepted. *)
Lemma evictOldest_eq (ids : list string) :
  NoDup ids ->
  evictOldest ids
  = (filter (fun v => v = "") (take 100 ids) ++ drop 100 ids)%list.
Proof.
  intros Hnd. unfold evictOldest.
  rewrite <- (take_drop 100 ids) at 2.
  apply (evict_loop (take 100 ids) [] (drop 100 ids)). simpl.
  now rewrite take_drop.
Qed.

Lemma filter_one_value (x : string) (l : list string) :
  NoDup l -> (length (filter (fun v => v = x) l) <= 1)%nat.
Proof.
  induction l as [|y l IH]; intros Hnd; [simpl; lia|].
  apply NoDup_cons in Hnd. destruct Hnd as [Hy Hnd].
  destruct (decide (y = x)) as [->|Hne].
  - rewrite filter_cons_True by reflexivity.
    assert (filter (fun v => v = x) l = []) as ->; [|simpl; lia].
    clear IH Hnd. induction l as [|z l IH]; [reflexivity|].
    rewrite not_elem_of_cons in Hy. destruct Hy as [Hne Hy].
    rewrite filter_cons_False by congruence. now apply IH.
  - rewrite filter_cons_False by exact Hne. now apply IH.
Qed.

Lemma handlerDecision_cases (decision : HandlerDecision) :
  decision = Ignored \/ decision <> Ignored.
Proof. destruct decision; [now left | right; discriminate..]. Qed.

(** The dedupe set after a message that is not ignored. *)
Lemma onMessageCreate_processed nowMs acceptedAtMs message st :
  fst (onMessageCreate nowMs acceptedAtMs message st) <> Ignored ->
  (message_id message ∉ processedMessages st) /\
  processedMessages (snd (onMessageCreate nowMs acceptedAtMs message st)) =
    (let added := (processedMessages st ++ [message_id message])%list in
     if (500 <? length added)%nat then evictOldest added else added).
Proof.
  unfold onMessageCreate.
  destruct (author_bot message); [intros H; now destruct H|].
  destruct (mentionsBot message); simpl; [|intros H; now destruct H].
  destruct (setHas (message_id message) (processedMessages st)) eqn:Hhas;
    [intros H; now destruct H|].
  intros _. split; [now apply setHas_not_elem|].
  unfold setAdd. rewrite Hhas. now destruct (Z.ltb _ _).
Qed.

Lemma onMessageCreate_ignored nowMs acceptedAtMs message st :
  fst (onMessageCreate nowMs acceptedAtMs message st) = Ignored ->
  snd (onMessageCreate nowMs acceptedAtMs message st) = st.
Proof.
  unfold onMessageCreate.
  destruct (author_bot message); [reflexivity|].
  destruct (mentionsBot message); simpl; [|reflexivity].
  destruct (setHas _ _); [reflexivity|].
  destruct (Z.ltb _ _); discriminate.
Qed.

Lemma onMessageCreate_invariant nowMs acceptedAtMs message st :
  handlerInvariant st ->
  handlerInvariant (snd (onMessageCreate nowMs acceptedAtMs message st)).
Proof.
  intros [Hnd Hlen].
  destruct (handlerDecision_cases
              (fst (onMessageCreate nowMs acceptedAtMs message st))) as [Hi|Hr].
  - rewrite (onMessageCreate_ignored _ _ _ _ Hi). now split.
  - destruct (onMessageCreate_processed _ _ _ _ Hr) as [Hnew Hp].
    unfold handlerInvariant. rewrite Hp. cbv zeta.
    assert (NoDup (processedMessages st ++ [message_id message])%list)
      as Hnd'.
    { apply NoDup_app. split; [exact Hnd | split; [|apply NoDup_singleton]].
      intros x Hx Hx'. apply list_elem_of_singleton in Hx'. now subst. }
    set (added := (processedMessages st ++ [message_id message])%list) in *.
    assert (length added = S (length (processedMessages st))) as Hadded.
    { subst added. rewrite length_app. simpl. lia. }
    destruct (Nat.ltb_spec 500 (length added)) as [Hfull|Hroom].
    + rewrite (evictOldest_eq added Hnd').
      rewrite <- (take_drop 100 added) in Hnd'.
      apply NoDup_app in Hnd'. destruct Hnd' as (Ht & Hdisj & Hd).
      split.
      * apply NoDup_app. split; [now apply NoDup_filter | split; [|exact Hd]].
        intros x Hx. apply list_elem_of_filter in Hx. apply Hdisj, Hx.
      * rewrite length_app, length_drop.
        pose proof (filter_one_value "" (take 100 added) Ht). lia.
    + split; [exact Hnd' | lia].
Qed.

Lemma runHandler_invariant deliveries st :
  handlerInvariant st -> handlerInvariant (runHandler deliveries st).
Proof.
  revert st.
  induction deliveries as [|[[nowMs acceptedAtMs] message] rest IH];
    intros st Hst; [exact Hst|].
  simpl. apply IH. now apply onMessageCreate_invariant.
Qed.

(** X26: the dedupe set stays a bounded set.  Whatever is delivered, from
    the start of the process on, [processedMessages] holds no id twice and
    never more than 500 ids when the handler returns. *)
Theorem dedupe_set_bounded (deliveries : list Delivery) :
  let st := runHandler deliveries newHandlerState in
  NoDup (processedMessages st) /\
  (length (processedMessages st) <= 500)%nat.
Proof.
  apply runHandler_invariant. split; [constructor | simpl; lia].
Qed.

Lemma onMessageCreate_remembered nowMs acceptedAtMs message st id newer :
  handlerInvariant st ->
  (newer < 400)%nat ->
  remembered id newer st ->
  remembered id (S newer) (snd (onMessageCreate nowMs acceptedAtMs message st)).
Proof.
  intros [Hnd Hlen] Hnewer (before & after & Hl & Hafter).
  destruct (handlerDecision_cases
              (fst (onMessageCreate nowMs acceptedAtMs message st))) as [Hi|Hr].
  - rewrite (onMessageCreate_ignored _ _ _ _ Hi).
    exists before, after. split; [exact Hl | lia].
  - destruct (onMessageCreate_processed _ _ _ _ Hr) as [Hnew Hp].
    unfold remembered. rewrite Hp. cbv zeta.
    assert (NoDup (processedMessages st ++ [message_id message])%list)
      as Hnd'.
    { apply NoDup_app. split; [exact Hnd | split; [|apply NoDup_singleton]].
      intros x Hx Hx'. apply list_elem_of_singleton in Hx'. now subst. }
    assert ((processedMessages st ++ [message_id message])%list
            = (before ++ id :: (after ++ [message_id message]))%list)
      as Hadded.
    { rewrite Hl, <- app_assoc. reflexivity. }
    rewrite Hadded in Hnd' |- *.
    set (after' := (after ++ [message_id message])%list) in *.
    assert (length after' = S (length after)) as Hafter'.
    { subst after'. rewrite length_app. simpl. lia. }
    destruct (Nat.ltb_spec 500 (length (before ++ id :: after')%list))
      as [Hfull|Hroom].
    + rewrite length_app in Hfull. simpl in Hfull.
      assert (100 <= length before)%nat as Hbefore by lia.
      rewrite (evictOldest_eq _ Hnd').
      rewrite take_app_le, drop_app_le by exact Hbefore.
      exists (filter (fun v => v = "") (take 100 before)
                ++ drop 100 before)%list, after'.
      split; [now rewrite <- app_assoc | lia].
    + exists before, after'. split; [reflexivity | lia].
Qed.

Lemma runHandler_remembered deliveries st id newer :
  handlerInvariant st ->
  (newer + length deliveries <= 400)%nat ->
  remembered id newer st ->
  remembered id (newer + length deliveries) (runHandler deliveries st).
Proof.
  revert st newer.
  induction deliveries as [|[[nowMs acceptedAtMs] message] rest IH];
    intros st newer Hst Hlen Hr.
  - simpl. now rewrite Nat.add_0_r.
  - simpl in Hlen |- *.
    replace (newer + S (length rest))%nat with (S newer + length rest)%nat
      by lia.
    apply IH; [now apply onMessageCreate_invariant | lia |].
    apply onMessageCreate_remembered; [exact Hst | lia | exact Hr].
Qed.

(** X27: a message is not handled twice.  Once the handler has let a
    message past the dedupe check (it is accepted, or answered with the
    cooldown notice), every delivery carrying the same message id is
    ignored and changes nothing, immediately and also after up to 400
    further deliveries of any kind. *)
Theorem handled_message_is_deduplicated (nowMs acceptedAtMs : Z)
    (message : DiscordMessage) (st : HandlerState)
    (more : list Delivery) :
  handlerInvariant st ->
  fst (onMessageCreate nowMs acceptedAtMs message st) <> Ignored ->
  (length more <= 400)%nat ->
  let st2 := runHandler more (snd (onMessageCreate nowMs acceptedAtMs message st)) in
  forall nowMs' acceptedAtMs' again,
    message_id again = message_id message ->
    onMessageCreate nowMs' acceptedAtMs' again st2 = (Ignored, st2).
Proof.
  intros Hst Hr Hmore. cbv zeta.
  set (st1 := snd (onMessageCreate nowMs acceptedAtMs message st)).
  assert (handlerInvariant st1) as Hst1 by now apply onMessageCreate_invariant.
  assert (remembered (message_id message) 0 st1) as Hrem.
  { destruct (onMessageCreate_processed _ _ _ _ Hr) as [Hnew Hp].
    destruct Hst as [Hnd Hlen].
    assert (NoDup (processedMessages st ++ [message_id message])%list)
      as Hnd'.
    { apply NoDup_app. split; [exact Hnd | split; [|apply NoDup_singleton]].
      intros x Hx Hx'. apply list_elem_of_singleton in Hx'. now subst. }
    unfold remembered. fold st1 in Hp. rewrite Hp. cbv zeta.
    destruct (Nat.ltb_spec 500
                (length (processedMessages st ++ [message_id message])%list))
      as [Hfull|Hroom].
    - rewrite length_app in Hfull. simpl in Hfull.
      rewrite (evictOldest_eq _ Hnd').
      rewrite take_app_le, drop_app_le by lia.
      exists (filter (fun v => v = "") (take 100 (processedMessages st))
                ++ drop 100 (processedMessages st))%list, [].
      split; [now rewrite <- app_assoc | simpl; lia].
    - exists (processedMessages st), []. split; [reflexivity | simpl; lia]. }
  pose proof (runHandler_remembered more st1 (message_id message) 0 Hst1
                ltac:(simpl; lia) Hrem) as (before & after & Hl & _).
  intros nowMs' acceptedAtMs' again Hid.
  unfold onMessageCreate. rewrite Hid.
  assert (setHas (message_id message) (processedMessages (runHandler more st1))
          = true) as ->.
  { apply setHas_elem. rewrite Hl. apply elem_of_app. right. now left. }
  destruct (author_bot again); [reflexivity|].
  now destruct (mentionsBot again).
Qed.

Lemma handled_message_is_deduplicated_witness :
  let first := onMessageCreate 10000 10001 (mention "m-1" "alice")
                 newHandlerState in
  let more := [(10002, 10003, mention "m-2" "bob")] in
  fst first = Accepted /\
  onMessageCreate 20000 20001 (mention "m-1" "alice")
    (runHandler more (snd first))
  = (Ignored, runHandler more (snd first)).
Proof.
  cbv zeta.
  assert (handlerInvariant newHandlerState) as Hst.
  { split; [constructor | simpl; lia]. }
  assert (fst (onMessageCreate 10000 10001 (mention "m-1" "alice")
                 newHandlerState) = Accepted) as Haccepted
    by (vm_compute; reflexivity).
  assert (fst (onMessageCreate 10000 10001 (mention "m-1" "alice")
                 newHandlerState) <> Ignored) as Hr
    by (rewrite Haccepted; discriminate).
  split; [exact Haccepted|].
  apply (handled_message_is_deduplicated 10000 10001 (mention "m-1" "alice")
           newHandlerState [(10002, 10003, mention "m-2" "bob")] Hst Hr).
  - simpl. lia.
  - reflexivity.
Defined.

Lemma onMessageCreate_cooldowns nowMs acceptedAtMs message st :
  userCooldowns (snd (onMessageCreate nowMs acceptedAtMs message st)) =
  match fst (onMessageCreate nowMs acceptedAtMs message st) with
  | Accepted => <[author_id message := acceptedAtMs]> (userCooldowns st)
  | _ => userCooldowns st
  end.
Proof.
  unfold onMessageCreate.
  destruct (author_bot message); [reflexivity|].
  destruct (mentionsBot message); simpl; [|reflexivity].
  destruct (setHas _ _); [reflexivity|].
  now destruct (Z.ltb _ _).
Qed.

Lemma onMessageCreate_accepted nowMs acceptedAtMs message st :
  fst (onMessageCreate nowMs acceptedAtMs message st) = Accepted ->
  COOLDOWN_MS
    <= nowMs - default 0 (userCooldowns st !! author_id message).
Proof.
  unfold onMessageCreate.
  destruct (author_bot message); [discriminate|].
  destruct (mentionsBot message); simpl; [|discriminate].
  destruct (setHas _ _); [discriminate|].
  destruct (Z.ltb_spec (nowMs - default 0 (userCooldowns st
                                             !! author_id message))
              COOLDOWN_MS); [discriminate|].
  intros _. lia.
Qed.

Lemma runHandler_keepsCooldown user since between st :
  Forall (keepsCooldown user since) between ->
  userCooldowns st !! user = Some since ->
  userCooldowns (runHandler between st) !! user = Some since.
Proof.
  intros Hb. revert st.
  induction Hb as [|[[nowMs acceptedAtMs] message] rest Hd _ IH];
    intros st Hst; [exact Hst|].
  simpl. apply IH. rewrite onMessageCreate_cooldowns.
  destruct (fst (onMessageCreate nowMs acceptedAtMs message st)) eqn:Hdec;
    try exact Hst.
  simpl in Hd. destruct Hd as [Hother|Hearly].
  - now rewrite lookup_insert_ne.
  - apply onMessageCreate_accepted in Hdec.
    destruct (decide (author_id message = user)) as [Heq|Hne];
      [|now rewrite lookup_insert_ne].
    rewrite Heq, Hst in Hdec. simpl in Hdec. lia.
Qed.

(** X28: commands of one user are accepted at least five seconds apart,
    and waiting is enough.  After a message of a user has been accepted (the
    cooldown starting at the clock reading taken on acceptance), and after
    any deliveries that are other users' or come before the five seconds
    are over, the user's next message is accepted only if the clock has
    advanced by at least 5000 ms; and a new message that mentions the bot
    is accepted as soon as it has: rejected attempts do not extend the
    cooldown. *)
Theorem cooldown_spaces_commands (nowMs1 acceptedAtMs1 : Z)
    (first : DiscordMessage) (st : HandlerState) (between : list Delivery)
    (nowMs acceptedAtMs : Z) (next : DiscordMessage) :
  fst (onMessageCreate nowMs1 acceptedAtMs1 first st) = Accepted ->
  Forall (keepsCooldown (author_id first) acceptedAtMs1) between ->
  author_id next = author_id first ->
  let st2 :=
    runHandler between (snd (onMessageCreate nowMs1 acceptedAtMs1 first st)) in
  let decision := fst (onMessageCreate nowMs acceptedAtMs next st2) in
  (decision = Accepted -> COOLDOWN_MS <= nowMs - acceptedAtMs1) /\
  (author_bot next = false -> mentionsBot next = true ->
   setHas (message_id next) (processedMessages st2) = false ->
   decision =
     if Z.ltb (nowMs - acceptedAtMs1) COOLDOWN_MS then CoolingDown
     else Accepted).
Proof.
  intros Haccepted Hbetween Hauthor. cbv zeta.
  assert (userCooldowns
            (runHandler between (snd (onMessageCreate nowMs1 acceptedAtMs1 first st)))
            !! author_id first = Some acceptedAtMs1) as Hcool.
  { apply runHandler_keepsCooldown; [exact Hbetween|].
    rewrite onMessageCreate_cooldowns, Haccepted. apply lookup_insert_eq. }
  set (st2 := runHandler between _) in *. clearbody st2.
  split.
  - intros Hdec. apply onMessageCreate_accepted in Hdec.
    rewrite Hauthor, Hcool in Hdec. exact Hdec.
  - intros Hbot Hmention Hnew. unfold onMessageCreate.
    rewrite Hbot, Hmention, Hnew, Hauthor, Hcool. simpl.
    now destruct (Z.ltb _ _).
Qed.

Lemma cooldown_spaces_commands_witness :
  let first := onMessageCreate 10000 10001 (mention "m-1" "alice")
                 newHandlerState in
  let between := [(10500, 10501, mention "m-2" "bob");
                  (12000, 12001, mention "m-3" "alice")] in
  let st2 := runHandler between (snd first) in
  fst first = Accepted /\
  fst (onMessageCreate 15000 15001 (mention "m-4" "alice") st2) = CoolingDown /\
  fst (onMessageCreate 15001 15002 (mention "m-4" "alice") st2) = Accepted.
Proof.
  cbv zeta.
  assert (fst (onMessageCreate 10000 10001 (mention "m-1" "alice")
                 newHandlerState) = Accepted) as Haccepted
    by (vm_compute; reflexivity).
  assert (Forall (keepsCooldown "alice" 10001)
            [(10500, 10501, mention "m-2" "bob");
             (12000, 12001, mention "m-3" "alice")]) as Hbetween.
  { apply Forall_cons. split; [left; discriminate|].
    apply Forall_cons. split; [right; reflexivity|]. constructor. }
  split; [exact Haccepted | split].
  - exact (proj2 (cooldown_spaces_commands 10000 10001 (mention "m-1" "alice")
                    newHandlerState _ 15000 15001 (mention "m-4" "alice")
                    Haccepted Hbetween eq_refl) eq_refl eq_refl eq_refl).
  - exact (proj2 (cooldown_spaces_commands 10000 10001 (mention "m-1" "alice")
                    newHandlerState _ 15001 15002 (mention "m-4" "alice")
                    Haccepted Hbetween eq_refl) eq_refl eq_refl eq_refl).
Defined.

(** ** DiscordMessageRouter.ts: helpers of the deterministic fallback *)

Lemma insertByScore_In x y l :
  In y (insertByScore x l) <-> y = x \/ In y l.
Proof.
  induction l as [|z l IH]; simpl; [intuition|].
  destruct (Z.ltb (snd x) (snd z)); simpl; [rewrite IH|]; intuition.
Qed.

Lemma sortByScore_In y l : In y (sortByScore l) <-> In y l.
Proof.
  unfold sortByScore. induction l as [|x l IH]; simpl; [reflexivity|].
  rewrite insertByScore_In, IH. intuition.
Qed.

Lemma head_In {A} (l : list A) x : head l = Some x -> In x l.
Proof. destruct l; simpl; [discriminate | intros [= ->]; now left]. Qed.

Local Transparent pickBestNaturalTradeMarket.

(** X29: the fallback only ever picks an active market.  Whatever the
    message and the timeframe hint, [pickBestNaturalTradeMarket] answers a
    market of the candidate list whose status is active, and answers null
    exactly when no candidate is active. *)
Theorem pickBestNaturalTradeMarket_active_only (markets : list Market)
    (normalizedMessage timeframeHint : string) :
  let picked :=
    pickBestNaturalTradeMarket markets normalizedMessage timeframeHint in
  (forall market, picked = Some market ->
     In market markets /\ market_status market = active) /\
  (picked = None <->
   forall market, In market markets -> market_status market <> active).
Proof.
  cbv zeta. unfold pickBestNaturalTradeMarket.
  set (activeMarkets :=
         List.filter (fun market => isActive (market_status market)) markets).
  assert (forall m, In m activeMarkets <->
                    In m markets /\ market_status m = active) as Hactive.
  { intros m. subst activeMarkets. rewrite filter_In.
    destruct (market_status m); simpl; intuition discriminate. }
  destruct activeMarkets as [|first others] eqn:Eactive.
  { split; [discriminate|]. split; [|reflexivity].
    intros _ m Hm Hst. apply (proj2 (Hactive m)). now split. }
  rewrite <- Eactive in *.
  match goal with
  | |- context [match ?c with [] => activeMarkets | _ :: _ => ?c end] =>
      set (strict := c)
  end.
  set (pool := match strict with [] => activeMarkets | _ :: _ => strict end).
  assert (forall m, In m pool -> In m activeMarkets) as Hpool.
  { intros m. subst pool. destruct strict as [|s0 ss] eqn:Es; [tauto|].
    rewrite <- Es. subst strict. rewrite filter_In. tauto. }
  assert (pool <> []) as Hne.
  { subst pool. destruct strict; [rewrite Eactive|]; discriminate. }
  match goal with
  | |- context [sortByScore ?l] => set (scored := l)
  end.
  assert (forall m z, In (m, z) (sortByScore scored) -> In m pool) as Hsorted.
  { intros m z Hin. apply (proj1 (sortByScore_In _ _)) in Hin.
    subst scored.
    apply in_map_iff in Hin. destruct Hin as (m0 & [= <- _] & Hm0).
    exact Hm0. }
  assert (exists m, head pool = Some m) as [h Hh].
  { destruct pool; [now destruct Hne | eauto]. }
  assert (forall picked,
            match sortByScore scored with
            | [] => head pool
            | (market, score) :: _ =>
                if Z.ltb 0 score then Some market else head pool
            end = Some picked -> In picked pool) as Hpick.
  { intros picked. revert Hsorted.
    destruct (sortByScore scored) as [|[m z] rest]; intros Hsorted.
    - apply head_In.
    - destruct (Z.ltb 0 z); [|apply head_In].
      intros [= <-]. apply (Hsorted m z). now left. }
  split.
  - intros market Hm. apply Hactive, Hpool, Hpick, Hm.
  - split.
    + intros Hnone. exfalso.
      destruct (sortByScore scored) as [|[m z] rest];
        [congruence|].
      destruct (Z.ltb 0 z); congruence.
    + intros Hnone. exfalso.
      assert (In first activeMarkets) as Hf by (rewrite Eactive; now left).
      apply Hactive in Hf. destruct Hf as [Hin Hst].
      exact (Hnone first Hin Hst).
Qed.

Local Opaque pickBestNaturalTradeMarket.

(** X30: a trade-history request of the fallback asks for 1 to 20 trades.
    Whatever the message, the limit read off it is a whole number between
    1 and 20: a written number is clamped to that range, a number word is
    1 to 10, and the default is 5. *)
Theorem tradeHistoryLimit_bounded (normalized : string) :
  exists n : Z,
    tradeHistoryLimit normalized = inject_Z n /\ 1 <= n <= 20.
Proof.
  unfold tradeHistoryLimit.
  destruct (regexMatch LAST_N_TRADES_NUMERIC normalized) as [caps|].
  - eexists. split; [reflexivity | lia].
  - destruct (regexMatch LAST_N_TRADES_WORD normalized) as [caps|].
    + unfold wordToNumber. eexists. split; [reflexivity|].
      repeat match goal with
      | |- context [if ?b then _ else _] => destruct b
      end; lia.
    + exists 5. split; [reflexivity | lia].
Qed.
